(** * web-ext: browser connection, extension install and multi-runner fan-out

    A shallow embedding of the parts of web-ext that launch Firefox with an
    unpacked extension and keep it reloaded:

    - [src/cmd/run.js] in its two revisions (the async/await one and the
      earlier promise-chain one): [defaultFirefoxClient], [run], and of the
      async/await one [defaultAddonReload], [defaultWatcherCreator] and the
      keypress loop;
    - [src/firefox/index.js]: [defaultRemotePortFinder], [run],
      [installExtension], [configureProfile], [createProfile],
      [copyProfile];
    - [src/extension-runners/index.js]: [MultiExtensionRunner],
      [defaultWatcherCreator], [defaultReloadStrategy].

    Promises are modelled by the value they settle with; asynchronous
    completion order, where it matters, is an explicit list of settlement
    events. Calls to the logger are dropped: the logger is a sink and
    never changes control flow. *)

From Stdlib Require Import ZArith Lia Bool.
From stdpp Require Import base option list list_numbers strings gmap pretty.

Local Open Scope string_scope.

(* ===================================================================== *)
(** ** JavaScript values that cross the modelled interfaces *)
(* ===================================================================== *)

Module Js.

(** Modelled from the spec: the error classes of [src/errors.js], which
    is not among the sources. [run.js] imports [WebExtError] and
    [RemoteTempInstallNotSupported]; the spec's taxonomy (section 7) has
    a fatal generic protocol error next to them. [TCPConnectError] is
    the helper class the unit tests reject with. *)
Inductive ErrorClass :=
| ErrorCls
| TypeErrorCls
| TCPConnectError
| WebExtError
| RemoteTempInstallNotSupported.

#[global] Instance ErrorClass_eq_dec : EqDecision ErrorClass.
Proof. solve_decision. Defined.

(** An [Error] object: its class, its [message] and its optional [code]
    property (set by Node on socket and file-system failures). *)
Record JsError := mkError {
  errClass : ErrorClass;
  message : string;
  code : option string;
}.

#[global] Instance JsError_eq_dec : EqDecision JsError.
Proof. solve_decision. Defined.

(** What a [throw] or a rejection can carry. [throw lastError] in
    [establishConnection] throws [undefined] when the loop body never
    ran, so [undefined] is a possible reason. *)
Inductive JsValue :=
| JsUndefined
| JsErrorValue (e : JsError).

#[global] Instance JsValue_eq_dec : EqDecision JsValue.
Proof. solve_decision. Defined.

(** The outcome a promise settles with. *)
Inductive Settled (A : Type) :=
| Fulfilled (a : A)
| Rejected (reason : JsValue).
Arguments Fulfilled {A} a.
Arguments Rejected {A} reason.

Definition isFulfilled {A} (s : Settled A) : bool :=
  match s with Fulfilled _ => true | Rejected _ => false end.

(** [new WebExtError(message)] *)
Definition newWebExtError (msg : string) : JsError :=
  mkError WebExtError msg None.

(** Modelled from the spec: the class hierarchy of [src/errors.js]
    (not among the sources): every class derives from [Error], and the
    temporary-install error is a kind of [WebExtError]. *)
Definition superclass (c : ErrorClass) : option ErrorClass :=
  match c with
  | ErrorCls => None
  | TypeErrorCls => Some ErrorCls
  | TCPConnectError => Some ErrorCls
  | WebExtError => Some ErrorCls
  | RemoteTempInstallNotSupported => Some WebExtError
  end.

Definition subclassOf (c target : ErrorClass) : bool :=
  bool_decide (c = target)
  || match superclass c with
     | None => false
     | Some p =>
         bool_decide (p = target)
         || match superclass p with
            | None => false
            | Some q => bool_decide (q = target)
            end
     end.

(** [value instanceof cls] *)
Definition instanceOf (v : JsValue) (cls : ErrorClass) : bool :=
  match v with
  | JsUndefined => false
  | JsErrorValue e => subclassOf (errClass e) cls
  end.

(** Modelled from the spec: [isErrorWithCode] of [src/errors.js] (not
    among the sources). The spec asks that a socket-level refusal be a
    typed error distinct from every other one; the code recognises it by
    the error's [code] property. *)
Definition isErrorWithCode (codeWanted : string) (v : JsValue) : bool :=
  match v with
  | JsUndefined => false
  | JsErrorValue e =>
      match code e with
      | Some c => String.eqb c codeWanted
      | None => false
      end
  end.

(** [promise.then(onFulfilled, onRejected)] where both handlers return
    a plain value. *)
Definition thenBoth {A B} (p : Settled A) (ok : A -> B) (ko : JsValue -> B)
    : Settled B :=
  match p with
  | Fulfilled a => Fulfilled (ok a)
  | Rejected r => Fulfilled (ko r)
  end.

End Js.
Export Js.

(* ===================================================================== *)
(** ** Asynchronous code over a store *)
(* ===================================================================== *)

(** An [async] body (or a chain of [.then]s) that works on a store [St]:
    it leaves the store changed and settles. A rejection skips the rest of
    the body, as a [throw] or a rejected [await] does. *)
Module Async.

Definition Async (St A : Type) : Type := St -> Settled A * St.

Definition ret {St A} (a : A) : Async St A := fun s => (Fulfilled a, s).

(** [throw reason] *)
Definition throw {St A} (reason : JsValue) : Async St A :=
  fun s => (Rejected reason, s).

Definition bind {St A B} (m : Async St A) (k : A -> Async St B) : Async St B :=
  fun s =>
    match m s with
    | (Fulfilled a, s') => k a s'
    | (Rejected r, s') => (Rejected r, s')
    end.

(** [await promise] for a promise whose outcome is known. *)
Definition await {St A} (p : Settled A) : Async St A := fun s => (p, s).

(** A synchronous side effect on the store. *)
Definition effect {St} (f : St -> St) : Async St unit :=
  fun s => (Fulfilled tt, f s).

(** [try { body } catch (error) { handler(error) }], also
    [promise.catch(handler)]. *)
Definition tryCatch {St A} (body : Async St A) (handler : JsValue -> Async St A)
    : Async St A :=
  fun s =>
    match body s with
    | (Fulfilled a, s') => (Fulfilled a, s')
    | (Rejected r, s') => handler r s'
    end.

(** Modelled from the spec: [onlyErrorsWithCode(code, handler)] of
    [src/errors.js] (not among the sources): a rejection handler that
    runs [handler] on an error with the wanted code and throws every
    other error again. *)
Definition onlyErrorsWithCode {St A} (codeWanted : string)
    (handler : JsValue -> Async St A) (error : JsValue) : Async St A :=
  if isErrorWithCode codeWanted error then handler error else throw error.

(** Modelled from the spec: [onlyInstancesOf(cls, handler)] of
    [src/errors.js] (not among the sources), the same by class. *)
Definition onlyInstancesOf {St A} (cls : ErrorClass)
    (handler : JsValue -> Async St A) (error : JsValue) : Async St A :=
  if instanceOf error cls then handler error else throw error.

(** The sequencing notations [x ← m; k] and [m;; k]. *)
#[global] Instance Async_ret {St} : MRet (Async St) := fun A a => ret a.
#[global] Instance Async_bind {St} : MBind (Async St) := fun A B k m => bind m k.

End Async.
Import Async.

(* ===================================================================== *)
(** ** [src/firefox/index.js] *)
(* ===================================================================== *)

Module FirefoxApp.

(** *** The file system seen by [installExtension] *)

Inductive FsNode :=
| Directory
| File (content : string).

(** Paths to what is there. A path is there only with the directory it
    lies in. *)
Abbreviation Files := (gmap string FsNode).

(** A write stream of [nodeFs.createWriteStream]: the path it is to
    open, the data handed to it so far, and whether [end()] has been
    called. Its file is opened, and the data written, when the event loop
    gets to it, not when the stream is made. *)
Record WriteStream := mkWriteStream {
  wsPath : string;
  wsData : string;
  wsEnded : bool;
}.

(** The files, and the write streams that are left to the event loop:
    their I/O is still to come and no promise waits for it. *)
Record FileSystem := mkFileSystem {
  files : Files;
  detached : list WriteStream;
}.

(** The errors of Node's [fs], told apart by their [code]. *)
Definition fsError (c : string) : JsValue :=
  JsErrorValue (mkError ErrorCls c (Some c)).

(** *** The arguments of [installExtension] *)

(** [manifestData.applications.gecko.id] *)
Record Gecko := mkGecko { gecko_id : option string }.
Record Applications := mkApplications { gecko : option Gecko }.
Record ExtensionManifest := mkManifest { applications : option Applications }.

(** A [FirefoxProfile]; only [extensionsDir] is read here. *)
Record FirefoxProfile := mkProfile {
  profilePath : string;
  extensionsDir : option string;
}.

(** The object handed to [installExtension]. A property a caller leaves
    out is [None] ([undefined] once destructured). [asProxy] is what the
    later revision of [run.js] passes; this revision of [installExtension]
    does not destructure it. *)
Record InstallParams := mkInstallParams {
  manifestData : ExtensionManifest;
  profile : FirefoxProfile;
  extensionPath : option string;
  sourceDir : option string;
  asShadowInstall : option bool;
  asProxy : option bool;
}.

(** JavaScript truthiness of the two kinds of value tested here. *)
Definition truthyString (s : option string) : bool :=
  match s with
  | None | Some EmptyString => false
  | Some _ => true
  end.

Definition truthyBool (b : option bool) : bool := default false b.

Definition typeError (msg : string) : JsValue :=
  JsErrorValue (mkError TypeErrorCls msg None).

(** [manifestData.applications.gecko.id]; reading a property of
    [undefined] throws. *)
Definition geckoId (m : ExtensionManifest) : Settled (option string) :=
  match applications m with
  | None => Rejected (typeError "Cannot read property 'gecko' of undefined")
  | Some apps =>
      match gecko apps with
      | None => Rejected (typeError "Cannot read property 'id' of undefined")
      | Some g => Fulfilled (gecko_id g)
      end
  end.

(** A value inside a template literal. *)
Definition template (s : option string) : string := default "undefined" s.

Section InstallExtension.

(** [path.join] and [path.dirname] of Node. *)
Variable pathJoin : string -> string -> string.
Variable dirname : string -> string.

(** Why nothing can be reached or made at a path that is not there, if
    so: the directory it lies in is missing, or is no directory. *)
Definition parentError (path : string) (fs : Files) : option JsValue :=
  match fs !! dirname path with
  | Some Directory => None
  | Some (File _) => Some (fsError "ENOTDIR")
  | None => Some (fsError "ENOENT")
  end.

(** [fs.stat(path)] *)
Definition stat (path : string) : Async FileSystem unit :=
  fun fs =>
    match files fs !! path with
    | Some _ => (Fulfilled tt, fs)
    | None =>
        (Rejected (match files fs !! dirname path with
                   | Some (File _) => fsError "ENOTDIR"
                   | _ => fsError "ENOENT"
                   end), fs)
    end.

(** [fs.mkdir(path)], which makes no parent directory. *)
Definition mkdir (path : string) : Async FileSystem unit :=
  fun fs =>
    match files fs !! path with
    | Some _ => (Rejected (fsError "EEXIST"), fs)
    | None =>
        match parentError path (files fs) with
        | Some error => (Rejected error, fs)
        | None =>
            (Fulfilled tt,
             mkFileSystem (<[path := Directory]> (files fs)) (detached fs))
        end
    end.

(** The I/O of a write stream: its file is opened for writing, which
    makes or empties it, and the data is written. When the file cannot be
    opened the stream emits the error and nothing is written. *)
Definition openAndWrite (ws : WriteStream) (fs : Files)
    : option JsValue * Files :=
  match fs !! wsPath ws with
  | Some Directory => (Some (fsError "EISDIR"), fs)
  | Some (File _) => (None, <[wsPath ws := File (wsData ws)]> fs)
  | None =>
      match parentError (wsPath ws) fs with
      | Some error => (Some error, fs)
      | None => (None, <[wsPath ws := File (wsData ws)]> fs)
      end
  end.

(** The streams left to the event loop do their I/O, oldest first: the
    errors they emit, which nobody listens to, and the files
    afterwards. *)
Fixpoint drain (streams : list WriteStream) (fs : Files)
    : list JsValue * Files :=
  match streams with
  | [] => ([], fs)
  | ws :: rest =>
      let '(error, fs1) := openAndWrite ws fs in
      let '(errors, fs2) := drain rest fs1 in
      (match error with
       | Some e => e :: errors
       | None => errors
       end, fs2)
  end.

(** The files once the event loop has nothing left to do. *)
Definition later (fs : FileSystem) : Files :=
  snd (drain (detached fs) (files fs)).

Definition streamErrors (fs : FileSystem) : list JsValue :=
  fst (drain (detached fs) (files fs)).

(** [nodeFs.createWriteStream(destPath)]: nothing is opened yet. *)
Definition createWriteStream (destPath : string) : WriteStream :=
  mkWriteStream destPath EmptyString false.

(** The stream is left to the event loop. *)
Definition detach (ws : WriteStream) : Async FileSystem unit :=
  effect (fun fs => mkFileSystem (files fs) (detached fs ++ [ws])%list).

(** [writeStream.write(chunk)]: the chunk is kept for when the file is
    open. [undefined] is not a chunk: the call throws, and the stream,
    dropped as it is, still opens its file. *)
Definition write (ws : WriteStream) (chunk : option string)
    : Async FileSystem WriteStream :=
  match chunk with
  | None =>
      detach ws;;
      throw (JsErrorValue
               (mkError TypeErrorCls "Invalid non-string/buffer chunk" None))
  | Some data =>
      ret (mkWriteStream (wsPath ws) (wsData ws ++ data) (wsEnded ws))
  end.

(** [writeStream.end()] *)
Definition endStream (ws : WriteStream) : WriteStream :=
  mkWriteStream (wsPath ws) (wsData ws) true.

(** [streamToPromise(writeStream)] of the stream-to-promise package. A
    stream that is no longer writable, as it is once [end()] has been
    called, gets a promise that is resolved already: nothing waits for
    its file, and nothing hears its error. A stream that is still written
    to gets a promise for its [finish], rejected by its [error]. *)
Definition streamToPromise (ws : WriteStream) : Async FileSystem unit :=
  if wsEnded ws then detach ws
  else
    fun fs =>
      match openAndWrite ws (files fs) with
      | (Some error, files') =>
          (Rejected error, mkFileSystem files' (detached fs))
      | (None, files') => (Fulfilled tt, mkFileSystem files' (detached fs))
      end.

(** [nodeFs.createReadStream(path)] read to its end. *)
Definition readStream (path : string) : Async FileSystem string :=
  fun fs =>
    match files fs !! path with
    | Some (File content) => (Fulfilled content, fs)
    | Some Directory => (Rejected (fsError "EISDIR"), fs)
    | None =>
        (Rejected (match files fs !! dirname path with
                   | Some (File _) => fsError "ENOTDIR"
                   | _ => fsError "ENOENT"
                   end), fs)
    end.

(** [readStream.pipe(writeStream)] with [streamToPromise(readStream)]:
    the source is read to its end and handed to the write stream, which
    [pipe] ends afterwards. When the source cannot be read, the promise
    of the read stream is rejected and the write stream stays open: its
    file is made and left empty. The read stream is made first and is
    taken to fail first when both streams fail; a file piped onto itself
    is read as it was. *)
Definition pipe (extensionPath : string) (ws : WriteStream)
    : Async FileSystem WriteStream :=
  tryCatch
    (content ← readStream extensionPath;
     write ws (Some content))
    (fun error => detach ws;; throw error).

Definition installExtension (p : InstallParams) : Async FileSystem unit :=
  let extDir := extensionsDir (profile p) in
  tryCatch
    (if truthyString extDir
     then stat (template extDir)
     else throw (JsErrorValue
            (newWebExtError "profile.extensionsDir was unexpectedly empty")))
    (onlyErrorsWithCode "ENOENT" (fun _ => mkdir (template extDir)));;
  id ← await (geckoId (manifestData p));
  if truthyBool (asShadowInstall p) then
    let destPath := pathJoin (template extDir) (template id) in
    let writeStream := createWriteStream destPath in
    writeStream ← write writeStream (sourceDir p);
    let writeStream := endStream writeStream in
    streamToPromise writeStream
  else
    match extensionPath p with
    | None => throw (typeError "path must be a string or Buffer")
    | Some extensionPath =>
        let destPath := pathJoin (template extDir) (template id ++ ".xpi") in
        let writeStream := createWriteStream destPath in
        writeStream ← pipe extensionPath writeStream;
        streamToPromise writeStream
    end.

End InstallExtension.

(** *** Launching: [defaultRemotePortFinder] and [run] *)

(** The argument object of [fxRunner] (the environment is left out). *)
Record FxRunnerOptions := mkFxRunnerOptions {
  binary : option string;
  binary_args : option (list string);
  no_remote : bool;
  listen : Z;
  foreground : bool;
  fx_profile : string;
  verbose : bool;
}.

(** What launching leaves behind: the probe clients that were
    disconnected and the browsers that were started. *)
Record LaunchWorld (Client : Type) := mkLaunchWorld {
  disconnected : list Client;
  launched : list FxRunnerOptions;
}.
Arguments mkLaunchWorld {Client} _ _.
Arguments disconnected {Client} _.
Arguments launched {Client} _.

Record PortFinderParams (Client : Type) := mkPortFinderParams {
  portToTry : option Z;
  connectToFirefox : option (Z -> Settled Client);
}.
Arguments mkPortFinderParams {Client} _ _.
Arguments portToTry {Client} _.
Arguments connectToFirefox {Client} _.

Section Launch.

Context {Client FirefoxProcess : Type}.

(** [REMOTE_PORT] and the default connector of [src/firefox/remote.js],
    and [fx-runner], none of them among the sources. *)
Variable REMOTE_PORT : Z.
Variable defaultFirefoxConnector : Z -> Settled Client.
Variable defaultFxRunner : FxRunnerOptions -> Settled FirefoxProcess.

(** [client.disconnect()] *)
Definition disconnect (client : Client) : Async (LaunchWorld Client) unit :=
  effect (fun w => mkLaunchWorld (client :: disconnected w) (launched w)).

Definition portInUse (port : Z) : JsError :=
  newWebExtError
    ("Cannot listen on port " ++ pretty port ++ " because it's in use").

Definition defaultRemotePortFinder (params : PortFinderParams Client)
    : Async (LaunchWorld Client) Z :=
  let portToTry := default REMOTE_PORT (portToTry params) in
  let connectToFirefox :=
    default defaultFirefoxConnector (connectToFirefox params) in
  tryCatch
    (client ← await (connectToFirefox portToTry);
     disconnect client;;
     throw (JsErrorValue (portInUse portToTry)))
    (onlyErrorsWithCode "ECONNREFUSED"
       (fun _ => (* The connection was refused so this port is good to use. *)
          ret portToTry)).

Record RunOptions := mkRunOptions {
  fxRunner : option (FxRunnerOptions -> Settled FirefoxProcess);
  findRemotePort : option (Async (LaunchWorld Client) Z);
  firefoxBinary : option string;
  binaryArgs : option (list string);
}.

(** The call of [fxRunner], recorded; of what it resolves with, only the
    process is kept. *)
Definition callFxRunner (run : FxRunnerOptions -> Settled FirefoxProcess)
    (o : FxRunnerOptions) : Async (LaunchWorld Client) FirefoxProcess :=
  effect (fun w => mkLaunchWorld (disconnected w) (o :: launched w));;
  await (run o).

Definition run (profile : FirefoxProfile) (options : RunOptions)
    : Async (LaunchWorld Client) FirefoxProcess :=
  let fxRunner := default defaultFxRunner (fxRunner options) in
  let findRemotePort :=
    default (defaultRemotePortFinder (mkPortFinderParams None None))
            (findRemotePort options) in
  remotePort ← findRemotePort;
  firefox ← callFxRunner fxRunner
    {| binary := firefoxBinary options;
       binary_args := binaryArgs options;
       no_remote := true;
       listen := remotePort;
       foreground := true;
       fx_profile := profilePath profile;
       verbose := true |};
  ret firefox.

End Launch.

End FirefoxApp.

(* ===================================================================== *)
(** ** [src/cmd/run.js]: the connection retrier and the run command *)
(* ===================================================================== *)

(** What a run of the retrier leaves behind: how often the connect
    function was invoked (what a [sinon.spy] counts) and the delays of the
    timers it waited for, latest first. *)
Record RetryWorld := mkRetryWorld {
  callCount : nat;
  timers : list Z;
}.

Definition freshWorld : RetryWorld := mkRetryWorld 0 [].

(** [setTimeout(resolve, ms)] that is awaited. *)
Definition setTimeout (ms : Z) (w : RetryWorld) : RetryWorld :=
  mkRetryWorld (callCount w) (ms :: timers w).

(** Total time spent waiting on timers, in ms. *)
Definition waited (w : RetryWorld) : Z := foldr Z.add 0%Z (timers w).

(** A connect function is given by the outcome of each of its invocations,
    counted from 0; [Client] is the connected [RemoteFirefox]. *)
Definition FirefoxConnectorFn (Client : Type) := nat -> Settled Client.

(** [await connectToFirefox()] *)
Definition invoke {Client} (connectToFirefox : FirefoxConnectorFn Client)
    (w : RetryWorld) : Settled Client * RetryWorld :=
  (connectToFirefox (callCount w), mkRetryWorld (S (callCount w)) (timers w)).

(** The destructured argument of [defaultFirefoxClient]; an absent
    property is [None] and takes its default. *)
Record CreateFirefoxClientParams (Client : Type) := mkParams {
  connectToFirefox : option (FirefoxConnectorFn Client);
  maxRetries : option Z;
  retryInterval : option Z;
}.
Arguments mkParams {Client} _ _ _.
Arguments connectToFirefox {Client} _.
Arguments maxRetries {Client} _.
Arguments retryInterval {Client} _.

Definition noParams {Client} : CreateFirefoxClientParams Client :=
  mkParams None None None.

(** *** What the run command works with, in both revisions *)

(** The answer of [installTemporaryAddon]: [installResult.addon.id]. *)
Record FirefoxRDPResponseAddon := mkAddonResponse { addon_id : string }.

(** A connected [RemoteFirefox], by what its calls settle with. *)
Record RemoteFirefox := mkRemoteFirefox {
  installTemporaryAddon : string -> Settled FirefoxRDPResponseAddon;
  reloadAddon : string -> Settled unit;
}.

(** The [firefoxApp] (in the earlier revision, [firefox]) module handed
    to [run], by what its functions settle with. The unit tests hand in
    such a fake. *)
Record FirefoxAppApi (FirefoxProcess : Type) := mkFirefoxApp {
  useProfile : string -> Settled FirefoxApp.FirefoxProfile;
  copyProfile : string -> Settled FirefoxApp.FirefoxProfile;
  createProfile : Settled FirefoxApp.FirefoxProfile;
  installExtension : FirefoxApp.InstallParams -> Settled unit;
  firefoxRun : FirefoxApp.FirefoxProfile -> option string -> list string
               -> Settled FirefoxProcess;
}.
Arguments mkFirefoxApp {FirefoxProcess} _ _ _ _ _.
Arguments useProfile {FirefoxProcess} _ _.
Arguments copyProfile {FirefoxProcess} _ _.
Arguments createProfile {FirefoxProcess} _.
Arguments installExtension {FirefoxProcess} _ _.
Arguments firefoxRun {FirefoxProcess} _ _ _ _.

(** The calls the run command makes to its collaborators, oldest first. *)
Inductive RunEvent :=
| UseProfile (path : string)
| CopyProfile (path : string)
| CreateProfile
| InstallExtension (params : FirefoxApp.InstallParams)
| FirefoxRun (firefoxBinary : option string) (binaryArgs : list string)
| FirefoxClient
| InstallTemporaryAddon (sourceDir : string)
| KeypressLoop
| ReloadStrategy (sourceDir : string) (addonId : option string).

Definition emit (e : RunEvent) : Async (list RunEvent) unit :=
  effect (fun trace => (trace ++ [e])%list).

(** [startUrl?: string | Array<string>] *)
Inductive StartUrl :=
| OneUrl (url : string)
| ManyUrls (urls : list string).

(** *** [src/cmd/run.js], the async/await revision *)

Module RunCmd.
Section Client.

Context {Client : Type}.

(** [defaultFirefoxConnector] of [src/firefox/remote.js], which is not
    among the sources. *)
Variable defaultFirefoxConnector : FirefoxConnectorFn Client.

(** The body of
    [for (let retries = 0; retries <= maxRetries; retries++)], run over
    the values [retries] takes; when they are used up the loop is left
    and [lastError] is thrown. *)
Fixpoint retryLoop (connect : FirefoxConnectorFn Client) (interval : Z)
    (range : list Z) (lastError : JsValue) (w : RetryWorld)
    : Settled Client * RetryWorld :=
  match range with
  | [] => (Rejected lastError, w)
  | _retries :: rest =>
      let '(attempt, w1) := invoke connect w in
      match attempt with
      | Fulfilled client => (Fulfilled client, w1)
      | Rejected error =>
          if isErrorWithCode "ECONNREFUSED" error
          then retryLoop connect interval rest error (setTimeout interval w1)
          else (Rejected error, w1)
      end
  end.

Definition establishConnection (connect : FirefoxConnectorFn Client)
    (maxRetries interval : Z) (w : RetryWorld)
    : Settled Client * RetryWorld :=
  retryLoop connect interval (seqZ 0 (maxRetries + 1)) JsUndefined w.

Definition default_maxRetries : Z := 250.
Definition default_retryInterval : Z := 120.

Definition defaultFirefoxClient (params : CreateFirefoxClientParams Client)
    (w : RetryWorld) : Settled Client * RetryWorld :=
  establishConnection
    (default defaultFirefoxConnector (connectToFirefox params))
    (default default_maxRetries (maxRetries params))
    (default default_retryInterval (retryInterval params))
    w.

End Client.

Section Run.

Context {FirefoxProcess : Type}.

(** [getValidatedManifest] and [getManifestId] of [src/util/manifest.js],
    which is not among the sources. *)
Variable getValidatedManifest : string -> Settled FirefoxApp.ExtensionManifest.
Variable getManifestId : FirefoxApp.ExtensionManifest -> option string.

Record CmdRunParams := mkCmdRunParams {
  sourceDir : string;
  artifactsDir : string;
  firefox : option string;
  firefoxProfile : option string;
  keepProfileChanges : bool;
  preInstall : bool;
  noReload : bool;
  browserConsole : bool;
  startUrl : option StartUrl;
  (** [stdin.isTTY && stdin instanceof tty.ReadStream] *)
  stdinIsTTY : bool;
}.

Record CmdRunOptions := mkCmdRunOptions {
  firefoxApp : FirefoxAppApi FirefoxProcess;
  (** what [firefoxClient()] settles with *)
  firefoxClient : Settled RemoteFirefox;
}.

(** [DefaultExtensionRunner], by the fields its constructor sets. *)
Record DefaultExtensionRunner := mkExtensionRunner {
  runner_sourceDir : string;
  runner_manifestData : FirefoxApp.ExtensionManifest;
  runner_profilePath : option string;
  runner_keepProfileChanges : bool;
  runner_firefoxApp : FirefoxAppApi FirefoxProcess;
  runner_firefox : option string;
  runner_browserConsole : bool;
  runner_startUrl : option StartUrl;
}.

Definition getProfile (this : DefaultExtensionRunner)
    : Async (list RunEvent) FirefoxApp.FirefoxProfile :=
  let profilePath := runner_profilePath this in
  if FirefoxApp.truthyString profilePath then
    if runner_keepProfileChanges this then
      emit (UseProfile (FirefoxApp.template profilePath));;
      await (useProfile (runner_firefoxApp this) (FirefoxApp.template profilePath))
    else
      emit (CopyProfile (FirefoxApp.template profilePath));;
      await (copyProfile (runner_firefoxApp this) (FirefoxApp.template profilePath))
  else
    emit CreateProfile;;
    await (createProfile (runner_firefoxApp this)).

Definition installAsTemporaryAddon (this : DefaultExtensionRunner)
    (client : RemoteFirefox) : Async (list RunEvent) FirefoxRDPResponseAddon :=
  emit (InstallTemporaryAddon (runner_sourceDir this));;
  await (installTemporaryAddon client (runner_sourceDir this)).

(** The object [installAsProxy] hands to [firefoxApp.installExtension]. *)
Definition proxyInstallParams (this : DefaultExtensionRunner)
    (profile : FirefoxApp.FirefoxProfile) : FirefoxApp.InstallParams :=
  {| FirefoxApp.manifestData := runner_manifestData this;
     FirefoxApp.profile := profile;
     FirefoxApp.extensionPath := Some (runner_sourceDir this);
     FirefoxApp.sourceDir := None;
     FirefoxApp.asShadowInstall := None;
     FirefoxApp.asProxy := Some true |}.

Definition installAsProxy (this : DefaultExtensionRunner)
    (profile : FirefoxApp.FirefoxProfile) : Async (list RunEvent) (option string) :=
  emit (InstallExtension (proxyInstallParams this profile));;
  await (installExtension (runner_firefoxApp this)
           (proxyInstallParams this profile));;
  ret (getManifestId (runner_manifestData this)).

(** [if (startUrl)]: an empty string is falsy, an array never is. *)
Definition startUrls (startUrl : option StartUrl) : list string :=
  match startUrl with
  | None | Some (OneUrl EmptyString) => []
  | Some (OneUrl url) => [url]
  | Some (ManyUrls urls) => urls
  end.

Definition runnerRun (this : DefaultExtensionRunner)
    (profile : FirefoxApp.FirefoxProfile) : Async (list RunEvent) FirefoxProcess :=
  let binaryArgs :=
    ((if runner_browserConsole this then ["-jsconsole"] else [])
     ++ (url ← startUrls (runner_startUrl this); ["--url"; url]))%list in
  emit (FirefoxRun (runner_firefox this) binaryArgs);;
  await (firefoxRun (runner_firefoxApp this) profile (runner_firefox this)
           binaryArgs).

(** The message of the error thrown when temporary installation is not
    supported. *)
Definition tempInstallNotSupported : string :=
  "Temporary add-on installation is not supported in this version "
  ++ "of Firefox (you need Firefox 49 or higher). For older Firefox "
  ++ "versions, use --pre-install".

(** The [run] command. It resolves with the [firefoxApp] it was given,
    which carries nothing new. The keypress loop is a task of its own that
    [run] starts and does not wait for; only its start is recorded. *)
Definition run (params : CmdRunParams) (options : CmdRunOptions)
    : Async (list RunEvent) unit :=
  let noReload := if preInstall params then true else noReload params in
  (* When not pre-installing the extension, we require a remote
     connection to Firefox. *)
  let requiresRemote := negb (preInstall params) in
  manifestData ← await (getValidatedManifest (sourceDir params));
  let runner :=
    {| runner_sourceDir := sourceDir params;
       runner_firefoxApp := firefoxApp options;
       runner_firefox := firefox params;
       runner_keepProfileChanges := keepProfileChanges params;
       runner_browserConsole := browserConsole params;
       runner_manifestData := manifestData;
       runner_profilePath := firefoxProfile params;
       runner_startUrl := startUrl params |} in
  profile ← getProfile runner;
  installed ←
    (if negb (preInstall params) then ret false
     else installAsProxy runner profile;; ret true);
  runningFirefox ← runnerRun runner profile;
  (if installed : bool then ret tt
   else if requiresRemote then
     emit FirefoxClient;;
     client ← await (firefoxClient options);
     addonId ←
       tryCatch
         (installResult ← installAsTemporaryAddon runner client;
          ret (addon_id installResult))
         (fun error =>
            if instanceOf error RemoteTempInstallNotSupported
            then throw (JsErrorValue (newWebExtError tempInstallNotSupported))
            else throw error);
     if noReload then ret tt
     else
       (if FirefoxApp.truthyString (Some addonId) then ret tt
        else throw (JsErrorValue (newWebExtError
               "Unexpected missing addonId in the installAsTemporaryAddon result")));;
       (if stdinIsTTY params then emit KeypressLoop else ret tt);;
       emit (ReloadStrategy (sourceDir params) (Some addonId))
   else ret tt);;
  ret tt.

End Run.

End RunCmd.

(** *** [src/cmd/run.js], the earlier promise-chain revision *)

Module RunCmdLegacy.
Section Client.

Context {Client : Type}.

Variable defaultFirefoxConnector : FirefoxConnectorFn Client.

(** [establishConnection] calls itself from a timer; [retries] is the
    counter of the enclosing closure. The recursion is bounded by
    [fuel]; [None] means the fuel ran out before the promise settled. *)
Fixpoint establishConnection (fuel : nat)
    (connect : FirefoxConnectorFn Client) (maxRetries interval : Z)
    (retries : Z) (w : RetryWorld)
    : option (Settled Client * RetryWorld) :=
  match fuel with
  | O => None
  | S fuel' =>
      let '(attempt, w1) := invoke connect w in
      match attempt with
      | Fulfilled connectedClient => Some (Fulfilled connectedClient, w1)
      | Rejected error =>
          (* .catch(onlyErrorsWithCode('ECONNREFUSED', ...)) *)
          if isErrorWithCode "ECONNREFUSED" error then
            if (retries >=? maxRetries)%Z
            then (* throw error, caught by the last .catch: reject(error) *)
              Some (Rejected error, w1)
            else
              establishConnection fuel' connect maxRetries interval
                (retries + 1) (setTimeout interval w1)
          else (* thrown again, caught by the last .catch: reject(error) *)
            Some (Rejected error, w1)
      end
  end.

Definition default_maxRetries : Z := 25.
Definition default_retryInterval : Z := 120.

(** One attempt and at most [maxRetries] further ones. *)
Definition enoughFuel (maxRetries : Z) : nat := S (Z.to_nat maxRetries).

Definition defaultFirefoxClient (params : CreateFirefoxClientParams Client)
    (w : RetryWorld) : option (Settled Client * RetryWorld) :=
  let maxRetries := default default_maxRetries (maxRetries params) in
  establishConnection (enoughFuel maxRetries)
    (default defaultFirefoxConnector (connectToFirefox params))
    maxRetries
    (default default_retryInterval (retryInterval params))
    0 w.

End Client.

Section Run.

Context {FirefoxProcess : Type}.

Variable getValidatedManifest : string -> Settled FirefoxApp.ExtensionManifest.

Record CmdRunParams := mkCmdRunParams {
  sourceDir : string;
  artifactsDir : string;
  firefoxBinary : option string;
  firefoxProfile : option string;
  installToProfile : bool;
  noReload : bool;
}.

Record CmdRunOptions := mkCmdRunOptions {
  firefoxClient : Settled RemoteFirefox;
  firefox : FirefoxAppApi FirefoxProcess;
}.

(** [ExtensionRunner], by the fields its constructor sets. *)
Record ExtensionRunner := mkExtensionRunner {
  runner_sourceDir : string;
  runner_manifestData : FirefoxApp.ExtensionManifest;
  runner_firefoxProfile : option string;
  runner_firefox : FirefoxAppApi FirefoxProcess;
  runner_firefoxBinary : option string;
}.

Definition getProfile (this : ExtensionRunner)
    : Async (list RunEvent) FirefoxApp.FirefoxProfile :=
  let firefoxProfile := runner_firefoxProfile this in
  if FirefoxApp.truthyString firefoxProfile then
    emit (CopyProfile (FirefoxApp.template firefoxProfile));;
    await (copyProfile (runner_firefox this) (FirefoxApp.template firefoxProfile))
  else
    emit CreateProfile;;
    await (createProfile (runner_firefox this)).

Definition installAsTemporaryAddon (this : ExtensionRunner)
    (client : RemoteFirefox) : Async (list RunEvent) FirefoxRDPResponseAddon :=
  emit (InstallTemporaryAddon (runner_sourceDir this));;
  await (installTemporaryAddon client (runner_sourceDir this)).

(** The object [installAsTextFileInProfile] hands to
    [firefox.installExtension]. *)
Definition shadowInstallParams (this : ExtensionRunner)
    (profile : FirefoxApp.FirefoxProfile) : FirefoxApp.InstallParams :=
  {| FirefoxApp.manifestData := runner_manifestData this;
     FirefoxApp.profile := profile;
     FirefoxApp.extensionPath := None;
     FirefoxApp.sourceDir := Some (runner_sourceDir this);
     FirefoxApp.asShadowInstall := Some true;
     FirefoxApp.asProxy := None |}.

Definition installAsTextFileInProfile (this : ExtensionRunner)
    (profile : FirefoxApp.FirefoxProfile) : Async (list RunEvent) unit :=
  emit (InstallExtension (shadowInstallParams this profile));;
  await (installExtension (runner_firefox this)
           (shadowInstallParams this profile)).

Definition runnerRun (this : ExtensionRunner)
    (profile : FirefoxApp.FirefoxProfile) : Async (list RunEvent) FirefoxProcess :=
  emit (FirefoxRun (runner_firefoxBinary this) []);;
  await (firefoxRun (runner_firefox this) profile (runner_firefoxBinary this) []).

Definition createRunner (params : CmdRunParams) (options : CmdRunOptions)
    : Async (list RunEvent) ExtensionRunner :=
  manifestData ← await (getValidatedManifest (sourceDir params));
  ret {| runner_sourceDir := sourceDir params;
         runner_firefox := firefox options;
         runner_firefoxBinary := firefoxBinary params;
         runner_manifestData := manifestData;
         runner_firefoxProfile := firefoxProfile params |}.

Definition tempInstallNotSupported : string :=
  "Temporary add-on installation is not supported in this version "
  ++ "of Firefox (you need Firefox 49 or higher). For older Firefox "
  ++ "versions, use --install-to-profile".

(** The [run] command: one chain of [.then]s with a [.catch] before the
    last one. It resolves with the Firefox process. *)
Definition run (params : CmdRunParams) (options : CmdRunOptions)
    : Async (list RunEvent) FirefoxProcess :=
  firefox ←
    tryCatch
      (runner ← createRunner params options;
       profile ← getProfile runner;
       installed ←
         (if negb (installToProfile params) then ret false
          else installAsTextFileInProfile runner profile;; ret true);
       firefox ← runnerRun runner profile;
       emit FirefoxClient;;
       client ← await (firefoxClient options);
       (if installed : bool then ret tt
        else installAsTemporaryAddon runner client;; ret tt);;
       ret firefox)
      (onlyInstancesOf RemoteTempInstallNotSupported
         (fun _ => throw (JsErrorValue (newWebExtError tempInstallNotSupported))));
  (if noReload params then ret tt
   else emit (ReloadStrategy (sourceDir params) None));;
  ret firefox.

End Run.

End RunCmdLegacy.

(* ===================================================================== *)
(** ** [Promise.all] over promises that settle one after another *)
(* ===================================================================== *)

Module PromiseAll.

(** The state of [Promise.all(promises)]: what each element has settled
    with so far ([None] while it is pending) and what the combined promise
    has settled with. *)
Record State (V : Type) := mkState {
  elements : list (option (Settled V));
  combined : option (Settled (list V));
}.
Arguments mkState {V} _ _.
Arguments elements {V} _.
Arguments combined {V} _.

(** The values of the elements when every one of them is fulfilled. *)
Fixpoint values {V} (els : list (option (Settled V))) : option (list V) :=
  match els with
  | [] => Some []
  | Some (Fulfilled v) :: rest => cons v <$> values rest
  | _ :: _ => None
  end.

(** [Promise.all] of [n] pending promises; of none, it is fulfilled at
    once with the empty array. *)
Definition init {V} (n : nat) : State V :=
  mkState (replicate n None)
          (match n with O => Some (Fulfilled []) | S _ => None end).

(** Element [i] settles with [outcome]. A promise settles once: a later
    outcome for the same element, or one for an index that is no element,
    changes nothing. The combined promise is rejected by the first element
    that rejects and fulfilled when the last one fulfils. *)
Definition settle {V} (i : nat) (outcome : Settled V) (st : State V) : State V :=
  match elements st !! i with
  | Some None =>
      let els := <[i := Some outcome]> (elements st) in
      mkState els
        (match combined st with
         | Some done => Some done
         | None =>
             match outcome with
             | Rejected reason => Some (Rejected reason)
             | Fulfilled _ => Fulfilled <$> values els
             end
         end)
  | _ => st
  end.

(** The elements settle in the order [order] lists them, element [i] with
    the outcome [outcomes !! i]; elements that [order] leaves out stay
    pending. *)
Fixpoint settleAll {V} (outcomes : list (Settled V)) (order : list nat)
    (st : State V) : State V :=
  match order with
  | [] => st
  | i :: rest =>
      settleAll outcomes rest
        (match outcomes !! i with
         | Some outcome => settle i outcome st
         | None => st
         end)
  end.

(** [Promise.all(promises)] once the elements in [order] have settled. *)
Definition all {V} (outcomes : list (Settled V)) (order : list nat)
    : option (Settled (list V)) :=
  combined (settleAll outcomes order (init (length outcomes))).

End PromiseAll.

(* ===================================================================== *)
(** ** [src/extension-runners/index.js]: [MultiExtensionRunner] *)
(* ===================================================================== *)

Module ExtensionRunners.

(** An [IExtensionRunner], by what the promise each method returns
    settles with. When it settles is the caller's [order].
    [registerCleanup(fn)] returns nothing: it is given by what it throws,
    if it throws. *)
Record IExtensionRunner := mkRunner {
  getName : string;
  run : Settled unit;
  reloadAllExtensions : Settled unit;
  reloadExtensionBySourceDir : string -> Settled unit;
  registerCleanup : option JsValue;
  exit : Settled unit;
}.

(** [ExtensionRunnerReloadResult]; an optional property that is not set
    is [None]. *)
Record ExtensionRunnerReloadResult := mkReloadResult {
  runnerName : string;
  reloadError : option JsValue;
  sourceDir : option string;
}.

(** The argument of [desktopNotifications]. *)
Record Notification := mkNotification {
  title : string;
  notificationMessage : string;
}.

(** A string between double quotes. *)
Definition quoted (s : string) : string :=
  String (Ascii.ascii_of_nat 34) s ++ String (Ascii.ascii_of_nat 34) EmptyString.

(** [reloadError.message] *)
Definition messageOf (e : JsValue) : string :=
  match e with
  | JsErrorValue err => message err
  | JsUndefined => "undefined"
  end.

(** The notification [handleReloadResults] raises for one result, if
    any. *)
Definition reloadNotification (r : ExtensionRunnerReloadResult)
    : option Notification :=
  match reloadError r with
  | Some error =>
      if instanceOf error ErrorCls then
        let message := "Error occurred while reloading" in
        let message :=
          match sourceDir r with
          | None | Some EmptyString => message
          | Some dir => message ++ " " ++ quoted dir ++ " "
          end in
        let message :=
          message ++ "on " ++ quoted (runnerName r) ++ " - "
                  ++ messageOf error in
        Some (mkNotification "web-ext run: extension reload error" message)
      else None
  | None => None
  end.

(** [handleReloadResults(results)]: the notifications shown, in order. *)
Definition handleReloadResults (results : list ExtensionRunnerReloadResult)
    : list Notification :=
  omap reloadNotification results.

Module MultiExtensionRunner.

(** [getName()] *)
Definition getName : string := "Multi Extension Runner".

(** The promise pushed for one runner by [reloadAllExtensions]. *)
Definition reloadPromise (runner : IExtensionRunner)
    : Settled ExtensionRunnerReloadResult :=
  thenBoth (reloadAllExtensions runner)
    (fun _ => mkReloadResult (ExtensionRunners.getName runner) None None)
    (fun error =>
       mkReloadResult (ExtensionRunners.getName runner) (Some error) None).

(** The promise pushed for one runner by [reloadExtensionBySourceDir]. *)
Definition reloadPromiseBySourceDir (sourceDir : string)
    (runner : IExtensionRunner) : Settled ExtensionRunnerReloadResult :=
  thenBoth (reloadExtensionBySourceDir runner sourceDir)
    (fun _ =>
       mkReloadResult (ExtensionRunners.getName runner) None (Some sourceDir))
    (fun error =>
       mkReloadResult (ExtensionRunners.getName runner) (Some error)
         (Some sourceDir)).

(** [Promise.all(promises).then((results) => { this.handleReloadResults(results); return results; })]:
    the outcome so far and the notifications shown. *)
Definition collect (promises : list (Settled ExtensionRunnerReloadResult))
    (order : list nat)
    : option (Settled (list ExtensionRunnerReloadResult)) * list Notification :=
  match PromiseAll.all promises order with
  | Some (Fulfilled results) =>
      (Some (Fulfilled results), handleReloadResults results)
  | Some (Rejected reason) => (Some (Rejected reason), [])
  | None => (None, [])
  end.

(** [reloadAllExtensions()], the members' reloads settling in [order]. *)
Definition reloadAllExtensions (extensionRunners : list IExtensionRunner)
    (order : list nat) :=
  collect (reloadPromise <$> extensionRunners) order.

(** [reloadExtensionBySourceDir(sourceDir)] *)
Definition reloadExtensionBySourceDir (extensionRunners : list IExtensionRunner)
    (sourceDir : string) (order : list nat) :=
  collect (reloadPromiseBySourceDir sourceDir <$> extensionRunners) order.

(** [await Promise.all(promises)] of an [async] method returning nothing. *)
Definition awaitAll (promises : list (Settled unit)) (order : list nat)
    : option (Settled unit) :=
  match PromiseAll.all promises order with
  | Some (Fulfilled _) => Some (Fulfilled tt)
  | Some (Rejected reason) => Some (Rejected reason)
  | None => None
  end.

(** [run()] *)
Definition run (extensionRunners : list IExtensionRunner) (order : list nat)
    : option (Settled unit) :=
  awaitAll (ExtensionRunners.run <$> extensionRunners) order.

(** [exit()] *)
Definition exit (extensionRunners : list IExtensionRunner) (order : list nat)
    : option (Settled unit) :=
  awaitAll (ExtensionRunners.exit <$> extensionRunners) order.

(** *** [registerCleanup] *)

(** What can be observed of a registration, oldest first. *)
Inductive CleanupEvent :=
| MemberCleanup (i : nat)
| CallbackInvoked.

#[global] Instance CleanupEvent_eq_dec : EqDecision CleanupEvent.
Proof. solve_decision. Defined.

(** The promises made by [registerCleanup(cleanupCallback)], one per
    member, and what has happened since. *)
Record Registration := mkRegistration {
  promises : PromiseAll.State unit;
  history : list CleanupEvent;
}.

(** [Promise.all(promises).then(cleanupCallback, cleanupCallback)]: the
    callback runs when the combined promise goes from pending to
    settled, whichever way it settles. *)
Definition reaction (before after : PromiseAll.State unit) : list CleanupEvent :=
  match PromiseAll.combined before, PromiseAll.combined after with
  | None, Some _ => [CallbackInvoked]
  | _, _ => []
  end.

(** The executors of the members' promises, run in the [for] loop,
    member [i] first: what a member's [registerCleanup] throws rejects
    the promise made for it. *)
Fixpoint executors (i : nat) (extensionRunners : list IExtensionRunner)
    (st : PromiseAll.State unit) : PromiseAll.State unit :=
  match extensionRunners with
  | [] => st
  | runner :: rest =>
      executors (S i) rest
        (match ExtensionRunners.registerCleanup runner with
         | Some thrown => PromiseAll.settle i (Rejected thrown) st
         | None => st
         end)
  end.

(** [registerCleanup(cleanupCallback)]: every member is given the
    [resolve] of a promise of its own as its cleanup callback. *)
Definition registerCleanup (extensionRunners : list IExtensionRunner)
    : Registration :=
  let st :=
    executors 0 extensionRunners (PromiseAll.init (length extensionRunners)) in
  mkRegistration st
    (reaction (PromiseAll.mkState [] None) st).

(** Member [i] calls the cleanup callback it was given. *)
Definition memberCleanup (i : nat) (r : Registration) : Registration :=
  let st := PromiseAll.settle i (Fulfilled tt) (promises r) in
  mkRegistration st
    (history r ++ MemberCleanup i :: reaction (promises r) st)%list.

(** The members call their cleanup callbacks in the order of [calls]. *)
Definition cleanups (calls : list nat) (r : Registration) : Registration :=
  foldl (fun r i => memberCleanup i r) r calls.

(** How often the registered callback has been invoked. *)
Definition callbackCount (r : Registration) : nat :=
  length (filter (fun e => e = CallbackInvoked) (history r)).

End MultiExtensionRunner.

End ExtensionRunners.

(* ===================================================================== *)
(** ** The Chromium runner and its reload channel *)
(* ===================================================================== *)

(** [src/extension-runners/chromium.js] is not among the sources; only
    its unit test is. *)
Module ChromiumRunner.

(** Modelled from the spec: the one message of the reload channel
    (section 6), a JSON object [{type: ...}]; [chromium.js] is missing. *)
Record ControlMessage := mkControlMessage { type : string }.

#[global] Instance ControlMessage_eq_dec : EqDecision ControlMessage.
Proof. solve_decision. Defined.

Definition webExtReloadAllExtensions : ControlMessage :=
  mkControlMessage "webExtReloadAllExtensions".

(** Modelled from the spec: a companion's WebSocket connection
    (section 4.5): whether it is still open and the frames delivered to
    it, oldest first; [chromium.js] is missing. *)
Record Connection := mkConnection {
  isOpen : bool;
  delivered : list ControlMessage;
}.

(** Modelled from the spec: the Chromium runner (sections 4.4 and 4.5),
    by the source directories it manages and the connections its server
    has accepted; [chromium.js] is missing. *)
Record ChromiumExtensionRunner := mkChromium {
  sourceDirs : list string;
  connections : list Connection;
}.

(** Modelled from the spec: the server accepts several companion
    connections at a time (section 4.5); [chromium.js] is missing. *)
Definition accept (r : ChromiumExtensionRunner) : ChromiumExtensionRunner :=
  mkChromium (sourceDirs r) (connections r ++ [mkConnection true []]).

(** Modelled from the spec: connection [i] closes (section 4.5);
    [chromium.js] is missing. *)
Definition close (i : nat) (r : ChromiumExtensionRunner) : ChromiumExtensionRunner :=
  mkChromium (sourceDirs r)
    (alter (fun c => mkConnection false (delivered c)) i (connections r)).

(** Modelled from the spec: a control message is broadcast to all
    currently-open connections, and a closed one never blocks delivery to
    the others (section 4.5); [chromium.js] is missing. *)
Definition deliver (m : ControlMessage) (c : Connection) : Connection :=
  if isOpen c then mkConnection true (delivered c ++ [m]) else c.

Definition broadcast (m : ControlMessage) (r : ChromiumExtensionRunner)
    : ChromiumExtensionRunner :=
  mkChromium (sourceDirs r) (deliver m <$> connections r).

(** Modelled from the spec: [reloadAllExtensions] is one control message
    broadcast to the companion (section 4.4); [chromium.js] is missing. *)
Definition reloadAllExtensions : Async ChromiumExtensionRunner unit :=
  effect (broadcast webExtReloadAllExtensions).

(** Modelled from the spec: [reloadExtensionBySourceDir] fails with
    [UnknownSourceDir] if no extension is registered under the path
    (section 4.4) and on this variant degrades to reloading everything
    (section 4.5); [chromium.js] is missing. *)
Definition reloadExtensionBySourceDir (dir : string)
    : Async ChromiumExtensionRunner unit :=
  fun r =>
    if bool_decide (dir ∈ sourceDirs r)
    then reloadAllExtensions r
    else (Rejected (JsErrorValue (newWebExtError "UnknownSourceDir")), r).

End ChromiumRunner.

(* ===================================================================== *)
(** ** [src/firefox/index.js]: profiles *)
(* ===================================================================== *)

Module FirefoxProfiles.

(** The value of a preference. *)
Inductive PrefValue :=
| PrefBool (b : bool)
| PrefNumber (n : Z)
| PrefString (s : string).

(** The calls [copyProfile] and [createProfile] make, oldest first. *)
Inductive ProfileCall :=
| IsDirectory (path : string)
| CopyDirectory (profileDirectory : string)
| CopyByName (name : string)
| NewProfile
| ConfigureProfile (app : option string).

Definition pcall (c : ProfileCall) : Async (list ProfileCall) unit :=
  effect (fun calls => (calls ++ [c])%list).

Section Profiles.

(** A [FirefoxProfile] object of the firefox-profile package, with the
    two methods [configureProfile] calls on it. *)
Context {Profile : Type}.
Variable setPreference : string -> PrefValue -> Profile -> Profile.
Variable updatePreferences : Profile -> Profile.

(** [getPrefs] of [src/firefox/preferences.js], which is not among the
    sources: the preferences of an application, in the order of
    [Object.keys], or what it throws. *)
Variable defaultPrefGetter : string -> JsValue + list (string * PrefValue).

(** [isDirectory] of [src/util/is-directory.js], which is not among the
    sources, and the promisified [FirefoxProfile.copy],
    [copyFromUserProfile] and [new FirefoxProfile()] of the
    firefox-profile package. *)
Variable isDirectory : string -> Settled bool.
Variable copy : string -> Settled Profile.
Variable defaultUserProfileCopier : string -> Settled Profile.
Variable newFirefoxProfile : Profile.

(** A thrown value inside a template literal. *)
Variable toString : JsValue -> string.

Record ConfigureOptions := mkConfigureOptions {
  configure_app : option string;
  getPrefs : option (string -> JsValue + list (string * PrefValue));
}.

(** [configureProfile(profile, {app, getPrefs})]; what the executor
    throws rejects the promise. *)
Definition configureProfile (profile : Profile) (options : ConfigureOptions)
    : Settled Profile :=
  let app := default "firefox" (configure_app options) in
  let getPrefs := default defaultPrefGetter (getPrefs options) in
  match getPrefs app with
  | inl thrown => Rejected thrown
  | inr prefs =>
      let profile :=
        foldl (fun profile '(pref, value) => setPreference pref value profile)
          profile prefs in
      Fulfilled (updatePreferences profile)
  end.

Record ProfileOptions := mkProfileOptions {
  copyFromUserProfile : option (string -> Settled Profile);
  configureThisProfile : option (Profile -> option string -> Settled Profile);
  app : option string;
}.

(** [configureThisProfile(profile, {app})] *)
Definition callConfigure (options : ProfileOptions) (profile : Profile)
    : Async (list ProfileCall) Profile :=
  let configureThisProfile :=
    default (fun profile app =>
               configureProfile profile (mkConfigureOptions app None))
            (configureThisProfile options) in
  pcall (ConfigureProfile (app options));;
  await (configureThisProfile profile (app options)).

(** [createProfile({app, configureThisProfile})] *)
Definition createProfile (options : ProfileOptions)
    : Async (list ProfileCall) Profile :=
  profile ← (pcall NewProfile;; ret newFirefoxProfile);
  callConfigure options profile.

(** [copyProfile(profileDirectory, {copyFromUserProfile, configureThisProfile, app})] *)
Definition copyProfile (profileDirectory : string) (options : ProfileOptions)
    : Async (list ProfileCall) Profile :=
  let copyByName :=
    default defaultUserProfileCopier (copyFromUserProfile options) in
  tryCatch
    (dirExists ← (pcall (IsDirectory profileDirectory);;
                  await (isDirectory profileDirectory));
     profile ←
       (if dirExists : bool then
          pcall (CopyDirectory profileDirectory);;
          await (copy profileDirectory)
        else
          pcall (CopyByName profileDirectory);;
          await (copyByName profileDirectory));
     callConfigure options profile)
    (fun error =>
       throw (JsErrorValue (newWebExtError
         ("Could not copy Firefox profile from " ++ profileDirectory ++ ": "
          ++ toString error)))).

End Profiles.

End FirefoxProfiles.

(* ===================================================================== *)
(** ** [src/extension-runners/index.js]: watching and the keypress loop *)
(* ===================================================================== *)

Module ReloadStrategy.

(** A key as [readline] reports it with a [keypress] event. *)
Record Key := mkKey {
  ctrl : bool;
  name : option string;
}.

(** [keyPressed.ctrl && keyPressed.name === 'c'] *)
Definition isCtrlC (key : Key) : bool :=
  ctrl key && bool_decide (name key = Some "c").

(** The calls made on the extension runner, the watcher, standard input
    and the process, oldest first. *)
Inductive Call :=
| RegisterCleanup
| ReloadExtensionBySourceDir (sourceDir : string)
| ReloadAllExtensions
| Exit
| WatcherClose
| StdinPause
| EmitKeypressEvents
| SetRawMode (mode : bool)
| Kill (signal : string).

#[global] Instance Call_eq_dec : EqDecision Call.
Proof. solve_decision. Defined.

(** The argument of [onSourceChange]. The watcher made from it, by
    [src/watcher.js] which is not among the sources, is given by it:
    [onChange] is what it calls when a watched file changes. *)
Record Watchpack := mkWatchpack {
  watchedSourceDir : string;
  watchedArtifactsDir : string;
  onChange : list Call;
  shouldWatchFile : string -> bool;
}.

Record WatcherCreatorParams := mkWatcherCreatorParams {
  reloadExtension : string -> list Call;
  creator_sourceDir : string;
  creator_artifactsDir : string;
  creator_ignoreFiles : option (list string);
}.

Section Strategy.

(** [createFileFilter] of [src/util/file-filter.js], which is not among
    the sources, by the [wantFile] of the filter it makes. *)
Variable createFileFilter :
  string -> string -> option (list string) -> string -> bool.

Definition defaultWatcherCreator (p : WatcherCreatorParams) : Watchpack :=
  let fileFilter :=
    createFileFilter (creator_sourceDir p) (creator_artifactsDir p)
      (creator_ignoreFiles p) in
  {| watchedSourceDir := creator_sourceDir p;
     watchedArtifactsDir := creator_artifactsDir p;
     onChange := reloadExtension p (creator_sourceDir p);
     shouldWatchFile := fun file => fileFilter file |}.

Record ReloadStrategyParams := mkStrategyParams {
  artifactsDir : string;
  ignoreFiles : option (list string);
  noInput : option bool;
  sourceDir : string;
}.

(** [stdin.isTTY] and [stdin instanceof tty.ReadStream] *)
Record Stdin := mkStdin {
  isTTY : bool;
  isTtyReadStream : bool;
}.

Record ReloadStrategyOptions := mkStrategyOptions {
  createWatcher : option (WatcherCreatorParams -> Watchpack);
  stdin : Stdin;
}.

(** The strategy once it is set up: its watcher, and whether the
    keypress loop is at its [await], with a [keypress] listener
    registered by [stdin.once]. *)
Record Strategy := mkStrategy {
  watcher : Watchpack;
  allowInput : bool;
  strategyStdin : Stdin;
  awaitingKey : bool;
}.

(** [defaultReloadStrategy(params, options)]: the calls of the set-up. *)
Definition defaultReloadStrategy (params : ReloadStrategyParams)
    (options : ReloadStrategyOptions) : Strategy * list Call :=
  let createWatcher := default defaultWatcherCreator (createWatcher options) in
  let stdin := stdin options in
  let allowInput := negb (default false (noInput params)) in
  let watcher :=
    createWatcher
      {| reloadExtension := fun watchedSourceDir =>
           [ReloadExtensionBySourceDir watchedSourceDir];
         creator_sourceDir := sourceDir params;
         creator_artifactsDir := artifactsDir params;
         creator_ignoreFiles := ignoreFiles params |} in
  if allowInput && isTTY stdin && isTtyReadStream stdin
  then (mkStrategy watcher allowInput stdin true,
        [RegisterCleanup; EmitKeypressEvents; SetRawMode true])
  else (mkStrategy watcher allowInput stdin false, [RegisterCleanup]).

(** One turn of [while (!userExit)] on the key that was awaited. The
    reload is not awaited. *)
Definition keypress (keyPressed : Key) (s : Strategy) : Strategy * list Call :=
  if isCtrlC keyPressed then
    (* userExit = true: the loop is left and the runner exited *)
    (mkStrategy (watcher s) (allowInput s) (strategyStdin s) false, [Exit])
  else if bool_decide (name keyPressed = Some "z") then
    (s,
     (if isTtyReadStream (strategyStdin s) then [SetRawMode false] else [])
     ++ [Kill "SIGTSTP"]
     ++ (if isTtyReadStream (strategyStdin s) then [SetRawMode true] else []))%list
  else if bool_decide (name keyPressed = Some "r") then
    (s, [ReloadAllExtensions])
  else (s, []).

(** What happens to a strategy that is set up. Keys arrive one per turn
    of the event loop. *)
Inductive Input :=
| Keypress (key : Key)
| SourceChange
| RunnerCleanup.

Definition react (input : Input) (s : Strategy) : Strategy * list Call :=
  match input with
  | Keypress key =>
      (* without a listener the event is lost *)
      if awaitingKey s then keypress key s else (s, [])
  | SourceChange => (s, onChange (watcher s))
  | RunnerCleanup =>
      (* the callback given to [registerCleanup] *)
      (s, (WatcherClose :: if allowInput s then [StdinPause] else [])%list)
  end.

Fixpoint reactAll (inputs : list Input) (s : Strategy) : Strategy * list Call :=
  match inputs with
  | [] => (s, [])
  | input :: rest =>
      let '(s1, calls) := react input s in
      let '(s2, later) := reactAll rest s1 in
      (s2, (calls ++ later)%list)
  end.

End Strategy.

End ReloadStrategy.

(* ===================================================================== *)
(** ** [src/cmd/run.js]: reloading the add-on *)
(* ===================================================================== *)

(** The parts of the async/await revision that reload the temporary
    add-on: [defaultAddonReload], [defaultWatcherCreator],
    [defaultReloadStrategy] and the keypress loop of [run]. *)
Module RunCmdReload.

(** The calls made on the client, the notifier, the Firefox process, the
    watcher and standard input, oldest first. *)
Inductive Call :=
| ReloadAddon (addonId : string)
| DesktopNotification (title message : string)
| FirefoxKill
| StdinPause
| ClientDisconnect
| WatcherClose.

#[global] Instance Call_eq_dec : EqDecision Call.
Proof. solve_decision. Defined.

Definition call (c : Call) : Async (list Call) unit :=
  effect (fun calls => (calls ++ [c])%list).

(** [defaultAddonReload({addonId, client})]. The handler reads
    [error.stack] and [error.message], which throws when the rejection
    carries [undefined]. *)
Definition defaultAddonReload (addonId : string) (client : RemoteFirefox)
    : Async (list Call) unit :=
  tryCatch
    (call (ReloadAddon addonId);;
     await (reloadAddon client addonId))
    (fun error =>
       match error with
       | JsUndefined =>
           throw (FirefoxApp.typeError
                    "Cannot read property 'stack' of undefined")
       | JsErrorValue e =>
           call (DesktopNotification "web-ext run: error occurred" (message e));;
           throw error
       end).

(** The argument of [onSourceChange], which stands for the watcher made
    from it by [src/watcher.js] (not among the sources). *)
Record Watchpack := mkWatchpack {
  watchedSourceDir : string;
  watchedArtifactsDir : string;
  onChange : Async (list Call) unit;
  shouldWatchFile : string -> bool;
}.

Record WatcherCreatorParams := mkWatcherCreatorParams {
  addonId : string;
  client : RemoteFirefox;
  sourceDir : string;
  artifactsDir : string;
  ignoreFiles : option (list string);
  addonReload : option (string -> RemoteFirefox -> Async (list Call) unit);
}.

Section Watcher.

(** [createFileFilter] of [src/util/file-filter.js], which is not among
    the sources, by the [wantFile] of the filter it makes. *)
Variable createFileFilter :
  string -> string -> option (list string) -> string -> bool.

Definition defaultWatcherCreator (p : WatcherCreatorParams) : Watchpack :=
  let addonReload := default defaultAddonReload (addonReload p) in
  let fileFilter :=
    createFileFilter (sourceDir p) (artifactsDir p) (ignoreFiles p) in
  {| watchedSourceDir := sourceDir p;
     watchedArtifactsDir := artifactsDir p;
     onChange := addonReload (addonId p) (client p);
     shouldWatchFile := fun file => fileFilter file |}.

(** [defaultReloadStrategy]: the watcher it creates and what its
    listener does when the Firefox process closes. *)
Definition defaultReloadStrategy (p : WatcherCreatorParams)
    (createWatcher : option (WatcherCreatorParams -> Watchpack))
    : Watchpack * Async (list Call) unit :=
  let createWatcher := default defaultWatcherCreator createWatcher in
  let watcher :=
    createWatcher
      (mkWatcherCreatorParams (addonId p) (client p) (sourceDir p)
         (artifactsDir p) (ignoreFiles p) None) in
  (watcher, call ClientDisconnect;; call WatcherClose).

End Watcher.

(** Where the keypress loop of [run] stands when the keys are used up. *)
Inductive LoopState :=
| AwaitingKey
| UserExit.

(** The task [run] spawns when standard input is a terminal, over the
    keys pressed; a reload is awaited before the next key is. A
    rejection is the end of the task. *)
Fixpoint keypressLoop
    (addonReload : string -> RemoteFirefox -> Async (list Call) unit)
    (addonId : string) (client : RemoteFirefox)
    (keys : list ReloadStrategy.Key) : Async (list Call) LoopState :=
  match keys with
  | [] => ret AwaitingKey
  | keyPressed :: rest =>
      if ReloadStrategy.isCtrlC keyPressed then
        (* userExit = true *)
        call FirefoxKill;;
        call StdinPause;;
        ret UserExit
      else if bool_decide (ReloadStrategy.name keyPressed = Some "r")
              && FirefoxApp.truthyString (Some addonId) then
        addonReload addonId client;;
        keypressLoop addonReload addonId client rest
      else keypressLoop addonReload addonId client rest
  end.

End RunCmdReload.

(* ===================================================================== *)
(** * The vocabulary of the properties *)
(* ===================================================================== *)

Local Open Scope list_scope.

(** ** The connection retrier *)

(** Invocation [i] of the connect function is refused. *)
Definition refusedAt {Client} (connect : FirefoxConnectorFn Client) (i : nat)
    : Prop :=
  exists error,
    connect i = Rejected error /\ isErrorWithCode "ECONNREFUSED" error = true.

(** An outcome that ends the retrying: a connection, or an error that is
    no refusal. *)
Definition decisive {Client} (outcome : Settled Client) : Prop :=
  match outcome with
  | Fulfilled _ => True
  | Rejected error => isErrorWithCode "ECONNREFUSED" error = false
  end.

(** The world after [n] more attempts of which [t] were followed by a
    wait of [interval] ms. *)
Definition advance (n t : nat) (interval : Z) (w : RetryWorld) : RetryWorld :=
  mkRetryWorld (callCount w + n) (replicate t interval ++ timers w).

(** ** [Promise.all] *)

(** The combined promise mirrors its elements as long as no element has
    rejected. *)
Definition mirrors {V} (st : PromiseAll.State V) : Prop :=
  PromiseAll.combined st
  = Fulfilled <$> PromiseAll.values (PromiseAll.elements st).

(** ** [MultiExtensionRunner] *)

(** [result] is the outcome of [runner]'s reload: it names the runner and
    the source directory asked for, and carries the runner's error when
    the reload was rejected and no error when it went through. *)
Definition outcomeOf
    (reload : ExtensionRunners.IExtensionRunner -> Settled unit)
    (dir : option string) (runner : ExtensionRunners.IExtensionRunner)
    (result : ExtensionRunners.ExtensionRunnerReloadResult) : Prop :=
  ExtensionRunners.runnerName result = ExtensionRunners.getName runner
  /\ ExtensionRunners.sourceDir result = dir
  /\ match reload runner with
     | Fulfilled _ => ExtensionRunners.reloadError result = None
     | Rejected error => ExtensionRunners.reloadError result = Some error
     end.

(** The result the two handlers of a reload promise make. *)
Definition resultOf
    (reload : ExtensionRunners.IExtensionRunner -> Settled unit)
    (dir : option string) (runner : ExtensionRunners.IExtensionRunner)
    : ExtensionRunners.ExtensionRunnerReloadResult :=
  ExtensionRunners.mkReloadResult (ExtensionRunners.getName runner)
    (match reload runner with Fulfilled _ => None | Rejected e => Some e end)
    dir.



(** ** The run command *)

(** The run reached the temporary installation of [dir] and the connected
    client rejected it with [error]. *)
Definition temporaryInstallFailed (trace : list RunEvent) (dir : string)
    (firefoxClient : Settled RemoteFirefox) (error : JsValue) : Prop :=
  InstallTemporaryAddon dir ∈ trace
  /\ exists client,
       firefoxClient = Fulfilled client
       /\ installTemporaryAddon client dir = Rejected error.

(** ** The Chromium reload channel *)

(** What one broadcast of [m] does to a connection: an open one gets
    exactly one more frame, [m]; a closed one gets nothing. *)
Definition receivedOnce (m : ChromiumRunner.ControlMessage)
    (before after : ChromiumRunner.Connection) : Prop :=
  ChromiumRunner.isOpen after = ChromiumRunner.isOpen before
  /\ ChromiumRunner.delivered after
     = if ChromiumRunner.isOpen before
       then ChromiumRunner.delivered before ++ [m]
       else ChromiumRunner.delivered before.

(** ** Installing into the profile *)

(** A directory is there at [dir], or one can be made: something is
    there already, or the directory [dir] lies in is one. *)
Definition canHold (dirname : string -> string) (fs : FirefoxApp.Files)
    (dir : string) : Prop :=
  is_Some (fs !! dir) \/ fs !! dirname dir = Some FirefoxApp.Directory.

(** The files once the directory, if it was missing, has been made. *)
Definition withDirectory (dir : string) (fs : FirefoxApp.Files)
    : FirefoxApp.Files :=
  match fs !! dir with
  | Some _ => fs
  | None => <[dir := FirefoxApp.Directory]> fs
  end.

(* ===================================================================== *)
(** * The runs of the unit tests and of the specification *)
(* ===================================================================== *)

(** ** The connection retrier *)

(** The error the tests refuse connections with. *)
Definition tcpConnectError : JsValue :=
  JsErrorValue (mkError TCPConnectError "failure" (Some "ECONNREFUSED")).

Definition alwaysRefused : FirefoxConnectorFn string :=
  fun _ => Rejected tcpConnectError.

(** Three refusals, then a connection. *)
Definition refusedThrice : FirefoxConnectorFn string :=
  fun i => if Nat.ltb i 3 then Rejected tcpConnectError else Fulfilled "client".

Definition notAConnectionError : JsError :=
  mkError ErrorCls "not a connection error" None.

(** Two refusals, then a handshake that fails. *)
Definition handshakeFailsThird : FirefoxConnectorFn string :=
  fun i =>
    if Nat.ltb i 2 then Rejected tcpConnectError
    else Rejected (JsErrorValue notAConnectionError).

(** ** Three runners *)

Definition reloadFailure : JsValue :=
  JsErrorValue (mkError ErrorCls "reload failed" None).

Definition healthyRunner (name : string) : ExtensionRunners.IExtensionRunner :=
  ExtensionRunners.mkRunner name (Fulfilled tt) (Fulfilled tt)
    (fun _ => Fulfilled tt) None (Fulfilled tt).

(** A runner whose reloads are rejected. *)
Definition failingRunner (name : string) : ExtensionRunners.IExtensionRunner :=
  ExtensionRunners.mkRunner name (Fulfilled tt) (Rejected reloadFailure)
    (fun _ => Rejected reloadFailure) None (Rejected reloadFailure).

Definition threeRunners : list ExtensionRunners.IExtensionRunner :=
  [healthyRunner "Firefox Desktop"; failingRunner "Firefox Android";
   healthyRunner "Chromium"].

Definition exitFailure : JsValue :=
  JsErrorValue (mkError ErrorCls "could not kill the browser" None).

(** A runner whose [exit()] is rejected. *)
Definition stuckRunner (name : string) : ExtensionRunners.IExtensionRunner :=
  ExtensionRunners.mkRunner name (Fulfilled tt) (Fulfilled tt)
    (fun _ => Fulfilled tt) None (Rejected exitFailure).


(** ** A run against an older Firefox *)

Definition minimalManifest : FirefoxApp.ExtensionManifest :=
  FirefoxApp.mkManifest
    (Some (FirefoxApp.mkApplications
       (Some (FirefoxApp.mkGecko (Some "minimal-example@web-ext-test-suite"))))).

Definition fakeProfile : FirefoxApp.FirefoxProfile :=
  FirefoxApp.mkProfile "/tmp/profile" (Some "/tmp/profile/extensions").

Definition fakeFirefoxApp : FirefoxAppApi string :=
  mkFirefoxApp (fun _ => Fulfilled fakeProfile) (fun _ => Fulfilled fakeProfile)
    (Fulfilled fakeProfile) (fun _ => Fulfilled tt)
    (fun _ _ _ => Fulfilled "firefox").

Definition notSupported : JsValue :=
  JsErrorValue (mkError RemoteTempInstallNotSupported EmptyString None).

Definition olderFirefox : RemoteFirefox :=
  mkRemoteFirefox (fun _ => Rejected notSupported) (fun _ => Fulfilled tt).

Definition runParams : RunCmd.CmdRunParams :=
  RunCmd.mkCmdRunParams "/src/minimal-web-ext" "/src/minimal-web-ext/artifacts"
    None None false false true false None false.

Definition legacyRunParams : RunCmdLegacy.CmdRunParams :=
  RunCmdLegacy.mkCmdRunParams "/src/minimal-web-ext"
    "/src/minimal-web-ext/artifacts" None None false true.

(** ** A Chromium runner with two companions *)

(** One companion connected and still open, one that has closed. *)
Definition chromiumWithTwoCompanions : ChromiumRunner.ChromiumExtensionRunner :=
  ChromiumRunner.close 0
    (ChromiumRunner.accept
       (ChromiumRunner.accept (ChromiumRunner.mkChromium ["/fake/sourceDir"] []))).

(** ** A profile without an extensions directory *)

(** [path.join] on paths without a trailing separator. *)
Definition posixJoin (a b : string) : string := (a ++ "/" ++ b)%string.

(** What comes before the last separator of a path, if it has one. *)
Fixpoint beforeLastSlash (path : string) : option string :=
  match path with
  | EmptyString => None
  | String c rest =>
      match beforeLastSlash rest with
      | Some dir => Some (String c dir)
      | None =>
          if Ascii.eqb c (Ascii.ascii_of_nat 47) then Some EmptyString else None
      end
  end.

(** [path.dirname] on such paths. *)
Definition posixDirname (path : string) : string :=
  match beforeLastSlash path with
  | Some EmptyString => "/"
  | Some dir => dir
  | None => "."
  end.

(** The runner whose [installAsTextFileInProfile] asks for a shadow
    install. *)
Definition legacyRunner : RunCmdLegacy.ExtensionRunner :=
  RunCmdLegacy.mkExtensionRunner "/src/minimal-web-ext" minimalManifest None
    fakeFirefoxApp None.

Definition freshProfile : FirefoxApp.FileSystem :=
  FirefoxApp.mkFileSystem
    {[ "/" := FirefoxApp.Directory;
       "/tmp" := FirefoxApp.Directory;
       "/tmp/profile" := FirefoxApp.Directory ]}
    [].

(** A profile in which a directory has the name the pointer file is to
    get. *)
Definition occupiedProfile : FirefoxApp.FileSystem :=
  FirefoxApp.mkFileSystem
    (<[ "/tmp/profile/extensions/minimal-example@web-ext-test-suite"
        := FirefoxApp.Directory ]>
       (<[ "/tmp/profile/extensions" := FirefoxApp.Directory ]>
          (FirefoxApp.files freshProfile)))
    [].

(** A thrown value inside a template literal: the [name: message] of an
    error whose [name] is left at [Error]. *)
Definition errorToString (v : JsValue) : string :=
  match v with
  | JsUndefined => "undefined"
  | JsErrorValue e => ("Error: " ++ message e)%string
  end.

(** ** A remote debugging port that is taken *)

(** Firefox already listens on port 6005. *)
Definition portTaken : Z -> Settled string :=
  fun port => if (port =? 6005)%Z then Fulfilled "probe"
              else Rejected tcpConnectError.

(* ===================================================================== *)
(** * Further vocabulary and runs *)
(* ===================================================================== *)

(** The outcome is a refusal, which the retrier retries. *)
Definition isRefusal {Client} (outcome : Settled Client) : bool :=
  match outcome with
  | Fulfilled _ => false
  | Rejected error => isErrorWithCode "ECONNREFUSED" error
  end.


(** The connect function rejects with [Error] objects only. Both
    revisions read [error.stack] of an error they do not retry, which
    throws on [undefined]. *)
Definition rejectsWithErrors {Client} (connect : FirefoxConnectorFn Client)
    : Prop :=
  forall i, connect i <> Rejected JsUndefined.

(** The promise was rejected with an [Error] object. *)
Definition failedWithError {A} (outcome : Settled A) : bool :=
  match outcome with
  | Rejected (JsErrorValue _) => true
  | _ => false
  end.

(** ** The calls of the run command *)

(** The call [getProfile] makes for a profile path and
    [keepProfileChanges]. *)
Definition profileCall (profilePath : option string) (keep : bool)
    : RunEvent :=
  match profilePath with
  | None | Some EmptyString => CreateProfile
  | Some path => if keep then UseProfile path else CopyProfile path
  end.

(** The calls that belong to a remote connection or to reloading. *)
Definition needsClient (e : RunEvent) : bool :=
  match e with
  | FirefoxClient | InstallTemporaryAddon _ | KeypressLoop
  | ReloadStrategy _ _ => true
  | _ => false
  end.

(** ** Runs of the run command with a current Firefox *)

(** A Firefox that installs temporary add-ons and answers with the id. *)
Definition currentFirefox : RemoteFirefox :=
  mkRemoteFirefox
    (fun _ => Fulfilled (mkAddonResponse "minimal-example@web-ext-test-suite"))
    (fun _ => Fulfilled tt).

(** A Firefox whose answer carries an empty id. *)
Definition anonymousInstall : RemoteFirefox :=
  mkRemoteFirefox (fun _ => Fulfilled (mkAddonResponse EmptyString))
    (fun _ => Fulfilled tt).

(** The run of the unit tests with reloading on, from a terminal. *)
Definition reloadingRunParams : RunCmd.CmdRunParams :=
  RunCmd.mkCmdRunParams "/src/minimal-web-ext" "/src/minimal-web-ext/artifacts"
    None None false false false false None true.

(** [--pre-install] *)
Definition preInstallRunParams : RunCmd.CmdRunParams :=
  RunCmd.mkCmdRunParams "/src/minimal-web-ext" "/src/minimal-web-ext/artifacts"
    None None false true false false None true.

(** [--install-to-profile] of the earlier revision. *)
Definition installToProfileParams : RunCmdLegacy.CmdRunParams :=
  RunCmdLegacy.mkCmdRunParams "/src/minimal-web-ext"
    "/src/minimal-web-ext/artifacts" None None true false.

(** ** The keypress loop of the reload strategy *)

(** The input is a Ctrl-C. *)
Definition isCtrlCInput (input : ReloadStrategy.Input) : bool :=
  match input with
  | ReloadStrategy.Keypress key => ReloadStrategy.isCtrlC key
  | _ => false
  end.

(** The input is a key named [r]. *)
Definition isReloadInput (input : ReloadStrategy.Input) : bool :=
  match input with
  | ReloadStrategy.Keypress key =>
      bool_decide (ReloadStrategy.name key = Some "r")
  | _ => false
  end.

(** The inputs before the first Ctrl-C. *)
Fixpoint untilCtrlC (inputs : list ReloadStrategy.Input)
    : list ReloadStrategy.Input :=
  match inputs with
  | [] => []
  | input :: rest =>
      if isCtrlCInput input then [] else input :: untilCtrlC rest
  end.

(** How often [c] is among the calls. *)
Definition callsOf (c : ReloadStrategy.Call)
    (calls : list ReloadStrategy.Call) : nat :=
  length (filter (fun c' => c' = c) calls).

(** Whether standard input is in raw mode after the calls, when it was
    ([raw]) or was not before them. *)
Fixpoint rawModeAfter (raw : bool) (calls : list ReloadStrategy.Call) : bool :=
  match calls with
  | [] => raw
  | ReloadStrategy.SetRawMode mode :: rest => rawModeAfter mode rest
  | _ :: rest => rawModeAfter raw rest
  end.

(** Every signal is sent while standard input is out of raw mode. *)
Fixpoint signalsOutOfRawMode (raw : bool) (calls : list ReloadStrategy.Call)
    : bool :=
  match calls with
  | [] => true
  | ReloadStrategy.SetRawMode mode :: rest => signalsOutOfRawMode mode rest
  | ReloadStrategy.Kill _ :: rest => negb raw && signalsOutOfRawMode raw rest
  | _ :: rest => signalsOutOfRawMode raw rest
  end.

(** What the strategy does on an input when no key is awaited. *)
Definition withoutKeys (sourceDir : string) (allowInput : bool)
    (input : ReloadStrategy.Input) : list ReloadStrategy.Call :=
  match input with
  | ReloadStrategy.Keypress _ => []
  | ReloadStrategy.SourceChange =>
      [ReloadStrategy.ReloadExtensionBySourceDir sourceDir]
  | ReloadStrategy.RunnerCleanup =>
      ReloadStrategy.WatcherClose
      :: if allowInput then [ReloadStrategy.StdinPause] else []
  end.

(** A terminal, and the keys of a session. *)
Definition terminal : ReloadStrategy.Stdin := ReloadStrategy.mkStdin true true.

Definition keyR : ReloadStrategy.Key := ReloadStrategy.mkKey false (Some "r").
Definition keyZ : ReloadStrategy.Key := ReloadStrategy.mkKey false (Some "z").
Definition keyCtrlC : ReloadStrategy.Key := ReloadStrategy.mkKey true (Some "c").

Definition strategyParams : ReloadStrategy.ReloadStrategyParams :=
  ReloadStrategy.mkStrategyParams "/src/minimal-web-ext/artifacts" None None
    "/src/minimal-web-ext".

(** A client whose reloads fail. *)
Definition brokenReload : RemoteFirefox :=
  mkRemoteFirefox
    (fun _ => Fulfilled (mkAddonResponse "minimal-example@web-ext-test-suite"))
    (fun _ => Rejected reloadFailure).

(** ** The keypress loop of the run command *)

(** A key that the loop of [run] passes over: neither Ctrl-C nor [r]. *)
Definition passedOver (key : ReloadStrategy.Key) : bool :=
  negb (ReloadStrategy.isCtrlC key)
  && negb (bool_decide (ReloadStrategy.name key = Some "r")).

(** A key named [r] that is no Ctrl-C. *)
Definition isReloadKey (key : ReloadStrategy.Key) : bool :=
  negb (ReloadStrategy.isCtrlC key)
  && bool_decide (ReloadStrategy.name key = Some "r").

(** The keys before the first Ctrl-C. *)
Fixpoint keysUntilCtrlC (keys : list ReloadStrategy.Key)
    : list ReloadStrategy.Key :=
  match keys with
  | [] => []
  | key :: rest =>
      if ReloadStrategy.isCtrlC key then [] else key :: keysUntilCtrlC rest
  end.

(** ** What an install leaves alone *)

(** Every path of [fs] is still there in [fs'], and every directory is
    still a directory. *)
Definition keepsFiles (fs fs' : FirefoxApp.Files) : Prop :=
  forall path,
    (is_Some (fs !! path) -> is_Some (fs' !! path))
    /\ (fs !! path = Some FirefoxApp.Directory ->
        fs' !! path = Some FirefoxApp.Directory).

(** Asynchronous code that keeps the paths of the files it finds. *)
Definition keeps {A} (m : Async FirefoxApp.FileSystem A) : Prop :=
  forall fs,
    keepsFiles (FirefoxApp.files fs) (FirefoxApp.files (snd (m fs))).

(** The same of a file system and what becomes of it: at once, and when
    the streams left to the event loop have done their work. *)
Definition keepsPaths (dirname : string -> string)
    (fs fs' : FirefoxApp.FileSystem) : Prop :=
  keepsFiles (FirefoxApp.files fs) (FirefoxApp.files fs')
  /\ keepsFiles (FirefoxApp.files fs) (FirefoxApp.later dirname fs').
(* ===================================================================== *)
(** * Properties *)
(* ===================================================================== *)

(** ** The connection retrier *)

Lemma waited_advance n t interval w :
  waited (advance n t interval w) = (Z.of_nat t * interval + waited w)%Z.
Proof.
  unfold waited, advance; simpl.
  induction t as [|t IH]; simpl; [lia|]. rewrite IH. lia.
Qed.

Lemma advance_setTimeout_invoke {Client} (connect : FirefoxConnectorFn Client)
    n t interval w :
  advance n t interval (setTimeout interval (snd (invoke connect w)))
  = advance (S n) (S t) interval w.
Proof.
  unfold advance, setTimeout, invoke; simpl. f_equal; [lia|].
  induction t as [|t IH]; simpl; [done|]. by rewrite IH.
Qed.

Section RetryLoop.

Context {Client : Type}.
Variables (connect : FirefoxConnectorFn Client) (interval : Z).

(** When every attempt of the loop is refused, the loop runs to its end,
    waits after each attempt and throws the last refusal. *)
Lemma retryLoop_all_refused (range : list Z) :
  forall lastError w,
    (forall i, callCount w <= i < callCount w + length range -> refusedAt connect i) ->
    RunCmd.retryLoop connect interval range lastError w
    = (match range with
       | [] => Rejected lastError
       | _ => connect (callCount w + length range - 1)
       end,
       advance (length range) (length range) interval w).
Proof.
  induction range as [|retries rest IH]; intros lastError w Hall.
  - simpl. unfold advance. simpl. destruct w; simpl. do 2 f_equal. lia.
  - cbn [RunCmd.retryLoop]. unfold invoke at 1.
    destruct (Hall (callCount w)) as (error & Hc & Hr); [simpl; lia|].
    rewrite Hc, Hr.
    change (mkRetryWorld (S (callCount w)) (timers w))
      with (snd (invoke connect w)).
    rewrite IH.
    + rewrite advance_setTimeout_invoke. f_equal.
      destruct rest as [|r rest']; simpl.
      * rewrite <- Hc. f_equal. lia.
      * f_equal. lia.
    + intros i Hi. apply Hall. simpl in *. lia.
Qed.

(** The first decisive outcome, if the loop reaches it, is the result; no
    attempt follows it and no wait. *)
Lemma retryLoop_decisive (range : list Z) :
  forall lastError w k,
    k < length range ->
    (forall i, callCount w <= i < callCount w + k -> refusedAt connect i) ->
    decisive (connect (callCount w + k)) ->
    RunCmd.retryLoop connect interval range lastError w
    = (connect (callCount w + k), advance (S k) k interval w).
Proof.
  induction range as [|retries rest IH]; intros lastError w k Hk Hpre Hdec.
  - simpl in Hk. lia.
  - cbn [RunCmd.retryLoop]. unfold invoke at 1.
    destruct k as [|k].
    + replace (callCount w + 0) with (callCount w) in * by lia.
      unfold advance; simpl.
      replace (callCount w + 1) with (S (callCount w)) by lia.
      destruct (connect (callCount w)) as [client|error]; [done|].
      simpl in Hdec. by rewrite Hdec.
    + destruct (Hpre (callCount w)) as (error & Hc & Hr); [lia|].
      rewrite Hc, Hr.
      change (mkRetryWorld (S (callCount w)) (timers w))
        with (snd (invoke connect w)).
      rewrite (IH _ _ k).
      * rewrite advance_setTimeout_invoke. simpl. do 2 f_equal. lia.
      * simpl in Hk. lia.
      * intros i Hi. apply Hpre. simpl in *. lia.
      * simpl. by replace (S (callCount w + k)) with (callCount w + S k) by lia.
Qed.

(** Whatever the connect function does, the loop makes at most one
    attempt per value of [retries] and waits at most once per attempt. *)
Lemma retryLoop_bounded (range : list Z) :
  forall lastError w,
    exists n t,
      n <= length range /\ t <= n /\
      snd (RunCmd.retryLoop connect interval range lastError w)
      = advance n t interval w.
Proof.
  induction range as [|retries rest IH]; intros lastError w.
  - exists 0, 0. simpl. unfold advance. destruct w; simpl.
    repeat split; try lia. f_equal. lia.
  - cbn [RunCmd.retryLoop]. unfold invoke at 1.
    destruct (connect (callCount w)) as [client|error].
    + exists 1, 0. simpl. repeat split; try lia.
      unfold advance; simpl. f_equal. lia.
    + destruct (isErrorWithCode "ECONNREFUSED" error).
      * change (mkRetryWorld (S (callCount w)) (timers w))
          with (snd (invoke connect w)).
        destruct (IH error (setTimeout interval (snd (invoke connect w))))
          as (n & t & Hn & Ht & ->).
        exists (S n), (S t). rewrite advance_setTimeout_invoke.
        simpl. repeat split; lia.
      * exists 1, 0. simpl. repeat split; try lia.
        unfold advance; simpl. f_equal. lia.
Qed.

End RetryLoop.

Section LegacyRetry.

Context {Client : Type}.
Variables (connect : FirefoxConnectorFn Client) (maxRetries interval : Z).

(** With one unit of fuel per attempt that can still be made, the promise
    settles; it took at most that many attempts, with a wait between
    any two. *)
Lemma legacy_establishConnection_settles (fuel : nat) :
  forall retries w,
    Z.to_nat (maxRetries - retries) < fuel ->
    exists outcome n t,
      RunCmdLegacy.establishConnection fuel connect maxRetries interval retries w
      = Some (outcome, advance n t interval w)
      /\ 1 <= n <= S (Z.to_nat (maxRetries - retries)) /\ S t <= n.
Proof.
  induction fuel as [|fuel IH]; intros retries w Hfuel; [lia|].
  cbn [RunCmdLegacy.establishConnection]. unfold invoke at 1.
  assert (Hone : mkRetryWorld (S (callCount w)) (timers w)
                 = advance 1 0 interval w).
  { unfold advance; simpl. f_equal. lia. }
  destruct (connect (callCount w)) as [client|error].
  { exists (Fulfilled client), 1, 0. rewrite Hone. split; [done|lia]. }
  destruct (isErrorWithCode "ECONNREFUSED" error);
    [|exists (Rejected error), 1, 0; rewrite Hone; split; [done|lia]].
  destruct (Z.geb_spec retries maxRetries) as [Hge|Hlt].
  { exists (Rejected error), 1, 0. rewrite Hone. split; [done|lia]. }
  change (mkRetryWorld (S (callCount w)) (timers w))
    with (snd (invoke connect w)).
  destruct (IH (retries + 1)%Z (setTimeout interval (snd (invoke connect w))))
    as (outcome & n & t & -> & Hn & Ht); [lia|].
  exists outcome, (S n), (S t). rewrite advance_setTimeout_invoke.
  split; [done|lia].
Qed.

(** When every attempt is refused, the attempt made with
    [retries = maxRetries] is the last, and its refusal is the result. *)
Lemma legacy_all_refused (fuel : nat) :
  forall retries w,
    (retries <= maxRetries)%Z ->
    Z.to_nat (maxRetries - retries) < fuel ->
    (forall i, callCount w <= i <= callCount w + Z.to_nat (maxRetries - retries) ->
               refusedAt connect i) ->
    RunCmdLegacy.establishConnection fuel connect maxRetries interval retries w
    = Some (connect (callCount w + Z.to_nat (maxRetries - retries)),
            advance (S (Z.to_nat (maxRetries - retries)))
                    (Z.to_nat (maxRetries - retries)) interval w).
Proof.
  induction fuel as [|fuel IH]; intros retries w Hle Hfuel Hall; [lia|].
  cbn [RunCmdLegacy.establishConnection]. unfold invoke at 1.
  destruct (Hall (callCount w)) as (error & Hc & Hr); [lia|].
  rewrite Hc, Hr.
  destruct (Z.geb_spec retries maxRetries) as [Hge|Hlt].
  - replace (maxRetries - retries)%Z with 0%Z by lia.
    change (Z.to_nat 0) with 0.
    replace (callCount w + 0) with (callCount w) by lia. rewrite Hc.
    unfold advance; simpl. do 3 f_equal. lia.
  - change (mkRetryWorld (S (callCount w)) (timers w))
      with (snd (invoke connect w)).
    rewrite IH; [|lia|lia|].
    + rewrite advance_setTimeout_invoke. simpl.
      replace (Z.to_nat (maxRetries - retries))
        with (S (Z.to_nat (maxRetries - (retries + 1)))) by lia.
      do 3 f_equal. lia.
    + intros i Hi. apply Hall. simpl in Hi. lia.
Qed.

(** The first decisive outcome, if the retries reach it, is the result. *)
Lemma legacy_decisive (fuel : nat) :
  forall retries w k,
    k < fuel ->
    (retries + Z.of_nat k <= maxRetries)%Z ->
    (forall i, callCount w <= i < callCount w + k -> refusedAt connect i) ->
    decisive (connect (callCount w + k)) ->
    RunCmdLegacy.establishConnection fuel connect maxRetries interval retries w
    = Some (connect (callCount w + k), advance (S k) k interval w).
Proof.
  induction fuel as [|fuel IH]; intros retries w k Hk Hle Hpre Hdec; [lia|].
  cbn [RunCmdLegacy.establishConnection]. unfold invoke at 1.
  destruct k as [|k].
  - replace (callCount w + 0) with (callCount w) in * by lia.
    unfold advance; simpl.
    replace (callCount w + 1) with (S (callCount w)) by lia.
    destruct (connect (callCount w)) as [client|error]; [done|].
    simpl in Hdec. by rewrite Hdec.
  - destruct (Hpre (callCount w)) as (error & Hc & Hr); [lia|].
    rewrite Hc, Hr.
    destruct (Z.geb_spec retries maxRetries) as [Hge|Hlt]; [lia|].
    change (mkRetryWorld (S (callCount w)) (timers w))
      with (snd (invoke connect w)).
    rewrite (IH _ _ k); [|lia|lia| |].
    + rewrite advance_setTimeout_invoke. simpl. do 3 f_equal. lia.
    + intros i Hi. apply Hpre. simpl in *. lia.
    + simpl. by replace (S (callCount w + k)) with (callCount w + S k) by lia.
Qed.

End LegacyRetry.

(** The values [retries] takes in the loop of [establishConnection]. *)
Lemma retries_range (maxRetries : Z) :
  (0 <= maxRetries)%Z ->
  length (seqZ 0 (maxRetries + 1)) = S (Z.to_nat maxRetries).
Proof. intros H. rewrite length_seqZ. lia. Qed.

(** C1. When every attempt is refused (ECONNREFUSED), the connect
    function is invoked exactly [maxRetries + 1] times and the call fails
    with the refusal of the last attempt; when [k <= maxRetries] refusals
    are followed by a success, it is invoked exactly [k + 1] times and the
    call resolves with the connected client. Both revisions of
    [defaultFirefoxClient] do so. *)
Theorem retrier_invokes_connect_maxRetries_plus_one {Client}
    (dflt connect : FirefoxConnectorFn Client) (N interval : Z) :
  (0 <= N)%Z ->
  let params := mkParams (Some connect) (Some N) (Some interval) in
  let last := Z.to_nat N in
  ((forall i, refusedAt connect i) ->
   exists error w w',
     connect last = Rejected error
     /\ isErrorWithCode "ECONNREFUSED" error = true
     /\ RunCmd.defaultFirefoxClient dflt params freshWorld = (Rejected error, w)
     /\ callCount w = last + 1
     /\ RunCmdLegacy.defaultFirefoxClient dflt params freshWorld
        = Some (Rejected error, w')
     /\ callCount w' = last + 1)
  /\
  (forall k client,
     k <= last ->
     (forall i, i < k -> refusedAt connect i) ->
     connect k = Fulfilled client ->
     exists w w',
       RunCmd.defaultFirefoxClient dflt params freshWorld = (Fulfilled client, w)
       /\ callCount w = k + 1
       /\ RunCmdLegacy.defaultFirefoxClient dflt params freshWorld
          = Some (Fulfilled client, w')
       /\ callCount w' = k + 1).
Proof.
  intros Hpos params last.
  pose proof (retries_range N Hpos) as Hlen.
  unfold RunCmd.defaultFirefoxClient, RunCmdLegacy.defaultFirefoxClient,
    RunCmd.establishConnection, RunCmdLegacy.enoughFuel.
  subst params.
  cbn [default from_option id connectToFirefox maxRetries retryInterval].
  split.
  - intros Hall.
    destruct (Hall last) as (error & Hc & Hr).
    exists error, (advance (S last) (S last) interval freshWorld),
      (advance (S last) last interval freshWorld).
    split; [done|]. split; [done|].
    rewrite retryLoop_all_refused by (intros; apply Hall).
    rewrite (legacy_all_refused connect N interval); simpl;
      [|lia|lia|intros; apply Hall].
    rewrite Hlen.
    destruct (seqZ 0 (N + 1)) as [|r rest]; [simpl in Hlen; lia|].
    simpl. replace (N - 0)%Z with N by lia.
    replace (Z.to_nat N - 0) with last by (unfold last; lia). fold last.
    rewrite Hc. repeat split; lia.
  - intros k client Hk Hpre Hsucc. unfold last in *.
    exists (advance (S k) k interval freshWorld),
      (advance (S k) k interval freshWorld).
    rewrite (retryLoop_decisive connect interval _ _ _ k);
      [|rewrite Hlen; lia|intros; apply Hpre; simpl in *; lia
       |simpl; by rewrite Hsucc].
    rewrite (legacy_decisive connect N interval _ _ _ k);
      [|lia|lia|intros; apply Hpre; simpl in *; lia|simpl; by rewrite Hsucc].
    simpl. rewrite Hsucc. repeat split; lia.
Qed.

(** The two runs C1 names: a budget of 2 and a browser that never
    listens, 3 attempts; a budget of 3 and three refusals before a
    connection, 4 attempts. *)
Lemma retrier_invokes_connect_maxRetries_plus_one_witness :
  (exists error w w',
     alwaysRefused 2 = Rejected error
     /\ isErrorWithCode "ECONNREFUSED" error = true
     /\ RunCmd.defaultFirefoxClient alwaysRefused
          (mkParams (Some alwaysRefused) (Some 2%Z) (Some 1%Z)) freshWorld
        = (Rejected error, w)
     /\ callCount w = 3
     /\ RunCmdLegacy.defaultFirefoxClient alwaysRefused
          (mkParams (Some alwaysRefused) (Some 2%Z) (Some 1%Z)) freshWorld
        = Some (Rejected error, w')
     /\ callCount w' = 3)
  /\
  (exists w w',
     RunCmd.defaultFirefoxClient alwaysRefused
       (mkParams (Some refusedThrice) (Some 3%Z) (Some 1%Z)) freshWorld
     = (Fulfilled "client", w)
     /\ callCount w = 4
     /\ RunCmdLegacy.defaultFirefoxClient alwaysRefused
          (mkParams (Some refusedThrice) (Some 3%Z) (Some 1%Z)) freshWorld
        = Some (Fulfilled "client", w')
     /\ callCount w' = 4).
Proof.
  split.
  - destruct (retrier_invokes_connect_maxRetries_plus_one
                alwaysRefused alwaysRefused 2 1) as [H _]; [lia|].
    apply H. intros i. exists tcpConnectError. split; reflexivity.
  - destruct (retrier_invokes_connect_maxRetries_plus_one
                alwaysRefused refusedThrice 3 1) as [_ H]; [lia|].
    apply (H 3 "client").
    + simpl. lia.
    + intros i Hi. exists tcpConnectError. unfold refusedThrice.
      destruct (Nat.ltb_spec i 3); [split; reflexivity|lia].
    + reflexivity.
Defined.

(** The earlier revision always settles: the fuel it is given is never
    used up, whatever the connect function does and whatever the budget. *)
Lemma legacy_defaultFirefoxClient_settles {Client}
    (dflt : FirefoxConnectorFn Client)
    (params : CreateFirefoxClientParams Client) (w : RetryWorld) :
  is_Some (RunCmdLegacy.defaultFirefoxClient dflt params w).
Proof.
  unfold RunCmdLegacy.defaultFirefoxClient, RunCmdLegacy.enoughFuel.
  destruct (legacy_establishConnection_settles
              (default dflt (connectToFirefox params))
              (default RunCmdLegacy.default_maxRetries (maxRetries params))
              (default RunCmdLegacy.default_retryInterval (retryInterval params))
              (S (Z.to_nat
                    (default RunCmdLegacy.default_maxRetries (maxRetries params))))
              0%Z w) as (outcome & n & t & Heq & _); [lia|].
  rewrite Heq. by eexists.
Qed.

(** A negative budget, on which C1 says nothing: the loop of the
    async/await revision is not entered and [undefined] is thrown without
    any attempt; the earlier revision makes its one attempt. *)
Example negative_budget :
  RunCmd.defaultFirefoxClient alwaysRefused
    (mkParams None (Some (-1)%Z) None) freshWorld
  = (Rejected JsUndefined, freshWorld)
  /\ RunCmdLegacy.defaultFirefoxClient alwaysRefused
       (mkParams None (Some (-1)%Z) None) freshWorld
     = Some (Rejected tcpConnectError, mkRetryWorld 1 []).
Proof. split; reflexivity. Qed.

(** C4. Only a refusal (ECONNREFUSED) is retried: when attempt [k],
    reached after [k] refusals and within the budget, fails with any
    other error, the call fails with that error at once; the connect
    function has then been invoked [k + 1] times and is not invoked
    again, however many retries remain. Both revisions do so. *)
Theorem retrier_aborts_on_other_error {Client}
    (dflt connect : FirefoxConnectorFn Client) (N interval : Z)
    (k : nat) (error : JsError) :
  (Z.of_nat k <= N)%Z ->
  (forall i, i < k -> refusedAt connect i) ->
  connect k = Rejected (JsErrorValue error) ->
  isErrorWithCode "ECONNREFUSED" (JsErrorValue error) = false ->
  let params := mkParams (Some connect) (Some N) (Some interval) in
  exists w w',
    RunCmd.defaultFirefoxClient dflt params freshWorld
    = (Rejected (JsErrorValue error), w)
    /\ callCount w = k + 1
    /\ RunCmdLegacy.defaultFirefoxClient dflt params freshWorld
       = Some (Rejected (JsErrorValue error), w')
    /\ callCount w' = k + 1.
Proof.
  intros Hk Hpre Herr Hother params. subst params.
  assert (Hpos : (0 <= N)%Z) by lia.
  pose proof (retries_range N Hpos) as Hlen.
  unfold RunCmd.defaultFirefoxClient, RunCmdLegacy.defaultFirefoxClient,
    RunCmd.establishConnection, RunCmdLegacy.enoughFuel.
  cbn [default from_option id connectToFirefox maxRetries retryInterval].
  exists (advance (S k) k interval freshWorld),
    (advance (S k) k interval freshWorld).
  rewrite (retryLoop_decisive connect interval _ _ _ k);
    [|rewrite Hlen; lia|intros; apply Hpre; simpl in *; lia
     |simpl; by rewrite Herr].
  rewrite (legacy_decisive connect N interval _ _ _ k);
    [|lia|lia|intros; apply Hpre; simpl in *; lia|simpl; by rewrite Herr].
  simpl. rewrite Herr. repeat split; lia.
Qed.

(** A handshake that fails after two refusals, with 248 retries left:
    3 attempts. *)
Lemma retrier_aborts_on_other_error_witness :
  exists w w',
    RunCmd.defaultFirefoxClient alwaysRefused
      (mkParams (Some handshakeFailsThird) (Some 250%Z) (Some 120%Z)) freshWorld
    = (Rejected (JsErrorValue notAConnectionError), w)
    /\ callCount w = 3
    /\ RunCmdLegacy.defaultFirefoxClient alwaysRefused
         (mkParams (Some handshakeFailsThird) (Some 250%Z) (Some 120%Z))
         freshWorld
       = Some (Rejected (JsErrorValue notAConnectionError), w')
    /\ callCount w' = 3.
Proof.
  apply (retrier_aborts_on_other_error alwaysRefused handshakeFailsThird
           250 120 2 notAConnectionError).
  - lia.
  - intros i Hi. exists tcpConnectError. unfold handshakeFailsThird.
    destruct (Nat.ltb_spec i 2); [split; reflexivity|lia].
  - reflexivity.
  - reflexivity.
Defined.

(** C5, as stated, fails: with no retry configuration and a browser that
    never listens, the async/await revision makes 251 attempts, not at
    most 250, and the earlier revision makes 26. *)
Lemma default_policy_not_250_attempts_everywhere :
  ~ (callCount
       (snd (RunCmd.defaultFirefoxClient alwaysRefused noParams freshWorld))
     <= 250)
  /\ (callCount ∘ snd)
       <$> RunCmdLegacy.defaultFirefoxClient alwaysRefused noParams freshWorld
     = Some 26.
Proof.
  split.
  - vm_compute. lia.
  - vm_compute. reflexivity.
Qed.

(** C5, amended. With no retry configuration the async/await revision
    waits 120 ms after a refusal and allows 250 retries after the first
    attempt: at most 251 attempts and 30120 ms of waiting, and exactly
    that when every attempt is refused. The earlier revision waits 120 ms
    and allows 25 retries: at most 26 attempts and 3000 ms of waiting. *)
Theorem default_retry_policy {Client} (dflt : FirefoxConnectorFn Client) :
  (forall w,
     RunCmd.defaultFirefoxClient dflt noParams w
     = RunCmd.establishConnection dflt 250 120 w)
  /\ (let w := snd (RunCmd.defaultFirefoxClient dflt noParams freshWorld) in
      callCount w <= 251 /\ (waited w <= 30120)%Z)
  /\ ((forall i, refusedAt dflt i) ->
      let w := snd (RunCmd.defaultFirefoxClient dflt noParams freshWorld) in
      callCount w = 251 /\ waited w = 30120%Z)
  /\ (forall w,
        RunCmdLegacy.defaultFirefoxClient dflt noParams w
        = RunCmdLegacy.establishConnection 26 dflt 25 120 0 w)
  /\ (exists outcome w,
        RunCmdLegacy.defaultFirefoxClient dflt noParams freshWorld
        = Some (outcome, w)
        /\ callCount w <= 26 /\ (waited w <= 3000)%Z).
Proof.
  split; [done|]. split; [|split; [|split; [done|]]].
  - unfold RunCmd.defaultFirefoxClient, RunCmd.establishConnection.
    destruct (retryLoop_bounded dflt RunCmd.default_retryInterval
                (seqZ 0 (RunCmd.default_maxRetries + 1)) JsUndefined freshWorld)
      as (n & t & Hn & Ht & Hw).
    cbn [default from_option id connectToFirefox maxRetries retryInterval noParams].
    rewrite Hw, waited_advance. rewrite length_seqZ in Hn.
    unfold RunCmd.default_maxRetries, RunCmd.default_retryInterval in *.
    change (Z.to_nat (250 + 1)) with 251 in Hn.
    change (waited freshWorld) with 0%Z.
    unfold advance. cbn [callCount freshWorld]. split; lia.
  - intros Hall.
    unfold RunCmd.defaultFirefoxClient, RunCmd.establishConnection.
    cbn [default from_option id connectToFirefox maxRetries retryInterval noParams].
    rewrite retryLoop_all_refused by (intros; apply Hall).
    cbn [snd]. rewrite waited_advance, length_seqZ.
    unfold RunCmd.default_maxRetries, RunCmd.default_retryInterval.
    change (Z.to_nat (250 + 1)) with 251.
    change (waited freshWorld) with 0%Z.
    unfold advance. cbn [callCount freshWorld]. split; lia.
  - unfold RunCmdLegacy.defaultFirefoxClient, RunCmdLegacy.enoughFuel.
    cbn [default from_option id connectToFirefox maxRetries retryInterval noParams].
    destruct (legacy_establishConnection_settles dflt
                RunCmdLegacy.default_maxRetries
                RunCmdLegacy.default_retryInterval
                (S (Z.to_nat RunCmdLegacy.default_maxRetries)) 0%Z freshWorld)
      as (outcome & n & t & Heq & Hn & Ht).
    { unfold RunCmdLegacy.default_maxRetries. lia. }
    exists outcome, (advance n t RunCmdLegacy.default_retryInterval freshWorld).
    split; [exact Heq|]. rewrite waited_advance.
    unfold RunCmdLegacy.default_maxRetries, RunCmdLegacy.default_retryInterval in *.
    change (Z.to_nat (25 - 0)) with 25 in Hn.
    change (waited freshWorld) with 0%Z.
    unfold advance. cbn [callCount freshWorld]. split; lia.
Qed.

(** The default policy against a browser that never listens. *)
Lemma default_retry_policy_witness :
  let w := snd (RunCmd.defaultFirefoxClient alwaysRefused noParams freshWorld) in
  callCount w = 251 /\ waited w = 30120%Z.
Proof.
  destruct (default_retry_policy alwaysRefused) as (_ & _ & H & _).
  apply H. intros i. exists tcpConnectError. split; reflexivity.
Defined.

(** ** [Promise.all] *)

(** Membership in a list that is written out. *)
Ltac in_list := apply list_elem_of_In; simpl; tauto.

Section PromiseAllFacts.

Context {V : Type}.
Implicit Types (els : list (option (Settled V))) (st : PromiseAll.State V).
Implicit Types (outcomes : list (Settled V)) (order : list nat).

Lemma values_Some els (vs : list V) :
  PromiseAll.values els = Some vs <->
  els = (fun v => Some (Fulfilled v)) <$> vs.
Proof.
  revert vs. induction els as [|[[v|r]|] els IH]; intros vs; simpl.
  - split; [intros [= <-]; done|]. by destruct vs.
  - destruct (PromiseAll.values els) as [vs'|] eqn:Hv; simpl.
    + split.
      * intros [= <-]. simpl. f_equal. by apply IH.
      * destruct vs as [|v' vs'']; [done|]. simpl. intros [= <- Hels].
        apply IH in Hels. congruence.
    + split; [done|]. destruct vs as [|v' vs'']; [done|].
      simpl. intros [= <- Hels]. apply IH in Hels. done.
  - split; [done|]. by destruct vs.
  - split; [done|]. by destruct vs.
Qed.

Lemma values_pending els i :
  els !! i = Some None -> PromiseAll.values els = None.
Proof.
  intros Hi. destruct (PromiseAll.values els) as [vs|] eqn:Hv; [|done].
  apply values_Some in Hv. subst els.
  rewrite list_lookup_fmap in Hi. by destruct (vs !! i).
Qed.

Lemma init_mirrors n : mirrors (PromiseAll.init (V := V) n).
Proof.
  unfold mirrors. destruct n as [|n]; [done|]. simpl. done.
Qed.

Lemma settle_fulfilled_mirrors i v st :
  mirrors st -> mirrors (PromiseAll.settle i (Fulfilled v) st).
Proof.
  unfold mirrors, PromiseAll.settle. intros Hst.
  destruct (PromiseAll.elements st !! i) as [[o|]|] eqn:Hi; try done.
  simpl. rewrite Hst, (values_pending _ i Hi). done.
Qed.

(** Once settled, the combined promise keeps its outcome. *)
Lemma settle_settled i outcome st done_ :
  PromiseAll.combined st = Some done_ ->
  PromiseAll.combined (PromiseAll.settle i outcome st) = Some done_.
Proof.
  unfold PromiseAll.settle. intros Hst.
  destruct (PromiseAll.elements st !! i) as [[o|]|]; try done.
  simpl. by rewrite Hst.
Qed.

Lemma settleAll_settled outcomes order :
  forall st done_,
    PromiseAll.combined st = Some done_ ->
    PromiseAll.combined (PromiseAll.settleAll outcomes order st) = Some done_.
Proof.
  induction order as [|i order IH]; intros st done_ Hst; [done|].
  simpl. apply IH. destruct (outcomes !! i); [|done].
  by apply settle_settled.
Qed.

Lemma settle_elements i outcome st j :
  PromiseAll.elements (PromiseAll.settle i outcome st) !! j
  = match PromiseAll.elements st !! j with
    | Some None => if decide (i = j) then Some (Some outcome) else Some None
    | other => other
    end.
Proof.
  unfold PromiseAll.settle.
  destruct (PromiseAll.elements st !! i) as [[o|]|] eqn:Hi.
  - destruct (PromiseAll.elements st !! j) as [[o'|]|] eqn:Hj; try done.
    case_decide; [congruence|done].
  - simpl. destruct (decide (i = j)) as [->|Hne].
    + rewrite list_lookup_insert_eq by (by eapply lookup_lt_Some).
      by rewrite Hi.
    + rewrite list_lookup_insert_ne by done.
      by destruct (PromiseAll.elements st !! j) as [[o'|]|].
  - destruct (PromiseAll.elements st !! j) as [[o'|]|] eqn:Hj; try done.
    case_decide; [congruence|done].
Qed.

(** What each element has settled with once the elements in [order]
    have settled. *)
Lemma settleAll_elements outcomes order :
  forall st j,
    PromiseAll.elements (PromiseAll.settleAll outcomes order st) !! j
    = match PromiseAll.elements st !! j with
      | Some None =>
          if decide (j ∈ order)
          then Some (outcomes !! j)
          else Some None
      | other => other
      end.
Proof.
  induction order as [|i order IH]; intros st j; simpl.
  - by destruct (PromiseAll.elements st !! j) as [[o|]|].
  - rewrite IH. destruct (outcomes !! i) as [outcome|] eqn:Hout.
    + rewrite settle_elements.
      destruct (PromiseAll.elements st !! j) as [[o|]|]; try done.
      destruct (decide (i = j)) as [->|Hne].
      * rewrite decide_True by left. by rewrite Hout.
      * destruct (decide (j ∈ order)) as [Hin|Hnin].
        -- by rewrite decide_True by (by right).
        -- rewrite decide_False; [done|].
           intros [->|Hin]%elem_of_cons; done.
    + destruct (PromiseAll.elements st !! j) as [[o|]|]; try done.
      destruct (decide (j ∈ order)) as [Hin|Hnin].
      * by rewrite decide_True by (by right).
      * destruct (decide (i = j)) as [->|Hne].
        -- rewrite decide_True by left. by rewrite Hout.
        -- rewrite decide_False; [done|].
           intros [->|Hin]%elem_of_cons; done.
Qed.

Lemma settleAll_mirrors outcomes order :
  forall st,
    Forall (fun i => forall r, outcomes !! i <> Some (Rejected r)) order ->
    mirrors st -> mirrors (PromiseAll.settleAll outcomes order st).
Proof.
  induction order as [|i order IH]; intros st Hord Hst; [done|].
  inversion Hord as [|? ? Hi Hrest]; subst. simpl. apply IH; [done|].
  destruct (outcomes !! i) as [[v|r]|] eqn:Hout; [|by destruct (Hi r)|done].
  by apply settle_fulfilled_mirrors.
Qed.

Lemma settleAll_app outcomes order1 order2 st :
  PromiseAll.settleAll outcomes (order1 ++ order2) st
  = PromiseAll.settleAll outcomes order2
      (PromiseAll.settleAll outcomes order1 st).
Proof.
  revert st. induction order1 as [|i order1 IH]; intros st; [done|].
  simpl. apply IH.
Qed.

Lemma init_elements n j :
  PromiseAll.elements (PromiseAll.init (V := V) n) !! j
  = if decide (j < n) then Some None else None.
Proof.
  simpl. case_decide.
  - by apply lookup_replicate_2.
  - apply lookup_replicate_None. lia.
Qed.

(** When no element rejects, [Promise.all] is fulfilled, with the values
    in the order of the elements, once every element has settled. *)
Lemma all_fulfilled (vs : list V) order :
  (forall i, i < length vs -> i ∈ order) ->
  PromiseAll.all (Fulfilled <$> vs) order = Some (Fulfilled vs).
Proof.
  intros Hall. unfold PromiseAll.all.
  rewrite settleAll_mirrors; [|apply Forall_forall|apply init_mirrors].
  - assert (PromiseAll.values
              (PromiseAll.elements
                 (PromiseAll.settleAll (Fulfilled <$> vs) order
                    (PromiseAll.init (length (Fulfilled <$> vs)))))
            = Some vs) as ->; [|done].
    apply values_Some, list_eq. intros j.
    rewrite settleAll_elements, init_elements, length_fmap, !list_lookup_fmap.
    case_decide as Hj.
    + rewrite decide_True by auto.
      destruct (lookup_lt_is_Some_2 vs j Hj) as [v ->]. done.
    + by rewrite lookup_ge_None_2 by lia.
  - intros i _ r. rewrite list_lookup_fmap. by destruct (vs !! i).
Qed.

(** When no element rejects, [Promise.all] is never rejected, and it is
    fulfilled only when every element has settled. *)
Lemma all_fulfilled_inv (vs : list V) order outcome :
  PromiseAll.all (Fulfilled <$> vs) order = Some outcome ->
  outcome = Fulfilled vs /\ forall i, i < length vs -> i ∈ order.
Proof.
  unfold PromiseAll.all.
  rewrite settleAll_mirrors; [|apply Forall_forall|apply init_mirrors];
    [|intros i _ r; rewrite list_lookup_fmap; by destruct (vs !! i)].
  destruct (PromiseAll.values _) as [vs'|] eqn:Hv; [|done].
  intros [= <-]. apply values_Some in Hv.
  assert (Hlook : forall j,
            (if decide (j < length vs)
             then if decide (j ∈ order) then Some ((Fulfilled <$> vs) !! j)
                  else Some None
             else None)
            = (fun v => Some (Fulfilled v)) <$> vs' !! j).
  { intros j.
    rewrite <- (list_lookup_fmap (fun v => Some (Fulfilled v)) vs' j), <- Hv.
    rewrite settleAll_elements, init_elements, length_fmap.
    by case_decide. }
  assert (Hin : forall i, i < length vs -> i ∈ order).
  { intros i Hi. specialize (Hlook i). rewrite decide_True in Hlook by done.
    destruct (decide (i ∈ order)); [done|]. by destruct (vs' !! i). }
  split; [|done]. f_equal. apply list_eq. intros j. specialize (Hlook j).
  case_decide as Hj.
  - rewrite decide_True in Hlook by auto.
    rewrite list_lookup_fmap in Hlook.
    destruct (vs !! j), (vs' !! j); simpl in *; congruence.
  - rewrite (lookup_ge_None_2 vs j) by lia. by destruct (vs' !! j).
Qed.

(** [Promise.all] is rejected by the first element that rejects, with
    its reason, whether or not the others have settled. *)
Lemma all_rejected outcomes pre i post reason :
  Forall (fun j => forall r, outcomes !! j <> Some (Rejected r)) pre ->
  outcomes !! i = Some (Rejected reason) ->
  PromiseAll.all outcomes (pre ++ i :: post) = Some (Rejected reason).
Proof.
  intros Hpre Hi. unfold PromiseAll.all.
  rewrite settleAll_app. simpl. rewrite Hi.
  apply settleAll_settled.
  pose proof (settleAll_mirrors outcomes pre _ Hpre
                (init_mirrors (length outcomes))) as Hm.
  assert (Hpend : PromiseAll.elements
            (PromiseAll.settleAll outcomes pre
               (PromiseAll.init (length outcomes))) !! i = Some None).
  { rewrite settleAll_elements, init_elements.
    rewrite decide_True by (by eapply lookup_lt_Some).
    rewrite decide_False; [done|]. intros Hin.
    rewrite Forall_forall in Hpre. by destruct (Hpre i Hin reason). }
  unfold PromiseAll.settle. rewrite Hpend. simpl.
  unfold mirrors in Hm. rewrite Hm, (values_pending _ i Hpend). done.
Qed.

End PromiseAllFacts.

(** ** [MultiExtensionRunner]: reloading *)

Import ExtensionRunners.

Lemma reloadPromise_fulfilled runner :
  MultiExtensionRunner.reloadPromise runner
  = Fulfilled (resultOf reloadAllExtensions None runner).
Proof.
  unfold MultiExtensionRunner.reloadPromise, resultOf.
  by destruct (reloadAllExtensions runner).
Qed.

Lemma reloadPromiseBySourceDir_fulfilled dir runner :
  MultiExtensionRunner.reloadPromiseBySourceDir dir runner
  = Fulfilled
      (resultOf (fun r => reloadExtensionBySourceDir r dir) (Some dir) runner).
Proof.
  unfold MultiExtensionRunner.reloadPromiseBySourceDir, resultOf.
  by destruct (reloadExtensionBySourceDir runner dir).
Qed.

Lemma resultOf_outcomeOf reload dir runners :
  Forall2 (outcomeOf reload dir) runners (resultOf reload dir <$> runners).
Proof.
  induction runners as [|runner runners IH]; constructor; [|done].
  unfold outcomeOf, resultOf. simpl. by destruct (reload runner).
Qed.

(** Promises that cannot reject, collected. *)
Lemma collect_fulfilled (results : list ExtensionRunnerReloadResult) order :
  (forall reason,
     fst (MultiExtensionRunner.collect (Fulfilled <$> results) order)
     <> Some (Rejected reason))
  /\ ((forall i, i < length results -> i ∈ order) ->
      MultiExtensionRunner.collect (Fulfilled <$> results) order
      = (Some (Fulfilled results), handleReloadResults results))
  /\ (forall got,
        fst (MultiExtensionRunner.collect (Fulfilled <$> results) order)
        = Some (Fulfilled got) ->
        got = results /\ forall i, i < length results -> i ∈ order).
Proof.
  unfold MultiExtensionRunner.collect. split; [|split].
  - intros reason.
    destruct (PromiseAll.all _ _) as [[got|r]|] eqn:Hall; simpl; try done.
    by apply all_fulfilled_inv in Hall as [? _].
  - intros Hall. by rewrite all_fulfilled.
  - intros got.
    destruct (PromiseAll.all _ _) as [[got'|r]|] eqn:Hall; simpl; try done.
    intros [= ->]. apply all_fulfilled_inv in Hall as [[= ->] Hin]. done.
Qed.

(** C2. [reloadAllExtensions] and [reloadExtensionBySourceDir] never
    reject, whatever the members do and in whatever order they finish.
    Once every member's reload has settled they resolve, and whenever they
    resolve it is to one outcome per managed runner, in the order of the
    runners: without an error if that runner's reload went through, with
    that runner's error if it was rejected. *)
Theorem reload_one_outcome_per_runner
    (extensionRunners : list IExtensionRunner) (dir : string)
    (order : list nat) :
  let reloadAll :=
    fst (MultiExtensionRunner.reloadAllExtensions extensionRunners order) in
  let reloadOne :=
    fst (MultiExtensionRunner.reloadExtensionBySourceDir extensionRunners dir
           order) in
  (forall reason,
     reloadAll <> Some (Rejected reason) /\ reloadOne <> Some (Rejected reason))
  /\ ((forall i, i < length extensionRunners -> i ∈ order) ->
      exists results results',
        reloadAll = Some (Fulfilled results)
        /\ reloadOne = Some (Fulfilled results'))
  /\ (forall results,
        reloadAll = Some (Fulfilled results) ->
        Forall2 (outcomeOf reloadAllExtensions None) extensionRunners results
        /\ forall i, i < length extensionRunners -> i ∈ order)
  /\ (forall results,
        reloadOne = Some (Fulfilled results) ->
        Forall2 (outcomeOf (fun r => reloadExtensionBySourceDir r dir) (Some dir))
          extensionRunners results
        /\ forall i, i < length extensionRunners -> i ∈ order).
Proof.
  intros reloadAll reloadOne. subst reloadAll reloadOne.
  unfold MultiExtensionRunner.reloadAllExtensions,
    MultiExtensionRunner.reloadExtensionBySourceDir.
  assert (MultiExtensionRunner.reloadPromise <$> extensionRunners
          = Fulfilled <$> (resultOf reloadAllExtensions None <$> extensionRunners))
    as ->.
  { rewrite <- list_fmap_compose. apply list_fmap_ext.
    intros i runner _. apply reloadPromise_fulfilled. }
  assert (MultiExtensionRunner.reloadPromiseBySourceDir dir <$> extensionRunners
          = Fulfilled <$> (resultOf (fun r => reloadExtensionBySourceDir r dir)
                             (Some dir) <$> extensionRunners))
    as ->.
  { rewrite <- list_fmap_compose. apply list_fmap_ext.
    intros i runner _. apply reloadPromiseBySourceDir_fulfilled. }
  destruct (collect_fulfilled
              (resultOf reloadAllExtensions None <$> extensionRunners) order)
    as (Hnever & Hdone & Honly).
  destruct (collect_fulfilled
              (resultOf (fun r => reloadExtensionBySourceDir r dir) (Some dir)
                 <$> extensionRunners) order)
    as (Hnever' & Hdone' & Honly').
  rewrite length_fmap in Hdone, Honly, Hdone', Honly'.
  repeat split.
  - apply Hnever.
  - apply Hnever'.
  - intros Hall. eexists _, _. by rewrite Hdone, Hdone'.
  - apply Honly in H as [-> _]. apply resultOf_outcomeOf.
  - by apply Honly in H as [_ ?].
  - apply Honly' in H as [-> _]. apply resultOf_outcomeOf.
  - by apply Honly' in H as [_ ?].
Qed.

(** Three runners, the second of which fails to reload, finishing in the
    order third, first, second. *)
Lemma reload_one_outcome_per_runner_witness :
  exists results results',
    fst (MultiExtensionRunner.reloadAllExtensions threeRunners [2; 0; 1])
    = Some (Fulfilled results)
    /\ fst (MultiExtensionRunner.reloadExtensionBySourceDir threeRunners
              "/src" [2; 0; 1])
       = Some (Fulfilled results').
Proof.
  destruct (reload_one_outcome_per_runner threeRunners "/src" [2; 0; 1])
    as (_ & H & _).
  apply H. intros i Hi. simpl in Hi.
  destruct i as [|[|[|i]]]; [in_list..|lia].
Defined.

(** The three outcomes, one with an error, and the notification shown
    for it. *)
Example reload_three_runners_second_fails :
  MultiExtensionRunner.reloadAllExtensions threeRunners [2; 0; 1]
  = (Some (Fulfilled
       [mkReloadResult "Firefox Desktop" None None;
        mkReloadResult "Firefox Android" (Some reloadFailure) None;
        mkReloadResult "Chromium" None None]),
     [mkNotification "web-ext run: extension reload error"
        ("Error occurred while reloadingon "
         ++ quoted "Firefox Android" ++ " - reload failed")%string]).
Proof. reflexivity. Qed.

(** While the third runner's reload is pending, so is the call. *)
Example reload_pending_while_a_member_is :
  fst (MultiExtensionRunner.reloadAllExtensions threeRunners [1; 0]) = None.
Proof. reflexivity. Qed.

(** ** [MultiExtensionRunner]: exiting *)

(** C3, as stated, fails: with two members of which the second one's
    [exit()] is rejected, the multi-runner's [exit()] is rejected too,
    and it is so as soon as that member has failed, while the first
    member's [exit()] is still pending. *)
Lemma exit_rejects_with_a_member :
  MultiExtensionRunner.exit [healthyRunner "Firefox Desktop";
                             stuckRunner "Firefox Android"] [1]
  = Some (Rejected exitFailure)
  /\ MultiExtensionRunner.exit [healthyRunner "Firefox Desktop";
                                stuckRunner "Firefox Android"] [0; 1]
     = Some (Rejected exitFailure).
Proof. split; reflexivity. Qed.

Lemma awaitAll_fulfilled (promises : list (Settled unit)) order :
  Forall (fun p => isFulfilled p = true) promises ->
  (MultiExtensionRunner.awaitAll promises order = Some (Fulfilled tt)
   <-> forall i, i < length promises -> i ∈ order)
  /\ forall reason,
       MultiExtensionRunner.awaitAll promises order <> Some (Rejected reason).
Proof.
  intros Hall.
  assert (promises = Fulfilled <$> replicate (length promises) tt) as Heq.
  { clear order. induction promises as [|[[]|r] promises IH];
      inversion Hall; subst; simpl in *; [done| |done].
    f_equal. by apply IH. }
  unfold MultiExtensionRunner.awaitAll.
  assert (Hlen : length (replicate (length promises) ()) = length promises)
    by apply length_replicate.
  split; [split|].
  - rewrite Heq at 1.
    destruct (PromiseAll.all _ _) as [[got|r]|] eqn:Hres; try done.
    intros _. apply all_fulfilled_inv in Hres as [_ Hin].
    intros i Hi. apply Hin. by rewrite Hlen.
  - intros Hin. rewrite Heq, all_fulfilled; [done|].
    intros i Hi. apply Hin. by rewrite <- Hlen.
  - intros reason. rewrite Heq.
    destruct (PromiseAll.all _ _) as [[got|r]|] eqn:Hres; try done.
    by apply all_fulfilled_inv in Hres as [? _].
Qed.

Lemma awaitAll_rejected (promises : list (Settled unit)) pre i post reason :
  Forall (fun j => forall r, promises !! j <> Some (Rejected r)) pre ->
  promises !! i = Some (Rejected reason) ->
  MultiExtensionRunner.awaitAll promises (pre ++ i :: post)
  = Some (Rejected reason).
Proof.
  intros Hpre Hi. unfold MultiExtensionRunner.awaitAll.
  by rewrite (all_rejected promises pre i post reason).
Qed.

(** C3, amended. [exit()] calls [exit()] on every member before it waits
    for any of them. When no member's [exit()] is rejected, it resolves
    exactly when every member's [exit()] has resolved and is never
    rejected. When a member's [exit()] is rejected before any other
    member's is, the multi-runner's [exit()] is rejected with that
    member's reason, whichever members are still pending. *)
Theorem exit_waits_for_all_or_fails_with_first
    (extensionRunners : list IExtensionRunner) (order : list nat) :
  ((forall runner, runner ∈ extensionRunners -> isFulfilled (exit runner) = true) ->
   (MultiExtensionRunner.exit extensionRunners order = Some (Fulfilled tt)
    <-> forall i, i < length extensionRunners -> i ∈ order)
   /\ forall reason,
        MultiExtensionRunner.exit extensionRunners order
        <> Some (Rejected reason))
  /\
  (forall pre i post runner reason,
     order = pre ++ i :: post ->
     (forall j other,
        j ∈ pre -> extensionRunners !! j = Some other ->
        isFulfilled (exit other) = true) ->
     extensionRunners !! i = Some runner ->
     exit runner = Rejected reason ->
     MultiExtensionRunner.exit extensionRunners order = Some (Rejected reason)).
Proof.
  unfold MultiExtensionRunner.exit. split.
  - intros Hall.
    rewrite <- (length_fmap exit extensionRunners).
    apply awaitAll_fulfilled. apply Forall_fmap, Forall_forall.
    intros runner Hin. by apply Hall.
  - intros pre i post runner reason -> Hpre Hi Hexit.
    apply awaitAll_rejected.
    + apply Forall_forall. intros j Hj r. rewrite list_lookup_fmap.
      destruct (extensionRunners !! j) as [other|] eqn:Hother; [|done].
      simpl. intros [= Hrej]. specialize (Hpre j other Hj Hother).
      by rewrite Hrej in Hpre.
    + by rewrite list_lookup_fmap, Hi; simpl; rewrite Hexit.
Qed.

(** Two healthy members, and three of which the second one's [exit()]
    is rejected after the third has exited and before the first has. *)
Lemma exit_waits_for_all_or_fails_with_first_witness :
  (MultiExtensionRunner.exit [healthyRunner "Firefox Desktop";
                              healthyRunner "Chromium"] [1; 0]
   = Some (Fulfilled tt))
  /\ MultiExtensionRunner.exit [healthyRunner "Firefox Desktop";
                                stuckRunner "Firefox Android";
                                healthyRunner "Chromium"] [2; 1; 0]
     = Some (Rejected exitFailure).
Proof.
  split.
  - destruct (exit_waits_for_all_or_fails_with_first
                [healthyRunner "Firefox Desktop"; healthyRunner "Chromium"]
                [1; 0]) as [H _].
    apply H.
    + intros runner Hin. apply list_elem_of_In in Hin. simpl in Hin.
      destruct Hin as [<-|[<-|[]]]; reflexivity.
    + intros i Hi. simpl in Hi. destruct i as [|[|i]]; [in_list..|lia].
  - destruct (exit_waits_for_all_or_fails_with_first
                [healthyRunner "Firefox Desktop";
                 stuckRunner "Firefox Android"; healthyRunner "Chromium"]
                [2; 1; 0]) as [_ H].
    apply (H [2] 1 [0] (stuckRunner "Firefox Android") exitFailure);
      try reflexivity.
    intros j other Hj Hother. apply list_elem_of_singleton in Hj as ->.
    by injection Hother as <-.
Defined.

(** ** [MultiExtensionRunner]: the cleanup barrier *)

Import MultiExtensionRunner.




















(** The history of that run, and of one where a member cleans up again
    afterwards. *)
Example cleanup_history_three_members :
  history (cleanups [2; 0; 0; 1; 2] (registerCleanup threeRunners))
  = [MemberCleanup 2; MemberCleanup 0; MemberCleanup 0; MemberCleanup 1;
     CallbackInvoked; MemberCleanup 2].
Proof. reflexivity. Qed.

(** The callback waits for the second member. *)
Example cleanup_callback_waits :
  callbackCount (cleanups [2; 0; 0] (registerCleanup threeRunners)) = 0.
Proof. reflexivity. Qed.

(** With no members the callback is invoked right away. *)
Example cleanup_callback_no_members :
  history (registerCleanup []) = [CallbackInvoked].
Proof. reflexivity. Qed.

(** ** The run command *)

(** Unfolds the sequencing of asynchronous code. *)
Ltac async_unfold :=
  unfold mbind, mret, Async_bind, Async_ret, Async.bind, Async.ret,
    Async.await, Async.throw, Async.effect, Async.tryCatch, emit,
    Async.onlyInstancesOf, Async.onlyErrorsWithCode in *.

(** Case analysis on what the code branches on first. *)
Ltac destruct_innermost t :=
  lazymatch t with
  | context [match ?y with _ => _ end] => destruct_innermost y
  | _ => destruct t eqn:?
  end.

Ltac run_cases H :=
  repeat (match type of H with
          | context [match ?x with _ => _ end] => destruct_innermost x
          end; simpl in H; simplify_eq).

(** The event is not among those of a trace that is written out. *)
Ltac not_in_trace H :=
  apply list_elem_of_In in H; simpl in H; intuition discriminate.

Section RunCommand.

Context {FirefoxProcess : Type}.
Variable getValidatedManifest : string -> Settled FirefoxApp.ExtensionManifest.
Variable getManifestId : FirefoxApp.ExtensionManifest -> option string.

Lemma run_after_failed_temporary_install
    (params : RunCmd.CmdRunParams)
    (options : RunCmd.CmdRunOptions (FirefoxProcess := FirefoxProcess))
    client error outcome trace :
  RunCmd.run getValidatedManifest getManifestId params options []
  = (outcome, trace) ->
  InstallTemporaryAddon (RunCmd.sourceDir params) ∈ trace ->
  RunCmd.firefoxClient options = Fulfilled client ->
  installTemporaryAddon client (RunCmd.sourceDir params) = Rejected error ->
  outcome
  = Rejected
      (if instanceOf error RemoteTempInstallNotSupported
       then JsErrorValue (newWebExtError RunCmd.tempInstallNotSupported)
       else error).
Proof.
  intros Hrun Hin Hclient Hinstall.
  unfold RunCmd.run, RunCmd.getProfile, RunCmd.installAsProxy,
    RunCmd.runnerRun, RunCmd.installAsTemporaryAddon in Hrun.
  async_unfold.
  cbn [RunCmd.runner_sourceDir RunCmd.runner_manifestData
       RunCmd.runner_profilePath RunCmd.runner_keepProfileChanges
       RunCmd.runner_firefoxApp RunCmd.runner_firefox
       RunCmd.runner_browserConsole RunCmd.runner_startUrl] in Hrun.
  rewrite Hclient, Hinstall in Hrun.
  run_cases Hrun; try not_in_trace Hin; done.
Qed.

End RunCommand.

Section LegacyRunCommand.

Context {FirefoxProcess : Type}.
Variable getValidatedManifest : string -> Settled FirefoxApp.ExtensionManifest.

Lemma legacy_run_after_failed_temporary_install
    (params : RunCmdLegacy.CmdRunParams)
    (options : RunCmdLegacy.CmdRunOptions (FirefoxProcess := FirefoxProcess))
    client error outcome trace :
  RunCmdLegacy.run getValidatedManifest params options [] = (outcome, trace) ->
  InstallTemporaryAddon (RunCmdLegacy.sourceDir params) ∈ trace ->
  RunCmdLegacy.firefoxClient options = Fulfilled client ->
  installTemporaryAddon client (RunCmdLegacy.sourceDir params) = Rejected error ->
  outcome
  = Rejected
      (if instanceOf error RemoteTempInstallNotSupported
       then JsErrorValue (newWebExtError RunCmdLegacy.tempInstallNotSupported)
       else error).
Proof.
  intros Hrun Hin Hclient Hinstall.
  unfold RunCmdLegacy.run, RunCmdLegacy.createRunner, RunCmdLegacy.getProfile,
    RunCmdLegacy.installAsTextFileInProfile, RunCmdLegacy.runnerRun,
    RunCmdLegacy.installAsTemporaryAddon in Hrun.
  async_unfold.
  cbn [RunCmdLegacy.runner_sourceDir RunCmdLegacy.runner_manifestData
       RunCmdLegacy.runner_firefoxProfile RunCmdLegacy.runner_firefox
       RunCmdLegacy.runner_firefoxBinary] in Hrun.
  rewrite Hclient in Hrun.
  run_cases Hrun; try not_in_trace Hin; try done.
  all: rewrite Hinstall in *; simplify_eq; done.
Qed.

End LegacyRunCommand.

(** C7. Whenever [installTemporaryAddon] fails with
    [RemoteTempInstallNotSupported], the run command fails with a
    [WebExtError] whose message ends in the advice to use the flag that
    pre-installs the extension into the profile ([--pre-install]; in the
    earlier revision, [--install-to-profile]). Any other error of
    [installTemporaryAddon] is passed on as it is. *)
Theorem unsupported_temporary_install_advises_pre_install
    {FirefoxProcess : Type}
    (getValidatedManifest : string -> Settled FirefoxApp.ExtensionManifest)
    (getManifestId : FirefoxApp.ExtensionManifest -> option string) :
  (forall (params : RunCmd.CmdRunParams)
          (options : RunCmd.CmdRunOptions (FirefoxProcess := FirefoxProcess))
          error outcome trace,
     RunCmd.run getValidatedManifest getManifestId params options []
     = (outcome, trace) ->
     temporaryInstallFailed trace (RunCmd.sourceDir params)
       (RunCmd.firefoxClient options) error ->
     (instanceOf error RemoteTempInstallNotSupported = true ->
      outcome
      = Rejected (JsErrorValue
          (mkError WebExtError RunCmd.tempInstallNotSupported None))
      /\ exists advice,
           RunCmd.tempInstallNotSupported
           = (advice ++ "use --pre-install")%string)
     /\ (instanceOf error RemoteTempInstallNotSupported = false ->
         outcome = Rejected error))
  /\
  (forall (params : RunCmdLegacy.CmdRunParams)
          (options : RunCmdLegacy.CmdRunOptions (FirefoxProcess := FirefoxProcess))
          error outcome trace,
     RunCmdLegacy.run getValidatedManifest params options [] = (outcome, trace) ->
     temporaryInstallFailed trace (RunCmdLegacy.sourceDir params)
       (RunCmdLegacy.firefoxClient options) error ->
     (instanceOf error RemoteTempInstallNotSupported = true ->
      outcome
      = Rejected (JsErrorValue
          (mkError WebExtError RunCmdLegacy.tempInstallNotSupported None))
      /\ exists advice,
           RunCmdLegacy.tempInstallNotSupported
           = (advice ++ "use --install-to-profile")%string)
     /\ (instanceOf error RemoteTempInstallNotSupported = false ->
         outcome = Rejected error)).
Proof.
  split.
  - intros params options error outcome trace Hrun (Hin & client & Hc & Hi).
    rewrite (run_after_failed_temporary_install _ _ _ _ _ _ _ _
               Hrun Hin Hc Hi).
    split; intros ->; [|done]. split; [done|].
    exists ("Temporary add-on installation is not supported in this version "
            ++ "of Firefox (you need Firefox 49 or higher). For older Firefox "
            ++ "versions, ")%string.
    reflexivity.
  - intros params options error outcome trace Hrun (Hin & client & Hc & Hi).
    rewrite (legacy_run_after_failed_temporary_install _ _ _ _ _ _ _
               Hrun Hin Hc Hi).
    split; intros ->; [|done]. split; [done|].
    exists ("Temporary add-on installation is not supported in this version "
            ++ "of Firefox (you need Firefox 49 or higher). For older Firefox "
            ++ "versions, ")%string.
    reflexivity.
Qed.

(** The unit test that expects the advice, in both revisions: a new
    profile and a Firefox that does not support temporary installation. *)
Lemma unsupported_temporary_install_advises_pre_install_witness :
  fst (RunCmd.run (fun _ => Fulfilled minimalManifest) (fun _ => None)
         runParams
         (RunCmd.mkCmdRunOptions fakeFirefoxApp (Fulfilled olderFirefox)) [])
  = Rejected (JsErrorValue
      (mkError WebExtError RunCmd.tempInstallNotSupported None))
  /\
  fst (RunCmdLegacy.run (fun _ => Fulfilled minimalManifest) legacyRunParams
         (RunCmdLegacy.mkCmdRunOptions (Fulfilled olderFirefox)
            fakeFirefoxApp) [])
  = Rejected (JsErrorValue
      (mkError WebExtError RunCmdLegacy.tempInstallNotSupported None)).
Proof.
  destruct (unsupported_temporary_install_advises_pre_install
              (FirefoxProcess := string)
              (fun _ => Fulfilled minimalManifest) (fun _ => None))
    as [Hnew Hold].
  split.
  - eapply (Hnew runParams
              (RunCmd.mkCmdRunOptions fakeFirefoxApp (Fulfilled olderFirefox))
              notSupported).
    + apply surjective_pairing.
    + split; [vm_compute; in_list|].
      exists olderFirefox. split; reflexivity.
    + reflexivity.
  - eapply (Hold legacyRunParams
              (RunCmdLegacy.mkCmdRunOptions (Fulfilled olderFirefox)
                 fakeFirefoxApp)
              notSupported).
    + apply surjective_pairing.
    + split; [vm_compute; in_list|].
      exists olderFirefox. split; reflexivity.
    + reflexivity.
Defined.

(** ** The Chromium reload channel *)

Import ChromiumRunner.

Lemma broadcast_receivedOnce m (r : ChromiumExtensionRunner) :
  Forall2 (receivedOnce m) (connections r) (connections (broadcast m r)).
Proof.
  unfold broadcast. cbn [connections].
  induction (connections r) as [|c cs IH]; constructor; [|done].
  unfold receivedOnce, deliver. by destruct (isOpen c) eqn:Hopen.
Qed.

(** C8. On the Chromium runner, [reloadAllExtensions] and
    [reloadExtensionBySourceDir(dir)] for a managed [dir] both resolve
    after one broadcast of [{type: "webExtReloadAllExtensions"}]: every
    connection that is open receives that one message and a closed one
    receives nothing. *)
Theorem chromium_reload_is_one_broadcast_to_all
    (r : ChromiumExtensionRunner) (dir : string) :
  dir ∈ sourceDirs r ->
  ChromiumRunner.reloadAllExtensions r
  = (Fulfilled tt, broadcast webExtReloadAllExtensions r)
  /\ ChromiumRunner.reloadExtensionBySourceDir dir r
     = (Fulfilled tt, broadcast webExtReloadAllExtensions r)
  /\ Forall2 (receivedOnce (mkControlMessage "webExtReloadAllExtensions"))
       (connections r)
       (connections (broadcast webExtReloadAllExtensions r)).
Proof.
  intros Hdir. split; [done|]. split.
  - unfold ChromiumRunner.reloadExtensionBySourceDir.
    by rewrite bool_decide_eq_true_2.
  - apply broadcast_receivedOnce.
Qed.

(** The second companion gets the message, the closed first one
    nothing. *)
Lemma chromium_reload_is_one_broadcast_to_all_witness :
  snd (ChromiumRunner.reloadExtensionBySourceDir "/fake/sourceDir"
         chromiumWithTwoCompanions)
  = mkChromium ["/fake/sourceDir"]
      [mkConnection false [];
       mkConnection true [mkControlMessage "webExtReloadAllExtensions"]].
Proof.
  destruct (chromium_reload_is_one_broadcast_to_all chromiumWithTwoCompanions
              "/fake/sourceDir") as (_ & -> & _); [in_list|].
  reflexivity.
Defined.

(** ** Installing into the profile as a pointer file *)

Section InstallSteps.

Import FirefoxApp.

Variable pathJoin : string -> string -> string.
Variable dirname : string -> string.

(** The first step of [installExtension]: the extensions directory is
    looked at and, when it is missing, made, which takes the directory
    it lies in. *)
Lemma extensions_dir_step (extDir : string) (fs : FileSystem) :
  tryCatch (stat dirname extDir)
    (onlyErrorsWithCode "ENOENT" (fun _ => mkdir dirname extDir)) fs
  = match files fs !! extDir with
    | Some _ => (Fulfilled tt, fs)
    | None =>
        match files fs !! dirname extDir with
        | Some Directory =>
            (Fulfilled tt,
             mkFileSystem (<[extDir := Directory]> (files fs)) (detached fs))
        | Some (File _) => (Rejected (fsError "ENOTDIR"), fs)
        | None => (Rejected (fsError "ENOENT"), fs)
        end
    end.
Proof.
  unfold stat, mkdir, parentError. async_unfold.
  destruct (files fs !! extDir) as [node|] eqn:Hext; [done|].
  destruct (files fs !! dirname extDir) as [[|content]|] eqn:Hparent;
    simpl; by rewrite ?Hext, ?Hparent.
Qed.

(** When the directory is there or can be made, the step goes through. *)
Lemma extensions_dir_made (extDir : string) (fs : FileSystem) :
  canHold dirname (files fs) extDir ->
  tryCatch (stat dirname extDir)
    (onlyErrorsWithCode "ENOENT" (fun _ => mkdir dirname extDir)) fs
  = (Fulfilled tt,
     mkFileSystem (withDirectory extDir (files fs)) (detached fs)).
Proof.
  intros Hcan. rewrite extensions_dir_step. unfold withDirectory.
  destruct (files fs !! extDir) as [node|] eqn:Hext; [by destruct fs|].
  destruct Hcan as [[node Hnode]| ->]; [congruence|done].
Qed.

Lemma install_outcome (p : InstallParams) (fs : FileSystem) (extDir : string) :
  extensionsDir (profile p) = Some extDir ->
  extDir <> EmptyString ->
  installExtension pathJoin dirname p fs
  = match tryCatch (stat dirname extDir)
            (onlyErrorsWithCode "ENOENT" (fun _ => mkdir dirname extDir)) fs
    with
    | (Rejected reason, fs1) => (Rejected reason, fs1)
    | (Fulfilled _, fs1) =>
        match geckoId (manifestData p) with
        | Rejected reason => (Rejected reason, fs1)
        | Fulfilled extId =>
            if truthyBool (asShadowInstall p) then
              (writeStream ← write (createWriteStream
                                      (pathJoin extDir (template extId)))
                               (sourceDir p);
               streamToPromise dirname (endStream writeStream)) fs1
            else
              match extensionPath p with
              | None =>
                  (Rejected (typeError "path must be a string or Buffer"), fs1)
              | Some extensionPath =>
                  (writeStream ← pipe dirname extensionPath
                                   (createWriteStream
                                      (pathJoin extDir
                                         (template extId ++ ".xpi")));
                   streamToPromise dirname writeStream) fs1
              end
        end
    end.
Proof.
  intros Hdir Hne. unfold installExtension. rewrite Hdir.
  assert (truthyString (Some extDir) = true) as -> by (by destruct extDir).
  cbn [template default from_option id].
  unfold mbind at 1 2, Async_bind at 1 2, Async.bind at 1 2.
  destruct (tryCatch _ _ fs) as [[[]|reason] fs1]; [|done].
  unfold await.
  destruct (geckoId (manifestData p)) as [extId|reason]; [|done].
  destruct (truthyBool (asShadowInstall p)); [done|].
  by destruct (extensionPath p).
Qed.

(** A shadow install: once the extensions directory is there, the promise
    is resolved, with the stream of the pointer file left to the event
    loop. *)
Lemma shadow_install_outcome (p : InstallParams) (fs : FileSystem)
    (extDir extId dir : string) :
  extensionsDir (profile p) = Some extDir ->
  extDir <> EmptyString ->
  geckoId (manifestData p) = Fulfilled (Some extId) ->
  asShadowInstall p = Some true ->
  sourceDir p = Some dir ->
  canHold dirname (files fs) extDir ->
  installExtension pathJoin dirname p fs
  = (Fulfilled tt,
     mkFileSystem (withDirectory extDir (files fs))
       (detached fs ++ [mkWriteStream (pathJoin extDir extId) dir true])).
Proof.
  intros Hdir Hne Hid Hshadow Hsrc Hcan.
  rewrite (install_outcome p fs extDir Hdir Hne).
  rewrite (extensions_dir_made extDir fs Hcan), Hid, Hshadow, Hsrc.
  reflexivity.
Qed.

(** What the stream of a pointer file does to files it finds. *)
Lemma openAndWrite_twice (ws : WriteStream) (fs : Files) :
  openAndWrite dirname ws (snd (openAndWrite dirname ws fs))
  = openAndWrite dirname ws fs.
Proof.
  unfold openAndWrite, parentError.
  destruct (fs !! wsPath ws) as [[|old]|] eqn:Hdest; simpl.
  - by rewrite Hdest.
  - by rewrite lookup_insert_eq, insert_insert_eq.
  - destruct (fs !! dirname (wsPath ws)) as [[|content]|] eqn:Hparent;
      simpl; rewrite ?Hdest, ?Hparent; try done.
    by rewrite lookup_insert_eq, insert_insert_eq.
Qed.

End InstallSteps.

(** C9. A shadow install does not resolve once the pointer file has been
    written: [installExtension] ends the write stream before it asks
    [streamToPromise] for the stream's promise, which is therefore
    resolved already. Into a profile without an extensions directory the
    promise is resolved while the pointer file is not there yet; it is
    written afterwards. Where a directory has the pointer file's name the
    promise is resolved all the same, nothing is ever written and the
    stream's error is heard by nobody. *)
Theorem shadow_install_resolves_before_the_file_is_written :
  let install :=
    FirefoxApp.installExtension posixJoin posixDirname
      (RunCmdLegacy.shadowInstallParams legacyRunner fakeProfile) in
  let pointer :=
    "/tmp/profile/extensions/minimal-example@web-ext-test-suite" in
  (fst (install freshProfile) = Fulfilled tt
   /\ FirefoxApp.files (snd (install freshProfile)) !! pointer = None
   /\ FirefoxApp.later posixDirname (snd (install freshProfile)) !! pointer
      = Some (FirefoxApp.File "/src/minimal-web-ext"))
  /\ (fst (install occupiedProfile) = Fulfilled tt
      /\ FirefoxApp.later posixDirname (snd (install occupiedProfile))
         !! pointer
         = Some FirefoxApp.Directory
      /\ FirefoxApp.streamErrors posixDirname (snd (install occupiedProfile))
         = [FirefoxApp.fsError "EISDIR"]).
Proof. vm_compute. repeat split. Qed.

(** What [installAsProxy] of the async/await revision of [run.js] asks
    [firefoxApp.installExtension] for: a proxy install of the source
    directory, which it passes as [extensionPath], and then the id of the
    manifest. The [installExtension] that reads [asProxy] belongs to a
    later revision of [src/firefox/index.js] than the one embedded here,
    which reads [asShadowInstall] and [sourceDir] (and has no
    [useProfile]). *)
Lemma installAsProxy_request {FirefoxProcess : Type}
    (getManifestId : FirefoxApp.ExtensionManifest -> option string)
    (this : RunCmd.DefaultExtensionRunner (FirefoxProcess := FirefoxProcess))
    (profile : FirefoxApp.FirefoxProfile) (trace : list RunEvent) :
  let request := RunCmd.proxyInstallParams this profile in
  FirefoxApp.asProxy request = Some true
  /\ FirefoxApp.extensionPath request = Some (RunCmd.runner_sourceDir this)
  /\ FirefoxApp.asShadowInstall request = None
  /\ RunCmd.installAsProxy getManifestId this profile trace
     = (match installExtension (RunCmd.runner_firefoxApp this) request with
        | Fulfilled _ => Fulfilled (getManifestId (RunCmd.runner_manifestData this))
        | Rejected reason => Rejected reason
        end,
        trace ++ [InstallExtension request]).
Proof.
  repeat split. unfold RunCmd.installAsProxy. async_unfold.
  by destruct (installExtension _ _).
Qed.

(** Handed that request, the [installExtension] of the earlier revision
    does not see a shadow install: it copies [extensionPath] as a packaged
    extension, which fails on a directory and leaves an empty archive
    instead of a pointer file. *)
Example earlier_installExtension_given_proxy_request :
  let runner :=
    RunCmd.mkExtensionRunner "/src/minimal-web-ext" minimalManifest None false
      fakeFirefoxApp None false None in
  let fs : FirefoxApp.FileSystem :=
    FirefoxApp.mkFileSystem
      (<[ "/src/minimal-web-ext" := FirefoxApp.Directory ]>
         (<[ "/src" := FirefoxApp.Directory ]>
            (<[ "/tmp/profile/extensions" := FirefoxApp.Directory ]>
               (FirefoxApp.files freshProfile)))) [] in
  let result :=
    FirefoxApp.installExtension posixJoin posixDirname
      (RunCmd.proxyInstallParams runner fakeProfile) fs in
  fst result = Rejected (FirefoxApp.fsError "EISDIR")
  /\ FirefoxApp.later posixDirname (snd result)
     !! "/tmp/profile/extensions/minimal-example@web-ext-test-suite"
     = None
  /\ FirefoxApp.later posixDirname (snd result)
     !! "/tmp/profile/extensions/minimal-example@web-ext-test-suite.xpi"
     = Some (FirefoxApp.File EmptyString).
Proof. vm_compute. repeat split. Qed.

(** ** Finding the remote debugging port *)

Section RemotePort.

Import FirefoxApp.

Context {Client FirefoxProcess : Type}.
Variable REMOTE_PORT : Z.
Variable defaultFirefoxConnector : Z -> Settled Client.
Variable defaultFxRunner : FxRunnerOptions -> Settled FirefoxProcess.

Lemma portInUse_not_refused port :
  isErrorWithCode "ECONNREFUSED" (JsErrorValue (portInUse port)) = false.
Proof. reflexivity. Qed.

Lemma remote_port_finder_outcome (params : PortFinderParams Client)
    (w : LaunchWorld Client) :
  let port := default REMOTE_PORT (portToTry params) in
  let connect := default defaultFirefoxConnector (connectToFirefox params) in
  defaultRemotePortFinder REMOTE_PORT defaultFirefoxConnector params w
  = match connect port with
    | Fulfilled client =>
        (Rejected (JsErrorValue (portInUse port)),
         mkLaunchWorld (client :: disconnected w) (launched w))
    | Rejected error =>
        (if isErrorWithCode "ECONNREFUSED" error
         then Fulfilled port else Rejected error, w)
    end.
Proof.
  intros port connect. unfold defaultRemotePortFinder, disconnect.
  async_unfold. fold port connect.
  destruct (connect port) as [client|error]; simpl; [done|].
  by destruct (isErrorWithCode "ECONNREFUSED" error).
Qed.

(** C10. The default remote-port finder resolves only when the probe
    connection to the candidate port is refused (ECONNREFUSED), and then
    with that very port. When the probe connects, it disconnects the
    probe client and fails with the error that the port is in use; it
    tries no other port, so [run] fails with that error and does not
    start the browser. *)
Theorem remote_port_finder_fails_when_port_in_use
    (params : PortFinderParams Client) (w : LaunchWorld Client) :
  let port := default REMOTE_PORT (portToTry params) in
  let connect := default defaultFirefoxConnector (connectToFirefox params) in
  (forall found w',
     defaultRemotePortFinder REMOTE_PORT defaultFirefoxConnector params w
     = (Fulfilled found, w') ->
     found = port /\ w' = w
     /\ exists error,
          connect port = Rejected error
          /\ isErrorWithCode "ECONNREFUSED" error = true)
  /\ (forall error,
        connect port = Rejected error ->
        isErrorWithCode "ECONNREFUSED" error = true ->
        defaultRemotePortFinder REMOTE_PORT defaultFirefoxConnector params w
        = (Fulfilled port, w))
  /\ (forall client,
        connect port = Fulfilled client ->
        defaultRemotePortFinder REMOTE_PORT defaultFirefoxConnector params w
        = (Rejected (JsErrorValue (newWebExtError
             ("Cannot listen on port " ++ pretty port
              ++ " because it's in use")%string)),
           mkLaunchWorld (client :: disconnected w) (launched w)))
  /\ (forall client profile options,
        findRemotePort options = None ->
        defaultFirefoxConnector REMOTE_PORT = Fulfilled client ->
        run REMOTE_PORT defaultFirefoxConnector defaultFxRunner profile options w
        = (Rejected (JsErrorValue (portInUse REMOTE_PORT)),
           mkLaunchWorld (client :: disconnected w) (launched w))).
Proof.
  intros port connect.
  pose proof (remote_port_finder_outcome params w) as Hout.
  cbv zeta in Hout. fold port connect in Hout.
  split; [|split; [|split]].
  - intros found w' Hres. rewrite Hres in Hout.
    destruct (connect port) as [client|error]; [done|].
    destruct (isErrorWithCode "ECONNREFUSED" error) eqn:Hcode; [|done].
    injection Hout as -> ->. eauto.
  - intros error Hc Hcode. by rewrite Hout, Hc, Hcode.
  - intros client Hc. by rewrite Hout, Hc.
  - intros client profile options Hfind Hc.
    unfold run. rewrite Hfind. async_unfold.
    cbn [default from_option id].
    rewrite (remote_port_finder_outcome (mkPortFinderParams None None) w).
    cbn [default from_option id portToTry connectToFirefox].
    by rewrite Hc.
Qed.

End RemotePort.

(** Launching while another Firefox listens on the port. *)
Lemma remote_port_finder_fails_when_port_in_use_witness :
  FirefoxApp.run 6005 portTaken (fun _ => Fulfilled "firefox") fakeProfile
    (FirefoxApp.mkRunOptions None None None None)
    (FirefoxApp.mkLaunchWorld [] [])
  = (Rejected (JsErrorValue (newWebExtError
       "Cannot listen on port 6005 because it's in use")),
     FirefoxApp.mkLaunchWorld ["probe"] []).
Proof.
  destruct (remote_port_finder_fails_when_port_in_use 6005 portTaken
              (fun _ => Fulfilled "firefox")
              (FirefoxApp.mkPortFinderParams None None)
              (FirefoxApp.mkLaunchWorld [] [])) as (_ & _ & _ & H).
  rewrite (H "probe" fakeProfile); reflexivity.
Defined.

(** A port nobody listens on is found. *)
Example remote_port_free :
  FirefoxApp.defaultRemotePortFinder 6005 portTaken
    (FirefoxApp.mkPortFinderParams (Some 6006%Z) None)
    (FirefoxApp.mkLaunchWorld [] [])
  = (Fulfilled 6006%Z, FirefoxApp.mkLaunchWorld [] []).
Proof. reflexivity. Qed.

(* ===================================================================== *)
(** * Further properties *)
(* ===================================================================== *)

(** ** The connection retrier, whatever the connect function does *)

Section RetrierRuns.

Context {Client : Type}.
Variables (connect : FirefoxConnectorFn Client) (interval : Z).

(** A run of the loop: it makes [n] attempts, of which all but the last
    are refused; it stops before the range is used up only on an outcome
    that is no refusal; and it waits after every refusal, the last one
    included. *)
Lemma retryLoop_run (range : list Z) :
  forall lastError w,
    exists n,
      n <= length range
      /\ (range <> [] -> 1 <= n)
      /\ (forall i, callCount w <= i -> S i < callCount w + n ->
                    isRefusal (connect i) = true)
      /\ (n < length range ->
          1 <= n /\ isRefusal (connect (callCount w + n - 1)) = false)
      /\ RunCmd.retryLoop connect interval range lastError w
         = (match n with
            | O => Rejected lastError
            | S m => connect (callCount w + m)
            end,
            advance n
              (match n with
               | O => 0
               | S m => if isRefusal (connect (callCount w + m)) then n else m
               end) interval w).
Proof.
  induction range as [|retries rest IH]; intros lastError w.
  - exists 0. split; [simpl; lia|]. split; [done|].
    split; [intros; lia|]. split; [simpl; lia|].
    simpl. unfold advance. destruct w; simpl. do 2 f_equal. lia.
  - cbn [RunCmd.retryLoop]. unfold invoke at 1.
    assert (Hone : mkRetryWorld (S (callCount w)) (timers w)
                   = advance 1 0 interval w).
    { unfold advance; simpl. f_equal. lia. }
    destruct (connect (callCount w)) as [client|error] eqn:Hc.
    { exists 1. replace (callCount w + 0) with (callCount w) by lia.
      rewrite Hc. cbn [isRefusal]. rewrite Hone.
      split; [simpl; lia|]. split; [lia|]. split; [intros; lia|].
      split; [|done]. intros _. split; [lia|].
      replace (callCount w + 1 - 1) with (callCount w) by lia. by rewrite Hc. }
    destruct (isErrorWithCode "ECONNREFUSED" error) eqn:Hr.
    + change (mkRetryWorld (S (callCount w)) (timers w))
        with (snd (invoke connect w)).
      destruct (IH error (setTimeout interval (snd (invoke connect w))))
        as (n & Hn & Hne & Hpre & Hstop & ->).
      cbn [setTimeout invoke snd callCount] in *.
      exists (S n). split; [simpl; lia|]. split; [lia|]. split; [|split].
      * intros i Hi Hlt. destruct (decide (i = callCount w)) as [->|Hneq].
        -- by rewrite Hc.
        -- apply Hpre; lia.
      * intros Hlt. split; [lia|].
        destruct Hstop as [Hge Hdec]; [simpl in Hlt; lia|].
        by replace (callCount w + S n - 1) with (S (callCount w) + n - 1) by lia.
      * destruct n as [|m].
        -- replace (callCount w + 0) with (callCount w) by lia.
           rewrite Hc. simpl. rewrite Hr. f_equal.
           unfold advance, setTimeout; simpl. f_equal. lia.
        -- replace (callCount w + S m) with (S (callCount w) + m) by lia.
           f_equal.
           change (mkRetryWorld (S (callCount w)) (timers w))
             with (snd (invoke connect w)).
           destruct (isRefusal (connect (S (callCount w) + m)));
             by rewrite advance_setTimeout_invoke.
    + exists 1. replace (callCount w + 0) with (callCount w) by lia.
      rewrite Hc. cbn [isRefusal]. rewrite Hr, Hone.
      split; [simpl; lia|]. split; [lia|]. split; [intros; lia|].
      split; [|done]. intros _. split; [lia|].
      replace (callCount w + 1 - 1) with (callCount w) by lia.
      rewrite Hc. done.
Qed.

(** A run of the earlier revision: at least one attempt, and a wait
    between two attempts only. *)
Lemma legacy_run (maxRetries : Z) (fuel : nat) :
  forall retries w,
    Z.to_nat (maxRetries - retries) < fuel ->
    exists n,
      n <= Z.to_nat (maxRetries - retries)
      /\ (forall i, callCount w <= i -> i < callCount w + n ->
                    isRefusal (connect i) = true)
      /\ (n < Z.to_nat (maxRetries - retries) ->
          isRefusal (connect (callCount w + n)) = false)
      /\ RunCmdLegacy.establishConnection fuel connect maxRetries interval
           retries w
         = Some (connect (callCount w + n), advance (S n) n interval w).
Proof.
  induction fuel as [|fuel IH]; intros retries w Hfuel; [lia|].
  cbn [RunCmdLegacy.establishConnection]. unfold invoke at 1.
  assert (Hone : mkRetryWorld (S (callCount w)) (timers w)
                 = advance 1 0 interval w).
  { unfold advance; simpl. f_equal. lia. }
  assert (Hstop : forall outcome,
            connect (callCount w) = outcome ->
            (isRefusal outcome = false \/ (maxRetries <= retries)%Z) ->
            exists n,
              n <= Z.to_nat (maxRetries - retries)
              /\ (forall i, callCount w <= i -> i < callCount w + n ->
                            isRefusal (connect i) = true)
              /\ (n < Z.to_nat (maxRetries - retries) ->
                  isRefusal (connect (callCount w + n)) = false)
              /\ Some (outcome, mkRetryWorld (S (callCount w)) (timers w))
                 = Some (connect (callCount w + n), advance (S n) n interval w)).
  { intros outcome Hc Hwhy. exists 0.
    replace (callCount w + 0) with (callCount w) by lia.
    rewrite Hc, Hone. repeat split; try done; try lia.
    intros Hlt. destruct Hwhy as [?|?]; [done|lia]. }
  destruct (connect (callCount w)) as [client|error] eqn:Hc.
  { apply Hstop; [done|by left]. }
  destruct (isErrorWithCode "ECONNREFUSED" error) eqn:Hr;
    [|apply Hstop; [done|by left]].
  destruct (Z.geb_spec retries maxRetries) as [Hge|Hlt];
    [apply Hstop; [done|right; lia]|].
  change (mkRetryWorld (S (callCount w)) (timers w))
    with (snd (invoke connect w)).
  destruct (IH (retries + 1)%Z (setTimeout interval (snd (invoke connect w))))
    as (n & Hn & Hpre & Hdec & ->); [lia|].
  cbn [setTimeout invoke snd callCount] in *.
  exists (S n). split; [lia|]. split; [|split].
  - intros i Hi Hlti. destruct (decide (i = callCount w)) as [->|Hneq].
    + by rewrite Hc.
    + apply Hpre; lia.
  - intros Hltn.
    replace (callCount w + S n) with (S (callCount w) + n) by lia.
    apply Hdec. lia.
  - replace (callCount w + S n) with (S (callCount w) + n) by lia.
    do 2 f_equal.
    change (mkRetryWorld (S (callCount w)) (timers w))
      with (snd (invoke connect w)).
    by rewrite advance_setTimeout_invoke.
Qed.

End RetrierRuns.

(** X1. With a budget [maxRetries >= 0], whatever the connect function
    settles with (rejections being [Error] objects), both revisions of [defaultFirefoxClient] make the same attempts
    and settle the same way: at least one attempt and at most
    [maxRetries + 1]; every attempt but the last is refused; the call
    settles with what the last attempt settled with; and it stops before
    the budget is used up only on an attempt that is not refused. *)
Theorem retrier_settles_with_last_attempt {Client}
    (dflt connect : FirefoxConnectorFn Client) (N interval : Z) :
  rejectsWithErrors connect ->
  (0 <= N)%Z ->
  let params := mkParams (Some connect) (Some N) (Some interval) in
  exists n w w',
    1 <= n <= Z.to_nat N + 1
    /\ (forall i, S i < n -> isRefusal (connect i) = true)
    /\ (n < Z.to_nat N + 1 -> isRefusal (connect (n - 1)) = false)
    /\ RunCmd.defaultFirefoxClient dflt params freshWorld = (connect (n - 1), w)
    /\ callCount w = n
    /\ RunCmdLegacy.defaultFirefoxClient dflt params freshWorld
       = Some (connect (n - 1), w')
    /\ callCount w' = n.
Proof.
  intros _ Hpos params. subst params.
  pose proof (retries_range N Hpos) as Hlen.
  unfold RunCmd.defaultFirefoxClient, RunCmdLegacy.defaultFirefoxClient,
    RunCmd.establishConnection, RunCmdLegacy.enoughFuel.
  cbn [default from_option id connectToFirefox maxRetries retryInterval].
  destruct (retryLoop_run connect interval (seqZ 0 (N + 1)) JsUndefined
              freshWorld) as (n & Hn & Hne & Hpre & Hstop & Hnew).
  destruct (legacy_run connect interval N (S (Z.to_nat N)) 0%Z freshWorld)
    as (m & Hm & Hpre' & Hstop' & Hold); [lia|].
  rewrite Hlen in Hn, Hstop. cbn [callCount freshWorld] in *.
  replace (N - 0)%Z with N in * by lia.
  assert (1 <= n) as Hn1.
  { apply Hne. intros Hnil. rewrite Hnil in Hlen. simpl in Hlen. lia. }
  assert (n = S m) as ->.
  { destruct (Nat.lt_trichotomy n (S m)) as [Hlt|[Heq|Hgt]]; [|done|].
    - destruct Hstop as [_ Hdec]; [lia|].
      rewrite Hpre' in Hdec; [done|lia|simpl; lia].
    - rewrite Hpre in Hstop'; [|lia|simpl; lia].
      assert (true = false) by (apply Hstop'; lia). done. }
  exists (S m), (advance (S m)
                   (if isRefusal (connect (0 + m)) then S m else m)
                   interval freshWorld),
    (advance (S m) m interval freshWorld).
  replace (S m - 1) with m by lia. simpl in Hnew, Hold. simpl.
  split; [lia|]. split; [intros i Hi; apply Hpre; simpl; lia|].
  split.
  { intros Hlt. destruct Hstop as [_ Hdec]; [lia|].
    by replace (0 + S m - 1) with m in Hdec by lia. }
  split; [exact Hnew|]. split; [lia|]. split; [exact Hold|lia].
Qed.

(** A handshake that fails after two refusals: three attempts, the last
    of which is the result, in both revisions. *)
Lemma retrier_settles_with_last_attempt_witness :
  exists n w w',
    1 <= n <= 251
    /\ (forall i, S i < n -> isRefusal (handshakeFailsThird i) = true)
    /\ (n < 251 -> isRefusal (handshakeFailsThird (n - 1)) = false)
    /\ RunCmd.defaultFirefoxClient alwaysRefused
         (mkParams (Some handshakeFailsThird) (Some 250%Z) (Some 120%Z))
         freshWorld
       = (handshakeFailsThird (n - 1), w)
    /\ callCount w = n
    /\ RunCmdLegacy.defaultFirefoxClient alwaysRefused
         (mkParams (Some handshakeFailsThird) (Some 250%Z) (Some 120%Z))
         freshWorld
       = Some (handshakeFailsThird (n - 1), w')
    /\ callCount w' = n.
Proof.
  apply (retrier_settles_with_last_attempt alwaysRefused handshakeFailsThird
           250 120).
  - intros i. unfold handshakeFailsThird.
    destruct (Nat.ltb i 2); discriminate.
  - lia.
Defined.

(** X2. With a budget [maxRetries >= 0], the earlier revision waits
    [retryInterval] between two attempts and not after the last one; the
    async/await revision waits after every refused attempt, so once more
    than the earlier revision when the call fails with a refusal and as
    often when it ends in any other way. *)
Theorem retrier_waits_after_each_refusal {Client}
    (dflt connect : FirefoxConnectorFn Client) (N interval : Z) :
  rejectsWithErrors connect ->
  (0 <= N)%Z ->
  let params := mkParams (Some connect) (Some N) (Some interval) in
  exists outcome w w',
    RunCmd.defaultFirefoxClient dflt params freshWorld = (outcome, w)
    /\ RunCmdLegacy.defaultFirefoxClient dflt params freshWorld
       = Some (outcome, w')
    /\ timers w' = replicate (callCount w' - 1) interval
    /\ timers w
       = replicate (if isRefusal outcome then callCount w else callCount w - 1)
           interval
    /\ waited w
       = (waited w' + if isRefusal outcome then interval else 0)%Z.
Proof.
  intros _ Hpos params. subst params.
  pose proof (retries_range N Hpos) as Hlen.
  unfold RunCmd.defaultFirefoxClient, RunCmdLegacy.defaultFirefoxClient,
    RunCmd.establishConnection, RunCmdLegacy.enoughFuel.
  cbn [default from_option id connectToFirefox maxRetries retryInterval].
  destruct (retryLoop_run connect interval (seqZ 0 (N + 1)) JsUndefined
              freshWorld) as (n & Hn & Hne & Hpre & Hstop & Hnew).
  destruct (legacy_run connect interval N (S (Z.to_nat N)) 0%Z freshWorld)
    as (m & Hm & Hpre' & Hstop' & Hold); [lia|].
  rewrite Hlen in Hn, Hstop. cbn [callCount freshWorld] in *.
  replace (N - 0)%Z with N in * by lia.
  assert (1 <= n) as Hn1.
  { apply Hne. intros Hnil. rewrite Hnil in Hlen. simpl in Hlen. lia. }
  assert (n = S m) as ->.
  { destruct (Nat.lt_trichotomy n (S m)) as [Hlt|[Heq|Hgt]]; [|done|].
    - destruct Hstop as [_ Hdec]; [lia|].
      rewrite Hpre' in Hdec; [done|lia|simpl; lia].
    - rewrite Hpre in Hstop'; [|lia|simpl; lia].
      assert (true = false) by (apply Hstop'; lia). done. }
  cbn [Nat.add] in Hnew, Hold. rewrite Hnew, Hold.
  eexists _, _, _. split; [done|]. split; [done|].
  rewrite !waited_advance. unfold advance. cbn [callCount timers freshWorld].
  change (waited freshWorld) with 0%Z.
  rewrite !app_nil_r. replace (0 + S m - 1) with m by lia.
  destruct (isRefusal (connect m)); repeat split; try done; lia.
Qed.

(** Against a browser that never listens, with the default interval and
    two retries: three waits in the async/await revision, two in the
    earlier one. *)
Lemma retrier_waits_after_each_refusal_witness :
  exists outcome w w',
    RunCmd.defaultFirefoxClient alwaysRefused
      (mkParams None (Some 2%Z) None) freshWorld = (outcome, w)
    /\ RunCmdLegacy.defaultFirefoxClient alwaysRefused
         (mkParams None (Some 2%Z) None) freshWorld = Some (outcome, w')
    /\ waited w = 360%Z /\ waited w' = 240%Z.
Proof.
  destruct (retrier_waits_after_each_refusal alwaysRefused alwaysRefused 2 120)
    as (outcome & w & w' & Hnew & Hold & _); [discriminate|lia|].
  exists outcome, w, w'.
  split; [exact Hnew|]. split; [exact Hold|].
  vm_compute in Hnew. vm_compute in Hold.
  injection Hnew as _ <-. injection Hold as _ <-. split; reflexivity.
Defined.

(** X3. A negative budget is not refused: the async/await revision then
    makes no attempt at all and fails with [undefined]; the earlier
    revision makes exactly one attempt and settles with its outcome,
    a refusal included. *)
Theorem retrier_negative_budget {Client}
    (dflt connect : FirefoxConnectorFn Client) (N interval : Z)
    (w : RetryWorld) :
  rejectsWithErrors connect ->
  (N < 0)%Z ->
  let params := mkParams (Some connect) (Some N) (Some interval) in
  RunCmd.defaultFirefoxClient dflt params w = (Rejected JsUndefined, w)
  /\ RunCmdLegacy.defaultFirefoxClient dflt params w
     = Some (connect (callCount w),
             mkRetryWorld (S (callCount w)) (timers w)).
Proof.
  intros _ Hneg params. subst params.
  unfold RunCmd.defaultFirefoxClient, RunCmdLegacy.defaultFirefoxClient,
    RunCmd.establishConnection, RunCmdLegacy.enoughFuel.
  cbn [default from_option id connectToFirefox maxRetries retryInterval].
  split.
  - assert (seqZ 0 (N + 1) = []) as ->; [|done].
    apply length_zero_iff_nil. rewrite length_seqZ. lia.
  - replace (Z.to_nat N) with 0 by lia.
    cbn [RunCmdLegacy.establishConnection]. unfold invoke.
    destruct (connect (callCount w)) as [client|error]; [done|].
    destruct (isErrorWithCode "ECONNREFUSED" error); [|done].
    destruct (Z.geb_spec 0 N); [done|lia].
Qed.

Lemma retrier_negative_budget_witness :
  RunCmd.defaultFirefoxClient alwaysRefused
    (mkParams (Some alwaysRefused) (Some (-5)%Z) (Some 120%Z)) freshWorld
  = (Rejected JsUndefined, freshWorld)
  /\ RunCmdLegacy.defaultFirefoxClient alwaysRefused
       (mkParams (Some alwaysRefused) (Some (-5)%Z) (Some 120%Z)) freshWorld
     = Some (Rejected tcpConnectError, mkRetryWorld 1 []).
Proof.
  apply (retrier_negative_budget alwaysRefused alwaysRefused (-5) 120
           freshWorld).
  - discriminate.
  - lia.
Defined.

(** ** Launching Firefox *)

Section FirefoxRun.

Import FirefoxApp.

Context {Client FirefoxProcess : Type}.
Variable REMOTE_PORT : Z.
Variable defaultFirefoxConnector : Z -> Settled Client.
Variable defaultFxRunner : FxRunnerOptions -> Settled FirefoxProcess.

(** X4. [run] of [src/firefox/index.js] starts the browser only once a
    remote port is found, and then once: when [findRemotePort] fails,
    [run] fails with the same reason and [fxRunner] is not called; when it
    resolves with a port, [fxRunner] is called once, for a new instance in
    the foreground that listens on that port and uses the profile's path
    and the given binary and arguments, and [run] settles as [fxRunner]
    does. With the default port finder the browser is started exactly
    when the probe of [REMOTE_PORT] is refused. *)
Theorem firefox_run_starts_browser_on_found_port
    (profile : FirefoxProfile) (options : RunOptions (Client := Client))
    (w : LaunchWorld Client) :
  let find :=
    default (defaultRemotePortFinder REMOTE_PORT defaultFirefoxConnector
               (mkPortFinderParams None None))
            (findRemotePort options) in
  let start := default defaultFxRunner (fxRunner options) in
  let result :=
    run REMOTE_PORT defaultFirefoxConnector defaultFxRunner profile options w in
  (forall reason w1,
     find w = (Rejected reason, w1) -> result = (Rejected reason, w1))
  /\ (forall port w1,
        find w = (Fulfilled port, w1) ->
        exists o,
          result = (start o, mkLaunchWorld (disconnected w1) (o :: launched w1))
          /\ listen o = port
          /\ no_remote o = true /\ foreground o = true /\ verbose o = true
          /\ fx_profile o = profilePath profile
          /\ binary o = firefoxBinary options
          /\ binary_args o = binaryArgs options)
  /\ (findRemotePort options = None ->
      length (launched (snd result))
      = length (launched w)
        + (if isRefusal (defaultFirefoxConnector REMOTE_PORT) then 1 else 0)).
Proof.
  intros find start result. subst result. unfold run. fold find start.
  async_unfold. unfold callFxRunner. async_unfold.
  split; [|split].
  - intros reason w1 Hfind. by rewrite Hfind.
  - intros port w1 Hfind. rewrite Hfind. simpl.
    exists (mkFxRunnerOptions (firefoxBinary options) (binaryArgs options)
              true port true (profilePath profile) true).
    split; [|done].
    by destruct (start _).
  - intros Hnone. subst find. rewrite Hnone.
    cbn [default from_option id].
    rewrite (remote_port_finder_outcome REMOTE_PORT defaultFirefoxConnector
               (mkPortFinderParams None None) w).
    cbn [default from_option id portToTry connectToFirefox].
    destruct (defaultFirefoxConnector REMOTE_PORT) as [client|error]; simpl;
      [lia|].
    destruct (isErrorWithCode "ECONNREFUSED" error); simpl.
    + destruct (start _); simpl; lia.
    + lia.
Qed.

End FirefoxRun.

(** Port 6005 is free and the browser starts; with the browser of
    [portTaken] on it, nothing is started. *)
Lemma firefox_run_starts_browser_on_found_port_witness :
  length (FirefoxApp.launched
            (snd (FirefoxApp.run 6005%Z (fun _ => Rejected tcpConnectError)
                    (fun _ => Fulfilled "firefox") fakeProfile
                    (FirefoxApp.mkRunOptions None None None None)
                    (FirefoxApp.mkLaunchWorld (Client := string) [] []))))
  = 1
  /\ length (FirefoxApp.launched
               (snd (FirefoxApp.run 6005%Z portTaken
                       (fun _ => Fulfilled "firefox") fakeProfile
                       (FirefoxApp.mkRunOptions None None None None)
                       (FirefoxApp.mkLaunchWorld [] []))))
     = 0.
Proof.
  split.
  - destruct (firefox_run_starts_browser_on_found_port 6005%Z
                (fun _ => Rejected tcpConnectError)
                (fun _ => Fulfilled "firefox") fakeProfile
                (FirefoxApp.mkRunOptions None None None None)
                (FirefoxApp.mkLaunchWorld (Client := string) [] []))
      as (_ & _ & H).
    apply H. reflexivity.
  - destruct (firefox_run_starts_browser_on_found_port 6005%Z portTaken
                (fun _ => Fulfilled "firefox") fakeProfile
                (FirefoxApp.mkRunOptions None None None None)
                (FirefoxApp.mkLaunchWorld [] []))
      as (_ & _ & H).
    apply H. reflexivity.
Defined.

(** ** Installing into the profile *)

Section Install.

Import FirefoxApp.

Variable pathJoin : string -> string -> string.
Variable dirname : string -> string.

(** X5. A profile whose [extensionsDir] is unset or empty makes
    [installExtension] fail with the [WebExtError]
    'profile.extensionsDir was unexpectedly empty', whatever else it is
    asked for, and nothing is made or written. *)
Theorem install_fails_without_extensions_dir
    (p : InstallParams) (fs : FileSystem) :
  truthyString (extensionsDir (profile p)) = false ->
  installExtension pathJoin dirname p fs
  = (Rejected (JsErrorValue
       (newWebExtError "profile.extensionsDir was unexpectedly empty")), fs).
Proof.
  intros Hempty. unfold installExtension. rewrite Hempty.
  async_unfold. reflexivity.
Qed.

(** X6. A packaged install ([installExtension] without [asShadowInstall])
    copies the file at [extensionPath] to [<extensionsDir>/<id>.xpi].
    When the extensions directory is a directory, or is missing where one
    can be made, the destination lies in it, the source is a file and the
    destination is another path and no directory, the install resolves;
    the destination then holds the content of the source, the source is
    left as it was, no stream is left at work, and no other path changes
    but the extensions directory, made if it was missing. *)
Theorem packaged_install_copies_archive
    (p : InstallParams) (fs : FileSystem)
    (extDir extId xpi content : string) :
  extensionsDir (profile p) = Some extDir ->
  extDir <> EmptyString ->
  geckoId (manifestData p) = Fulfilled (Some extId) ->
  truthyBool (asShadowInstall p) = false ->
  extensionPath p = Some xpi ->
  files fs !! xpi = Some (File content) ->
  let destPath := pathJoin extDir (extId ++ ".xpi") in
  dirname destPath = extDir ->
  files fs !! extDir = Some Directory
  \/ (files fs !! extDir = None
      /\ files fs !! dirname extDir = Some Directory) ->
  destPath <> xpi ->
  destPath <> extDir ->
  files fs !! destPath <> Some Directory ->
  exists fs',
    installExtension pathJoin dirname p fs = (Fulfilled tt, fs')
    /\ files fs' !! destPath = Some (File content)
    /\ files fs' !! xpi = Some (File content)
    /\ files fs' !! extDir = Some Directory
    /\ detached fs' = detached fs
    /\ forall path,
         path <> destPath -> path <> extDir ->
         files fs' !! path = files fs !! path.
Proof.
  intros Hdir Hne Hid Hshadow Hpath Hsrc destPath Hin Hext Hneq Hneq' Hnodir.
  rewrite (install_outcome pathJoin dirname p fs extDir Hdir Hne).
  rewrite (extensions_dir_made dirname extDir fs), Hid, Hshadow, Hpath;
    [|destruct Hext as [Hext|[_ Hext]]; [left; by rewrite Hext|by right]].
  cbn [template default from_option id]. fold destPath.
  set (fs1 := withDirectory extDir (files fs)).
  assert (Hext1 : fs1 !! extDir = Some Directory).
  { subst fs1. unfold withDirectory.
    destruct Hext as [Hext|[Hext _]]; rewrite Hext; [done|].
    apply lookup_insert_eq. }
  assert (Hother : forall path, path <> extDir -> fs1 !! path = files fs !! path).
  { intros path Hp. subst fs1. unfold withDirectory.
    destruct (files fs !! extDir); [done|]. by rewrite lookup_insert_ne. }
  assert (Hsrc1 : fs1 !! xpi = Some (File content)).
  { rewrite Hother; [done|]. intros ->.
    destruct Hext as [Hext|[Hext _]]; congruence. }
  assert (Hdest1 : fs1 !! destPath = files fs !! destPath) by by apply Hother.
  unfold pipe, readStream, write, streamToPromise, createWriteStream,
    openAndWrite, parentError.
  async_unfold. cbn [files detached wsPath wsData wsEnded].
  rewrite Hsrc1. cbn [wsPath wsData wsEnded files detached].
  rewrite Hdest1, Hin, Hext1.
  exists (mkFileSystem (<[destPath := File content]> fs1) (detached fs)).
  split; [by destruct (files fs !! destPath) as [[|old]|]|].
  cbn [files detached].
  split; [apply lookup_insert_eq|].
  split; [by rewrite lookup_insert_ne|].
  split; [by rewrite lookup_insert_ne|].
  split; [done|].
  intros path Hp Hp'. rewrite lookup_insert_ne by done. by apply Hother.
Qed.

(** X7. Without [applications], or without [applications.gecko], in the
    manifest, [installExtension] fails with a [TypeError] once it has got
    past the extensions directory: when something is there at that path,
    or the directory it lies in is one so that it can be made, the
    install is rejected with a [TypeError], the extensions directory is
    there afterwards, no file is written and no stream is left at
    work. *)
Theorem install_needs_gecko_entry
    (p : InstallParams) (fs : FileSystem) (extDir : string) :
  extensionsDir (profile p) = Some extDir ->
  extDir <> EmptyString ->
  canHold dirname (files fs) extDir ->
  (applications (manifestData p) = None
   \/ exists apps,
        applications (manifestData p) = Some apps /\ gecko apps = None) ->
  exists error fs',
    installExtension pathJoin dirname p fs = (Rejected (JsErrorValue error), fs')
    /\ errClass error = TypeErrorCls
    /\ is_Some (files fs' !! extDir)
    /\ detached fs' = detached fs
    /\ forall path content,
         files fs' !! path = Some (File content) ->
         files fs !! path = Some (File content).
Proof.
  intros Hdir Hne Hcan Hgecko.
  rewrite (install_outcome pathJoin dirname p fs extDir Hdir Hne).
  rewrite (extensions_dir_made dirname extDir fs Hcan).
  assert (exists error,
            geckoId (manifestData p) = Rejected (JsErrorValue error)
            /\ errClass error = TypeErrorCls) as (error & -> & Hcls).
  { unfold geckoId, typeError.
    destruct Hgecko as [->|(apps & -> & ->)]; eauto. }
  eexists error, _. split; [done|]. split; [done|].
  cbn [files detached]. unfold withDirectory.
  destruct (files fs !! extDir) as [node|] eqn:Hext.
  - rewrite Hext. split; [by eexists|done].
  - rewrite lookup_insert_eq. split; [by eexists|]. split; [done|].
    intros path content Hfile.
    destruct (decide (path = extDir)) as [->|Hp].
    + by rewrite lookup_insert_eq in Hfile.
    + by rewrite lookup_insert_ne in Hfile.
Qed.

(** X8. A shadow install can be repeated: once the stream of the pointer
    file has done its work, whether it could write the file or not, the
    same install on the files it left resolves again, and its stream
    leaves those files as they are. *)
Theorem shadow_install_idempotent
    (p : InstallParams) (fs : Files) (extDir extId dir : string) :
  extensionsDir (profile p) = Some extDir ->
  extDir <> EmptyString ->
  geckoId (manifestData p) = Fulfilled (Some extId) ->
  asShadowInstall p = Some true ->
  sourceDir p = Some dir ->
  canHold dirname fs extDir ->
  exists first again,
    installExtension pathJoin dirname p (mkFileSystem fs [])
    = (Fulfilled tt, first)
    /\ installExtension pathJoin dirname p
         (mkFileSystem (later dirname first) [])
       = (Fulfilled tt, again)
    /\ files again = later dirname first
    /\ later dirname again = later dirname first.
Proof.
  intros Hdir Hne Hid Hshadow Hsrc Hcan.
  set (ws := mkWriteStream (pathJoin extDir extId) dir true).
  pose proof (shadow_install_outcome pathJoin dirname p (mkFileSystem fs [])
                extDir extId dir Hdir Hne Hid Hshadow Hsrc Hcan) as Hfirst.
  cbn [files detached app] in Hfirst. fold ws in Hfirst.
  set (fs1 := withDirectory extDir fs) in *.
  assert (Hlater : later dirname (mkFileSystem fs1 [ws])
                   = snd (openAndWrite dirname ws fs1)).
  { unfold later. cbn [files detached drain].
    by destruct (openAndWrite dirname ws fs1) as [error fs2]. }
  assert (Hext1 : is_Some (fs1 !! extDir)).
  { subst fs1. unfold withDirectory.
    destruct (fs !! extDir) eqn:Hext; [by rewrite Hext|].
    by rewrite lookup_insert_eq. }
  assert (Hext2 : is_Some (snd (openAndWrite dirname ws fs1) !! extDir)).
  { unfold openAndWrite, parentError.
    destruct (fs1 !! wsPath ws) as [[|old]|] eqn:Hdest; cbn [snd]; [done| |].
    - apply lookup_insert_is_Some'. by right.
    - destruct (fs1 !! dirname (wsPath ws)) as [[|content]|]; cbn [snd];
        [|done..].
      apply lookup_insert_is_Some'. by right. }
  pose proof (shadow_install_outcome pathJoin dirname p
                (mkFileSystem (later dirname (mkFileSystem fs1 [ws])) [])
                extDir extId dir Hdir Hne Hid Hshadow Hsrc) as Hagain.
  cbn [files detached app] in Hagain. fold ws in Hagain.
  rewrite Hlater in *.
  assert (withDirectory extDir (snd (openAndWrite dirname ws fs1))
          = snd (openAndWrite dirname ws fs1)) as Hkept.
  { unfold withDirectory. by destruct Hext2 as [node ->]. }
  rewrite Hkept in Hagain.
  eexists _, _. split; [exact Hfirst|].
  rewrite Hlater. split; [apply Hagain; by left|].
  split; [done|].
  unfold later. cbn [files detached drain].
  rewrite openAndWrite_twice.
  by destruct (openAndWrite dirname ws fs1) as [error fs2].
Qed.

End Install.

(** A profile with no [extensionsDir]. *)
Lemma install_fails_without_extensions_dir_witness :
  FirefoxApp.installExtension posixJoin posixDirname
    (RunCmdLegacy.shadowInstallParams legacyRunner
       (FirefoxApp.mkProfile "/tmp/profile" None)) freshProfile
  = (Rejected (JsErrorValue
       (newWebExtError "profile.extensionsDir was unexpectedly empty")),
     freshProfile).
Proof.
  apply (install_fails_without_extensions_dir posixJoin posixDirname).
  reflexivity.
Defined.

(** A packaged extension copied into a profile that has no extensions
    directory yet. *)
Lemma packaged_install_copies_archive_witness :
  exists fs',
    FirefoxApp.installExtension posixJoin posixDirname
      (FirefoxApp.mkInstallParams minimalManifest fakeProfile
         (Some "/tmp/minimal.zip") None None None)
      (FirefoxApp.mkFileSystem
         (<[ "/tmp/minimal.zip" := FirefoxApp.File "PK" ]>
            (FirefoxApp.files freshProfile)) [])
    = (Fulfilled tt, fs')
    /\ FirefoxApp.files fs'
       !! "/tmp/profile/extensions/minimal-example@web-ext-test-suite.xpi"
       = Some (FirefoxApp.File "PK").
Proof.
  destruct (packaged_install_copies_archive posixJoin posixDirname
              (FirefoxApp.mkInstallParams minimalManifest fakeProfile
                 (Some "/tmp/minimal.zip") None None None)
              (FirefoxApp.mkFileSystem
                 (<[ "/tmp/minimal.zip" := FirefoxApp.File "PK" ]>
                    (FirefoxApp.files freshProfile)) [])
              "/tmp/profile/extensions" "minimal-example@web-ext-test-suite"
              "/tmp/minimal.zip" "PK")
    as (fs' & Hrun & Hdest & _);
    [reflexivity|discriminate|reflexivity|reflexivity|reflexivity
    |reflexivity|reflexivity|right; split; reflexivity
    |discriminate|discriminate|vm_compute; discriminate|].
  exists fs'. split; [exact Hrun|exact Hdest].
Defined.

(** A manifest without [applications]. *)
Lemma install_needs_gecko_entry_witness :
  exists error fs',
    FirefoxApp.installExtension posixJoin posixDirname
      (FirefoxApp.mkInstallParams (FirefoxApp.mkManifest None) fakeProfile
         None (Some "/src/minimal-web-ext") (Some true) None)
      freshProfile
    = (Rejected (JsErrorValue error), fs')
    /\ errClass error = TypeErrorCls.
Proof.
  destruct (install_needs_gecko_entry posixJoin posixDirname
              (FirefoxApp.mkInstallParams (FirefoxApp.mkManifest None)
                 fakeProfile None (Some "/src/minimal-web-ext") (Some true)
                 None)
              freshProfile "/tmp/profile/extensions")
    as (error & fs' & Hrun & Hcls & _);
    [reflexivity|discriminate|right; reflexivity|left; reflexivity|].
  exists error, fs'. split; [exact Hrun|exact Hcls].
Defined.

(** The install of [installAsTextFileInProfile], asked for twice. *)
Lemma shadow_install_idempotent_witness :
  exists first again,
    FirefoxApp.installExtension posixJoin posixDirname
      (RunCmdLegacy.shadowInstallParams legacyRunner fakeProfile)
      (FirefoxApp.mkFileSystem (FirefoxApp.files freshProfile) [])
    = (Fulfilled tt, first)
    /\ FirefoxApp.installExtension posixJoin posixDirname
         (RunCmdLegacy.shadowInstallParams legacyRunner fakeProfile)
         (FirefoxApp.mkFileSystem (FirefoxApp.later posixDirname first) [])
       = (Fulfilled tt, again)
    /\ FirefoxApp.files again = FirefoxApp.later posixDirname first
    /\ FirefoxApp.later posixDirname again
       = FirefoxApp.later posixDirname first.
Proof.
  apply (shadow_install_idempotent posixJoin posixDirname
           (RunCmdLegacy.shadowInstallParams legacyRunner fakeProfile)
           (FirefoxApp.files freshProfile) "/tmp/profile/extensions"
           "minimal-example@web-ext-test-suite" "/src/minimal-web-ext");
    [reflexivity|discriminate|reflexivity|reflexivity|reflexivity
    |right; reflexivity].
Defined.

(** ** [MultiExtensionRunner]: starting *)

(** X9. [MultiExtensionRunner.run()] starts every member and waits for
    all of them. When no member's [run()] is rejected, it resolves
    exactly when every member's [run()] has resolved and is never
    rejected. When a member's [run()] is rejected before any other
    member's is, it is rejected with that member's reason, whichever
    members are still starting. *)
Theorem multi_run_waits_for_all_or_fails_with_first
    (extensionRunners : list IExtensionRunner) (order : list nat) :
  ((forall runner,
      runner ∈ extensionRunners ->
      isFulfilled (ExtensionRunners.run runner) = true) ->
   (MultiExtensionRunner.run extensionRunners order = Some (Fulfilled tt)
    <-> forall i, i < length extensionRunners -> i ∈ order)
   /\ forall reason,
        MultiExtensionRunner.run extensionRunners order
        <> Some (Rejected reason))
  /\
  (forall pre i post runner reason,
     order = pre ++ i :: post ->
     (forall j other,
        j ∈ pre -> extensionRunners !! j = Some other ->
        isFulfilled (ExtensionRunners.run other) = true) ->
     extensionRunners !! i = Some runner ->
     ExtensionRunners.run runner = Rejected reason ->
     MultiExtensionRunner.run extensionRunners order = Some (Rejected reason)).
Proof.
  unfold MultiExtensionRunner.run. split.
  - intros Hall.
    rewrite <- (length_fmap ExtensionRunners.run extensionRunners).
    apply awaitAll_fulfilled. apply Forall_fmap, Forall_forall.
    intros runner Hin. by apply Hall.
  - intros pre i post runner reason -> Hpre Hi Hrun.
    apply awaitAll_rejected.
    + apply Forall_forall. intros j Hj r. rewrite list_lookup_fmap.
      destruct (extensionRunners !! j) as [other|] eqn:Hother; [|done].
      simpl. intros [= Hrej]. specialize (Hpre j other Hj Hother).
      by rewrite Hrej in Hpre.
    + by rewrite list_lookup_fmap, Hi; simpl; rewrite Hrun.
Qed.

(** A browser that fails to start. *)
Lemma multi_run_waits_for_all_or_fails_with_first_witness :
  let broken :=
    mkRunner "Firefox Android" (Rejected exitFailure) (Fulfilled tt)
      (fun _ => Fulfilled tt) None (Fulfilled tt) in
  MultiExtensionRunner.run
    [healthyRunner "Firefox Desktop"; broken; healthyRunner "Chromium"]
    [2; 1; 0]
  = Some (Rejected exitFailure).
Proof.
  intros broken.
  destruct (multi_run_waits_for_all_or_fails_with_first
              [healthyRunner "Firefox Desktop"; broken;
               healthyRunner "Chromium"]
              [2; 1; 0]) as [_ H].
  apply (H [2] 1 [0] broken exitFailure); try reflexivity.
  intros j other Hj Hother. apply list_elem_of_singleton in Hj as ->.
  by injection Hother as <-.
Defined.

(** ** [MultiExtensionRunner]: the notifications of a reload *)

Lemma error_instanceOf_Error (e : JsError) :
  instanceOf (JsErrorValue e) ErrorCls = true.
Proof. unfold instanceOf. by destruct (errClass e). Qed.

Lemma reloadNotification_resultOf reload dir runner :
  is_Some (reloadNotification (resultOf reload dir runner))
  <-> failedWithError (reload runner) = true.
Proof.
  unfold reloadNotification, resultOf, failedWithError. simpl.
  destruct (reload runner) as [[]|[|e]]; simpl.
  - split; [by intros [? ?]|done].
  - split; [by intros [? ?]|done].
  - pose proof (error_instanceOf_Error e) as Herr. unfold instanceOf in Herr.
    rewrite Herr. split; [done|by eexists].
Qed.

Lemma notifications_count reload dir (runners : list IExtensionRunner) :
  length (omap (fun runner => reloadNotification (resultOf reload dir runner))
            runners)
  = length (List.filter (fun runner => failedWithError (reload runner)) runners).
Proof.
  induction runners as [|runner runners IH]; [done|]. simpl.
  pose proof (reloadNotification_resultOf reload dir runner) as Hiff.
  destruct (reloadNotification (resultOf reload dir runner)) as [note|].
  - assert (failedWithError (reload runner) = true) as ->
        by (apply Hiff; by eexists).
    simpl. f_equal. exact IH.
  - destruct (failedWithError (reload runner)); [|exact IH].
    destruct Hiff as [_ Hiff]. by destruct Hiff.
Qed.

Lemma collect_notifications (results : list ExtensionRunnerReloadResult) order :
  ((forall i, i < length results -> i ∈ order) ->
   snd (MultiExtensionRunner.collect (Fulfilled <$> results) order)
   = handleReloadResults results)
  /\ ((exists i, i < length results /\ i ∉ order) ->
      snd (MultiExtensionRunner.collect (Fulfilled <$> results) order) = [])
  /\ (snd (MultiExtensionRunner.collect (Fulfilled <$> results) order) = []
      \/ snd (MultiExtensionRunner.collect (Fulfilled <$> results) order)
         = handleReloadResults results).
Proof.
  destruct (collect_fulfilled results order) as (_ & Hdone & Honly).
  split; [|split].
  - intros Hall. by rewrite Hdone.
  - intros (i & Hi & Hnot).
    unfold MultiExtensionRunner.collect in *.
    destruct (PromiseAll.all _ _) as [[got|r]|]; try done.
    destruct (Honly got eq_refl) as [_ Hin]. destruct Hnot. by apply Hin.
  - unfold MultiExtensionRunner.collect in *.
    destruct (PromiseAll.all _ _) as [[got|r]|]; try by left.
    destruct (Honly got eq_refl) as [-> _]. by right.
Qed.

(** X11. A reload of the multi-runner shows its desktop notifications
    when every member's reload has settled and none before. It then
    shows one for each member whose reload was rejected with an [Error],
    in the order of the runners, and none for the others; every one has
    the title 'web-ext run: extension reload error'. *)
Theorem reload_notifies_each_failed_runner
    (extensionRunners : list IExtensionRunner) (dir : string)
    (order : list nat) :
  let shownAll :=
    snd (MultiExtensionRunner.reloadAllExtensions extensionRunners order) in
  let shownOne :=
    snd (MultiExtensionRunner.reloadExtensionBySourceDir extensionRunners dir
           order) in
  ((exists i, i < length extensionRunners /\ i ∉ order) ->
   shownAll = [] /\ shownOne = [])
  /\ ((forall i, i < length extensionRunners -> i ∈ order) ->
      shownAll
      = omap (fun runner =>
                reloadNotification
                  (resultOf ExtensionRunners.reloadAllExtensions None runner))
          extensionRunners
      /\ shownOne
         = omap (fun runner =>
                   reloadNotification
                     (resultOf
                        (fun r => ExtensionRunners.reloadExtensionBySourceDir r dir)
                        (Some dir) runner))
             extensionRunners
      /\ length shownAll
         = length (List.filter
                     (fun runner =>
                        failedWithError
                          (ExtensionRunners.reloadAllExtensions runner))
                     extensionRunners)
      /\ length shownOne
         = length (List.filter
                     (fun runner =>
                        failedWithError
                          (ExtensionRunners.reloadExtensionBySourceDir runner dir))
                     extensionRunners))
  /\ Forall (fun note => title note = "web-ext run: extension reload error")
       (shownAll ++ shownOne).
Proof.
  intros shownAll shownOne. subst shownAll shownOne.
  unfold MultiExtensionRunner.reloadAllExtensions,
    MultiExtensionRunner.reloadExtensionBySourceDir.
  assert (MultiExtensionRunner.reloadPromise <$> extensionRunners
          = Fulfilled <$> (resultOf ExtensionRunners.reloadAllExtensions None
                             <$> extensionRunners))
    as ->.
  { rewrite <- list_fmap_compose. apply list_fmap_ext.
    intros i runner _. apply reloadPromise_fulfilled. }
  assert (MultiExtensionRunner.reloadPromiseBySourceDir dir <$> extensionRunners
          = Fulfilled <$> (resultOf
                             (fun r => ExtensionRunners.reloadExtensionBySourceDir
                                         r dir)
                             (Some dir) <$> extensionRunners))
    as ->.
  { rewrite <- list_fmap_compose. apply list_fmap_ext.
    intros i runner _. apply reloadPromiseBySourceDir_fulfilled. }
  set (resultsAll := resultOf ExtensionRunners.reloadAllExtensions None
                      <$> extensionRunners).
  set (resultsOne := resultOf
                       (fun r => ExtensionRunners.reloadExtensionBySourceDir r dir)
                       (Some dir) <$> extensionRunners).
  destruct (collect_notifications resultsAll order) as (HallA & HnoneA & HorA).
  destruct (collect_notifications resultsOne order) as (HallO & HnoneO & HorO).
  subst resultsAll resultsOne. rewrite length_fmap in *.
  assert (Homap : forall reload d,
            handleReloadResults (resultOf reload d <$> extensionRunners)
            = omap (fun runner => reloadNotification (resultOf reload d runner))
                extensionRunners).
  { intros reload d. unfold handleReloadResults. clear.
    induction extensionRunners as [|runner runners IH]; [done|].
    simpl. destruct (reloadNotification (resultOf reload d runner));
      [f_equal|]; exact IH. }
  split; [|split].
  - intros Hpending. by rewrite HnoneA, HnoneO.
  - intros Hall. rewrite HallA, HallO, !Homap by done.
    split; [done|]. split; [done|].
    split; apply notifications_count.
  - assert (Htitle : forall results,
              Forall (fun note =>
                        title note = "web-ext run: extension reload error")
                (handleReloadResults results)).
    { intros results. unfold handleReloadResults. clear.
      induction results as [|r results IH]; [constructor|]. simpl.
      unfold reloadNotification at 1.
      destruct (reloadError r) as [error|]; [|done].
      destruct (instanceOf error ErrorCls); [|done].
      by constructor. }
    apply Forall_app. split.
    + destruct HorA as [->| ->]; [constructor|apply Htitle].
    + destruct HorO as [->| ->]; [constructor|apply Htitle].
Qed.

(** Three runners, the second of which fails to reload: one
    notification. *)
Lemma reload_notifies_each_failed_runner_witness :
  length (snd (MultiExtensionRunner.reloadAllExtensions threeRunners
                 [2; 0; 1]))
  = 1.
Proof.
  destruct (reload_notifies_each_failed_runner threeRunners "/src" [2; 0; 1])
    as (_ & H & _).
  destruct H as (_ & _ & H & _).
  - intros i Hi. simpl in Hi.
    destruct i as [|[|[|i]]]; [in_list..|lia].
  - rewrite H. reflexivity.
Defined.

(** ** The run command: the order of its calls *)

Section RunCommandCalls.

Context {FirefoxProcess : Type}.
Variable getValidatedManifest : string -> Settled FirefoxApp.ExtensionManifest.
Variable getManifestId : FirefoxApp.ExtensionManifest -> option string.

Ltac unfold_run :=
  unfold RunCmd.run, RunCmd.getProfile, RunCmd.installAsProxy,
    RunCmd.runnerRun, RunCmd.installAsTemporaryAddon, profileCall in *;
  async_unfold;
  cbn [RunCmd.runner_sourceDir RunCmd.runner_manifestData
       RunCmd.runner_profilePath RunCmd.runner_keepProfileChanges
       RunCmd.runner_firefoxApp RunCmd.runner_firefox
       RunCmd.runner_browserConsole RunCmd.runner_startUrl] in *.

(** X12. With [preInstall], the run command needs no remote connection:
    what it does and settles with does not depend on [firefoxClient],
    which it never calls, and it installs no temporary add-on and starts
    no reloading, [noReload] or not. When it resolves it has made three
    calls: for the profile, then [installExtension] as a proxy of the
    source directory, then [firefoxApp.run]. *)
Theorem pre_install_run_needs_no_client
    (params : RunCmd.CmdRunParams)
    (options options' : RunCmd.CmdRunOptions (FirefoxProcess := FirefoxProcess)) :
  RunCmd.preInstall params = true ->
  RunCmd.firefoxApp options' = RunCmd.firefoxApp options ->
  RunCmd.run getValidatedManifest getManifestId params options' []
  = RunCmd.run getValidatedManifest getManifestId params options []
  /\ forall outcome trace,
       RunCmd.run getValidatedManifest getManifestId params options []
       = (outcome, trace) ->
       Forall (fun e => needsClient e = false) trace
       /\ (isFulfilled outcome = true ->
           exists request binaryArgs,
             trace = [profileCall (RunCmd.firefoxProfile params)
                        (RunCmd.keepProfileChanges params);
                      InstallExtension request;
                      FirefoxRun (RunCmd.firefox params) binaryArgs]
             /\ FirefoxApp.asProxy request = Some true
             /\ FirefoxApp.extensionPath request
                = Some (RunCmd.sourceDir params)).
Proof.
  intros Hpre Happ. split.
  - unfold_run. rewrite Hpre, Happ. simpl.
    destruct (getValidatedManifest _) as [manifest|r]; [|done].
    destruct (RunCmd.firefoxProfile params) as [[|c path]|],
      (RunCmd.keepProfileChanges params); simpl;
      repeat (match goal with
              | |- context [match ?x with _ => _ end] =>
                  destruct_innermost x; simpl
              end); done.
  - intros outcome trace Hrun. unfold_run. rewrite Hpre in Hrun.
    simpl in Hrun.
    destruct (RunCmd.firefoxProfile params) as [[|c path]|],
      (RunCmd.keepProfileChanges params); simpl in Hrun;
      run_cases Hrun;
      (split; [repeat constructor|]); try done;
      intros _; eexists _, _; done.
Qed.

(** X13. Without [preInstall], a run that resolves has called, in this
    order and nothing else: for the profile, [firefoxApp.run],
    [firefoxClient], [installTemporaryAddon] with the source directory
    and, unless [noReload], what starts the reloading: the keypress loop
    when standard input is a terminal and then the reload strategy,
    handed the non-empty add-on id the installation answered with. *)
Theorem resolved_run_calls_in_order
    (params : RunCmd.CmdRunParams)
    (options : RunCmd.CmdRunOptions (FirefoxProcess := FirefoxProcess))
    (trace : list RunEvent) :
  RunCmd.preInstall params = false ->
  RunCmd.run getValidatedManifest getManifestId params options []
  = (Fulfilled tt, trace) ->
  exists binaryArgs client installResult,
    RunCmd.firefoxClient options = Fulfilled client
    /\ installTemporaryAddon client (RunCmd.sourceDir params)
       = Fulfilled installResult
    /\ trace
       = [profileCall (RunCmd.firefoxProfile params)
            (RunCmd.keepProfileChanges params);
          FirefoxRun (RunCmd.firefox params) binaryArgs;
          FirefoxClient;
          InstallTemporaryAddon (RunCmd.sourceDir params)]
         ++ (if RunCmd.noReload params then []
             else (if RunCmd.stdinIsTTY params then [KeypressLoop] else [])
                  ++ [ReloadStrategy (RunCmd.sourceDir params)
                        (Some (addon_id installResult))])
    /\ (RunCmd.noReload params = false ->
        addon_id installResult <> EmptyString).
Proof.
  intros Hpre Hrun. unfold_run. rewrite Hpre in Hrun. simpl in Hrun.
  destruct (RunCmd.firefoxProfile params) as [[|c path]|],
    (RunCmd.keepProfileChanges params); simpl in Hrun;
    run_cases Hrun;
    eexists _, _, _; (split; [reflexivity|]); (split; [eassumption|]);
    (split;
     [simpl;
      first [reflexivity
            |match goal with
             | H : addon_id _ = _ |- _ => rewrite H
             end; reflexivity]
     |intros; congruence]).
Qed.

(** X14. When reloading is wanted and the installation answers with an
    empty add-on id, the run fails with the [WebExtError] 'Unexpected
    missing addonId in the installAsTemporaryAddon result'; the browser
    has been started by then and the add-on installed, and no reloading
    is set up. With [noReload] the same answer is accepted. *)
Theorem run_fails_on_missing_addon_id
    (params : RunCmd.CmdRunParams)
    (options : RunCmd.CmdRunOptions (FirefoxProcess := FirefoxProcess))
    client installResult outcome trace :
  RunCmd.preInstall params = false ->
  RunCmd.run getValidatedManifest getManifestId params options []
  = (outcome, trace) ->
  InstallTemporaryAddon (RunCmd.sourceDir params) ∈ trace ->
  RunCmd.firefoxClient options = Fulfilled client ->
  installTemporaryAddon client (RunCmd.sourceDir params)
  = Fulfilled installResult ->
  addon_id installResult = EmptyString ->
  outcome
  = (if RunCmd.noReload params then Fulfilled tt
     else Rejected (JsErrorValue (newWebExtError
            "Unexpected missing addonId in the installAsTemporaryAddon result")))
  /\ (exists binaryArgs,
        FirefoxRun (RunCmd.firefox params) binaryArgs ∈ trace)
  /\ (KeypressLoop ∉ trace)
  /\ (forall dir addonId, ReloadStrategy dir addonId ∉ trace).
Proof.
  intros Hpre Hrun Hin Hclient Hinstall Hid. unfold_run.
  destruct installResult as [addonId]. simpl in Hid. subst addonId.
  rewrite Hpre, Hclient, Hinstall in Hrun. simpl in Hrun.
  destruct (RunCmd.firefoxProfile params) as [[|c path]|],
    (RunCmd.keepProfileChanges params); simpl in Hrun;
    run_cases Hrun; try not_in_trace Hin;
    (split; [done|]);
    (split; [eexists; in_list|]);
    (split; [intros Hk; not_in_trace Hk|]);
    intros dir addonId Hk; not_in_trace Hk.
Qed.

End RunCommandCalls.

Section LegacyRunCommandCalls.

Context {FirefoxProcess : Type}.
Variable getValidatedManifest : string -> Settled FirefoxApp.ExtensionManifest.

(** X15. The earlier revision of the run command asks for the remote
    client also when it installs to the profile: with [installToProfile]
    it never installs a temporary add-on, yet it resolves only if
    [firefoxClient] does, after the calls for the profile, the shadow
    install, the browser and the client, in this order, and the reload
    strategy unless [noReload]. *)
Theorem legacy_run_connects_after_install_to_profile
    (params : RunCmdLegacy.CmdRunParams)
    (options : RunCmdLegacy.CmdRunOptions (FirefoxProcess := FirefoxProcess))
    outcome trace :
  RunCmdLegacy.installToProfile params = true ->
  RunCmdLegacy.run getValidatedManifest params options [] = (outcome, trace) ->
  (forall dir, InstallTemporaryAddon dir ∉ trace)
  /\ (isFulfilled outcome = true ->
      isFulfilled (RunCmdLegacy.firefoxClient options) = true
      /\ exists request,
           FirefoxApp.asShadowInstall request = Some true
           /\ FirefoxApp.sourceDir request = Some (RunCmdLegacy.sourceDir params)
           /\ trace
              = [profileCall (RunCmdLegacy.firefoxProfile params) false;
                 InstallExtension request;
                 FirefoxRun (RunCmdLegacy.firefoxBinary params) [];
                 FirefoxClient]
                ++ (if RunCmdLegacy.noReload params then []
                    else [ReloadStrategy (RunCmdLegacy.sourceDir params) None])).
Proof.
  intros Hinstall Hrun.
  unfold RunCmdLegacy.run, RunCmdLegacy.createRunner, RunCmdLegacy.getProfile,
    RunCmdLegacy.installAsTextFileInProfile, RunCmdLegacy.runnerRun,
    RunCmdLegacy.installAsTemporaryAddon, profileCall in *.
  async_unfold.
  cbn [RunCmdLegacy.runner_sourceDir RunCmdLegacy.runner_manifestData
       RunCmdLegacy.runner_firefoxProfile RunCmdLegacy.runner_firefox
       RunCmdLegacy.runner_firefoxBinary] in Hrun.
  rewrite Hinstall in Hrun. simpl in Hrun.
  destruct (RunCmdLegacy.firefoxProfile params) as [[|ch path]|];
    simpl in Hrun; run_cases Hrun;
    (split; [intros dir Hk; not_in_trace Hk|]); try done;
    intros _; (split; [done|]);
    (eexists (RunCmdLegacy.shadowInstallParams _ _);
     split; [|split]; [| |reflexivity]; reflexivity).
Qed.

End LegacyRunCommandCalls.

(** A pre-installing run, with a browser that refuses connections and
    with one that accepts them. *)
Lemma pre_install_run_needs_no_client_witness :
  RunCmd.run (fun _ => Fulfilled minimalManifest) (fun _ => None)
    preInstallRunParams
    (RunCmd.mkCmdRunOptions fakeFirefoxApp (Rejected tcpConnectError)) []
  = RunCmd.run (fun _ => Fulfilled minimalManifest) (fun _ => None)
      preInstallRunParams
      (RunCmd.mkCmdRunOptions fakeFirefoxApp (Fulfilled currentFirefox)) [].
Proof.
  destruct (pre_install_run_needs_no_client
              (fun _ => Fulfilled minimalManifest) (fun _ => None)
              preInstallRunParams
              (RunCmd.mkCmdRunOptions fakeFirefoxApp (Fulfilled currentFirefox))
              (RunCmd.mkCmdRunOptions fakeFirefoxApp (Rejected tcpConnectError)))
    as [H _]; [reflexivity|reflexivity|exact H].
Defined.

(** A run from a terminal with reloading on. *)
Lemma resolved_run_calls_in_order_witness :
  exists binaryArgs installResult,
    snd (RunCmd.run (fun _ => Fulfilled minimalManifest) (fun _ => None)
           reloadingRunParams
           (RunCmd.mkCmdRunOptions fakeFirefoxApp (Fulfilled currentFirefox)) [])
    = [CreateProfile; FirefoxRun None binaryArgs; FirefoxClient;
       InstallTemporaryAddon "/src/minimal-web-ext"; KeypressLoop;
       ReloadStrategy "/src/minimal-web-ext" (Some (addon_id installResult))].
Proof.
  destruct (resolved_run_calls_in_order
              (fun _ => Fulfilled minimalManifest) (fun _ => None)
              reloadingRunParams
              (RunCmd.mkCmdRunOptions fakeFirefoxApp (Fulfilled currentFirefox))
              (snd (RunCmd.run (fun _ => Fulfilled minimalManifest)
                      (fun _ => None) reloadingRunParams
                      (RunCmd.mkCmdRunOptions fakeFirefoxApp
                         (Fulfilled currentFirefox)) [])))
    as (binaryArgs & client & installResult & _ & _ & Htrace & _);
    [reflexivity|vm_compute; reflexivity|].
  exists binaryArgs, installResult. exact Htrace.
Defined.

(** The same run when the installation answers without an id. *)
Lemma run_fails_on_missing_addon_id_witness :
  fst (RunCmd.run (fun _ => Fulfilled minimalManifest) (fun _ => None)
         reloadingRunParams
         (RunCmd.mkCmdRunOptions fakeFirefoxApp (Fulfilled anonymousInstall)) [])
  = Rejected (JsErrorValue (newWebExtError
      "Unexpected missing addonId in the installAsTemporaryAddon result")).
Proof.
  destruct (run_fails_on_missing_addon_id
              (fun _ => Fulfilled minimalManifest) (fun _ => None)
              reloadingRunParams
              (RunCmd.mkCmdRunOptions fakeFirefoxApp (Fulfilled anonymousInstall))
              anonymousInstall (mkAddonResponse EmptyString)
              (fst (RunCmd.run (fun _ => Fulfilled minimalManifest)
                      (fun _ => None) reloadingRunParams
                      (RunCmd.mkCmdRunOptions fakeFirefoxApp
                         (Fulfilled anonymousInstall)) []))
              (snd (RunCmd.run (fun _ => Fulfilled minimalManifest)
                      (fun _ => None) reloadingRunParams
                      (RunCmd.mkCmdRunOptions fakeFirefoxApp
                         (Fulfilled anonymousInstall)) [])))
    as [H _];
    [reflexivity|vm_compute; reflexivity|vm_compute; in_list
    |reflexivity|reflexivity|reflexivity|exact H].
Defined.

(** A run of the earlier revision with [--install-to-profile]. *)
Lemma legacy_run_connects_after_install_to_profile_witness :
  exists request,
    FirefoxApp.asShadowInstall request = Some true
    /\ snd (RunCmdLegacy.run (fun _ => Fulfilled minimalManifest)
              installToProfileParams
              (RunCmdLegacy.mkCmdRunOptions (Fulfilled currentFirefox)
                 fakeFirefoxApp) [])
       = [CreateProfile; InstallExtension request; FirefoxRun None [];
          FirefoxClient; ReloadStrategy "/src/minimal-web-ext" None].
Proof.
  destruct (legacy_run_connects_after_install_to_profile
              (fun _ => Fulfilled minimalManifest) installToProfileParams
              (RunCmdLegacy.mkCmdRunOptions (Fulfilled currentFirefox)
                 fakeFirefoxApp)
              (fst (RunCmdLegacy.run (fun _ => Fulfilled minimalManifest)
                      installToProfileParams
                      (RunCmdLegacy.mkCmdRunOptions (Fulfilled currentFirefox)
                         fakeFirefoxApp) []))
              (snd (RunCmdLegacy.run (fun _ => Fulfilled minimalManifest)
                      installToProfileParams
                      (RunCmdLegacy.mkCmdRunOptions (Fulfilled currentFirefox)
                         fakeFirefoxApp) [])))
    as [_ H]; [reflexivity|vm_compute; reflexivity|].
  destruct H as (_ & request & Hshadow & _ & Htrace); [reflexivity|].
  exists request. split; [exact Hshadow|exact Htrace].
Defined.

(** ** The reload strategy of the extension runners *)

Section ReloadStrategyFacts.

Import ReloadStrategy.

Variable createFileFilter :
  string -> string -> option (list string) -> string -> bool.

Lemma reactAll_app inputs inputs' (s : Strategy) :
  reactAll (inputs ++ inputs') s
  = let '(s1, calls) := reactAll inputs s in
    let '(s2, later) := reactAll inputs' s1 in
    (s2, calls ++ later).
Proof.
  revert s. induction inputs as [|input inputs IH]; intros s; simpl.
  - by destruct (reactAll inputs' s).
  - destruct (react input s) as [s1 calls]. rewrite IH.
    destruct (reactAll inputs s1) as [s2 later].
    destruct (reactAll inputs' s2) as [s3 last].
    by rewrite app_assoc.
Qed.

Lemma callsOf_app c calls calls' :
  callsOf c (calls ++ calls') = callsOf c calls + callsOf c calls'.
Proof. unfold callsOf. by rewrite filter_app, length_app. Qed.

Lemma rawModeAfter_app raw calls calls' :
  rawModeAfter raw (calls ++ calls')
  = rawModeAfter (rawModeAfter raw calls) calls'.
Proof.
  revert raw. induction calls as [|c calls IH]; intros raw; [done|].
  destruct c; simpl; apply IH.
Qed.

Lemma signalsOutOfRawMode_app raw calls calls' :
  signalsOutOfRawMode raw (calls ++ calls')
  = signalsOutOfRawMode raw calls
    && signalsOutOfRawMode (rawModeAfter raw calls) calls'.
Proof.
  revert raw. induction calls as [|c calls IH]; intros raw; [done|].
  destruct c; simpl; rewrite ?IH; try done.
  by rewrite andb_assoc.
Qed.

(** What stays of a strategy whatever happens to it. *)
Lemma react_keeps input (s : Strategy) :
  watcher (fst (react input s)) = watcher s
  /\ allowInput (fst (react input s)) = allowInput s
  /\ strategyStdin (fst (react input s)) = strategyStdin s.
Proof.
  destruct input as [key| |]; simpl; [|done..].
  destruct (awaitingKey s); [|done]. unfold keypress.
  destruct (isCtrlC key); [done|].
  destruct (bool_decide (name key = Some "z")); [done|].
  by destruct (bool_decide (name key = Some "r")).
Qed.

(** Without an awaited key. *)
Lemma reactAll_without_keys dir inputs (s : Strategy) :
  awaitingKey s = false ->
  onChange (watcher s) = [ReloadExtensionBySourceDir dir] ->
  reactAll inputs s = (s, flat_map (withoutKeys dir (allowInput s)) inputs).
Proof.
  intros Hidle Hwatch.
  induction inputs as [|input inputs IH]; [done|]. simpl.
  assert (react input s = (s, withoutKeys dir (allowInput s) input)) as ->.
  { destruct input as [key| |]; simpl; by rewrite ?Hidle, ?Hwatch. }
  by rewrite IH.
Qed.

(** The keypress loop, from a strategy that awaits a key. *)
Lemma reactAll_keys dir inputs :
  forall s : Strategy,
    awaitingKey s = true ->
    onChange (watcher s) = [ReloadExtensionBySourceDir dir] ->
    let '(s', calls) := reactAll inputs s in
    awaitingKey s' = negb (existsb isCtrlCInput inputs)
    /\ callsOf Exit calls = (if existsb isCtrlCInput inputs then 1 else 0)
    /\ callsOf ReloadAllExtensions calls
       = length (List.filter isReloadInput (untilCtrlC inputs)).
Proof.
  induction inputs as [|input inputs IH]; intros s Hwait Hwatch; [done|].
  simpl. destruct (isCtrlCInput input) eqn:Hctrl.
  - destruct input as [key| |]; simpl in Hctrl; try done.
    simpl. rewrite Hwait. unfold keypress. rewrite Hctrl.
    rewrite (reactAll_without_keys dir); [|done..].
    cbn [allowInput]. split; [done|].
    assert (Hnone : forall c,
              (forall d, c <> ReloadExtensionBySourceDir d) ->
              c <> WatcherClose -> c <> StdinPause ->
              callsOf c (flat_map (withoutKeys dir (allowInput s)) inputs) = 0).
    { intros c Hc1 Hc2 Hc3. clear IH.
      induction inputs as [|i inputs IH]; [done|]. simpl.
      rewrite callsOf_app, IH. unfold callsOf.
      destruct i as [k| |]; simpl; [done| |].
      - rewrite filter_cons_False; [done|]. intros <-. by eapply Hc1.
      - rewrite filter_cons_False by (intros <-; done).
        destruct (allowInput s); [|done].
        by rewrite filter_cons_False by (intros <-; done). }
    rewrite !callsOf_app, !Hnone by done. done.
  - assert (exists calls,
              react input s = (s, calls)
              /\ callsOf Exit calls = 0
              /\ callsOf ReloadAllExtensions calls
                 = if isReloadInput input then 1 else 0)
      as (calls & -> & Hexit & Hreload).
    { destruct input as [key| |]; simpl in *.
      - rewrite Hwait. unfold keypress. rewrite Hctrl.
        destruct (bool_decide (name key = Some "z")) eqn:Hz.
        + apply bool_decide_eq_true in Hz.
          rewrite Hz. eexists. split; [done|].
          by destruct (isTtyReadStream (strategyStdin s)).
        + destruct (bool_decide (name key = Some "r")); eexists; done.
      - rewrite Hwatch. eexists. done.
      - eexists. split; [done|]. by destruct (allowInput s). }
    specialize (IH s Hwait Hwatch).
    destruct (reactAll inputs s) as [s' later].
    destruct IH as (Hwait' & Hexit' & Hreload').
    rewrite !callsOf_app, Hexit, Hexit', Hreload, Hreload'.
    split; [done|]. split; [done|].
    simpl. by destruct (isReloadInput input).
Qed.

Lemma reactAll_raw_mode dir inputs :
  forall s : Strategy,
    isTtyReadStream (strategyStdin s) = true ->
    onChange (watcher s) = [ReloadExtensionBySourceDir dir] ->
    signalsOutOfRawMode true (snd (reactAll inputs s)) = true
    /\ rawModeAfter true (snd (reactAll inputs s)) = true.
Proof.
  induction inputs as [|input inputs IH]; intros s Htty Hwatch; [done|].
  simpl.
  assert (signalsOutOfRawMode true (snd (react input s)) = true
          /\ rawModeAfter true (snd (react input s)) = true) as [Hsig Hraw].
  { destruct input as [key| |]; simpl.
    - destruct (awaitingKey s); [|done]. unfold keypress.
      destruct (isCtrlC key); [done|].
      destruct (bool_decide (name key = Some "z")); [by rewrite Htty|].
      by destruct (bool_decide (name key = Some "r")).
    - by rewrite Hwatch.
    - by destruct (allowInput s). }
  destruct (react_keeps input s) as (Hw & _ & Hs).
  destruct (react input s) as [s1 calls]. simpl in *.
  specialize (IH s1). rewrite Hw, Hs in IH. specialize (IH Htty Hwatch).
  destruct (reactAll inputs s1) as [s2 later]. simpl in *.
  rewrite signalsOutOfRawMode_app, rawModeAfter_app, Hsig, Hraw. done.
Qed.

(** X16. Unless input is allowed and standard input is a terminal, the
    reload strategy starts no keypress loop: setting it up only registers
    the cleanup callback, and afterwards no key does anything. Every
    source change still reloads the extension by the strategy's source
    directory, and every cleanup closes the watcher and pauses standard
    input, unless [noInput] was given. *)
Theorem strategy_without_terminal_ignores_keys
    (params : ReloadStrategyParams) (options : ReloadStrategyOptions)
    (inputs : list Input) :
  createWatcher options = None ->
  default false (noInput params) = true
  \/ isTTY (stdin options) = false
  \/ isTtyReadStream (stdin options) = false ->
  let '(s, setup) := defaultReloadStrategy createFileFilter params options in
  setup = [RegisterCleanup]
  /\ snd (reactAll inputs s)
     = flat_map (withoutKeys (sourceDir params)
                   (negb (default false (noInput params))))
         inputs.
Proof.
  intros Hcreate Hoff. unfold defaultReloadStrategy. rewrite Hcreate.
  cbn [default from_option id].
  assert (negb (default false (noInput params)) && isTTY (stdin options)
          && isTtyReadStream (stdin options) = false) as ->.
  { destruct Hoff as [-> |[-> | ->]]; [done|..].
    - by rewrite andb_false_r.
    - by rewrite andb_false_r. }
  split; [done|].
  by rewrite (reactAll_without_keys (sourceDir params)).
Qed.

(** X17. When input is allowed and standard input is a terminal, the
    keypress loop of the reload strategy exits the runner once, on the
    first Ctrl-C, and not at all without one; until then every key named
    [r] reloads all extensions, once each, and no key does so afterwards,
    since the loop then awaits no further key. *)
Theorem keypress_loop_exits_once_on_ctrl_c
    (params : ReloadStrategyParams) (options : ReloadStrategyOptions)
    (inputs : list Input) :
  createWatcher options = None ->
  default false (noInput params) = false ->
  isTTY (stdin options) = true ->
  isTtyReadStream (stdin options) = true ->
  let '(s, setup) := defaultReloadStrategy createFileFilter params options in
  let '(s', calls) := reactAll inputs s in
  setup = [RegisterCleanup; EmitKeypressEvents; SetRawMode true]
  /\ awaitingKey s' = negb (existsb isCtrlCInput inputs)
  /\ callsOf Exit calls = (if existsb isCtrlCInput inputs then 1 else 0)
  /\ callsOf ReloadAllExtensions calls
     = length (List.filter isReloadInput (untilCtrlC inputs)).
Proof.
  intros Hcreate Hinput Htty Hstream. unfold defaultReloadStrategy.
  rewrite Hcreate, Hinput, Htty, Hstream. cbn [default from_option id negb andb].
  pose proof (reactAll_keys (sourceDir params) inputs
                (mkStrategy
                   (defaultWatcherCreator createFileFilter
                      (mkWatcherCreatorParams
                         (fun watchedSourceDir =>
                            [ReloadExtensionBySourceDir watchedSourceDir])
                         (sourceDir params) (artifactsDir params)
                         (ignoreFiles params)))
                   true (stdin options) true) eq_refl eq_refl) as Hkeys.
  destruct (reactAll inputs _) as [s' calls]. by split.
Qed.

(** X18. The reload strategy sends its suspension signal only while
    standard input is out of raw mode, and whatever keys are pressed,
    files change or cleanups run, standard input is in raw mode
    afterwards: a suspension restores it, and neither the exit of the
    loop nor the cleanup switches it off. *)
Theorem suspension_leaves_and_restores_raw_mode
    (params : ReloadStrategyParams) (options : ReloadStrategyOptions)
    (inputs : list Input) :
  createWatcher options = None ->
  default false (noInput params) = false ->
  isTTY (stdin options) = true ->
  isTtyReadStream (stdin options) = true ->
  let '(s, setup) := defaultReloadStrategy createFileFilter params options in
  let calls := setup ++ snd (reactAll inputs s) in
  signalsOutOfRawMode false calls = true
  /\ rawModeAfter false calls = true.
Proof.
  intros Hcreate Hinput Htty Hstream. unfold defaultReloadStrategy.
  rewrite Hcreate, Hinput, Htty, Hstream. cbn [default from_option id negb andb].
  rewrite signalsOutOfRawMode_app, rawModeAfter_app.
  cbn [signalsOutOfRawMode rawModeAfter andb].
  by apply (reactAll_raw_mode (sourceDir params)).
Qed.

End ReloadStrategyFacts.

Section ReloadStrategyRuns.

Import ReloadStrategy.

(** With [--no-input]: [r] and Ctrl-C do nothing, a source change
    reloads, the cleanup closes the watcher and leaves standard input
    alone. *)
Lemma strategy_without_terminal_ignores_keys_witness :
  snd (reactAll
         [Keypress keyR; SourceChange; Keypress keyCtrlC; RunnerCleanup]
         (fst (defaultReloadStrategy (fun _ _ _ _ => true)
                 (mkStrategyParams "/src/minimal-web-ext/artifacts" None
                    (Some true) "/src/minimal-web-ext")
                 (mkStrategyOptions None terminal))))
  = [ReloadExtensionBySourceDir "/src/minimal-web-ext"; WatcherClose].
Proof.
  pose proof (strategy_without_terminal_ignores_keys (fun _ _ _ _ => true)
                (mkStrategyParams "/src/minimal-web-ext/artifacts" None
                   (Some true) "/src/minimal-web-ext")
                (mkStrategyOptions None terminal)
                [Keypress keyR; SourceChange; Keypress keyCtrlC; RunnerCleanup]
                eq_refl (or_introl eq_refl)) as H.
  destruct (defaultReloadStrategy _ _ _) as [s setup].
  destruct H as [_ H]. exact H.
Defined.

(** Two reloads, a Ctrl-C, and an [r] that comes too late. *)
Lemma keypress_loop_exits_once_on_ctrl_c_witness :
  let calls :=
    snd (reactAll
           [Keypress keyR; Keypress keyR; Keypress keyCtrlC; Keypress keyR;
            Keypress keyCtrlC]
           (fst (defaultReloadStrategy (fun _ _ _ _ => true) strategyParams
                   (mkStrategyOptions None terminal)))) in
  callsOf Exit calls = 1 /\ callsOf ReloadAllExtensions calls = 2.
Proof.
  pose proof (keypress_loop_exits_once_on_ctrl_c (fun _ _ _ _ => true)
                strategyParams (mkStrategyOptions None terminal)
                [Keypress keyR; Keypress keyR; Keypress keyCtrlC;
                 Keypress keyR; Keypress keyCtrlC]
                eq_refl eq_refl eq_refl eq_refl) as H.
  destruct (defaultReloadStrategy _ _ _) as [s setup].
  cbn [fst]. destruct (reactAll _ s) as [s' calls].
  destruct H as (_ & _ & Hexit & Hreload). split; [exact Hexit|exact Hreload].
Defined.

(** A suspension between a reload and the exit. *)
Lemma suspension_leaves_and_restores_raw_mode_witness :
  let '(s, setup) :=
    defaultReloadStrategy (fun _ _ _ _ => true) strategyParams
      (mkStrategyOptions None terminal) in
  setup ++ snd (reactAll [Keypress keyR; Keypress keyZ; Keypress keyCtrlC] s)
  = [RegisterCleanup; EmitKeypressEvents; SetRawMode true;
     ReloadAllExtensions;
     SetRawMode false; Kill "SIGTSTP"; SetRawMode true;
     Exit]
  /\ rawModeAfter false
       (setup
        ++ snd (reactAll [Keypress keyR; Keypress keyZ; Keypress keyCtrlC] s))
     = true.
Proof.
  pose proof (suspension_leaves_and_restores_raw_mode (fun _ _ _ _ => true)
                strategyParams (mkStrategyOptions None terminal)
                [Keypress keyR; Keypress keyZ; Keypress keyCtrlC]
                eq_refl eq_refl eq_refl eq_refl) as H.
  destruct (defaultReloadStrategy _ _ _) as [s setup] eqn:Hsetup.
  destruct H as [_ H]. split; [|exact H].
  vm_compute in Hsetup. injection Hsetup as <- <-. reflexivity.
Defined.

End ReloadStrategyRuns.

(** ** Reloading the add-on from the run command *)

Section AddonReload.

Import RunCmdReload.

Variable createFileFilter :
  string -> string -> option (list string) -> string -> bool.

Lemma defaultAddonReload_outcome addonId client calls :
  defaultAddonReload addonId client calls
  = match reloadAddon client addonId with
    | Fulfilled _ => (Fulfilled tt, calls ++ [ReloadAddon addonId])
    | Rejected JsUndefined =>
        (Rejected (FirefoxApp.typeError
                     "Cannot read property 'stack' of undefined"),
         calls ++ [ReloadAddon addonId])
    | Rejected (JsErrorValue e) =>
        (Rejected (JsErrorValue e),
         calls ++ [ReloadAddon addonId;
                   DesktopNotification "web-ext run: error occurred"
                     (message e)])
    end.
Proof.
  unfold defaultAddonReload, call. async_unfold.
  destruct (reloadAddon client addonId) as [[]|[|e]]; simpl; [done..|].
  by rewrite <- app_assoc.
Qed.

(** X19. [defaultAddonReload] asks the client once to reload the add-on
    and settles as that request does when it resolves or is rejected with
    an [Error]: it shows one desktop notification, titled 'web-ext run:
    error occurred' and carrying the error's message, exactly when the
    request is rejected, and then fails with the same error. The watcher
    made by [defaultWatcherCreator] does just this, for the add-on and
    client it was made for, on every source change. *)
Theorem addon_reload_notifies_and_rethrows
    (p : WatcherCreatorParams) (calls : list Call) :
  addonReload p = None ->
  reloadAddon (client p) (addonId p) <> Rejected JsUndefined ->
  let result :=
    onChange (defaultWatcherCreator createFileFilter p) calls in
  result = defaultAddonReload (addonId p) (client p) calls
  /\ fst result = reloadAddon (client p) (addonId p)
  /\ exists shown,
       snd result = calls ++ ReloadAddon (addonId p) :: shown
       /\ match reloadAddon (client p) (addonId p) with
          | Fulfilled _ => shown = []
          | Rejected error =>
              exists e,
                error = JsErrorValue e
                /\ shown = [DesktopNotification "web-ext run: error occurred"
                              (message e)]
          end.
Proof.
  intros Hdefault Hdefined result. subst result.
  unfold defaultWatcherCreator. rewrite Hdefault.
  cbn [default from_option id onChange].
  split; [done|]. rewrite defaultAddonReload_outcome.
  destruct (reloadAddon (client p) (addonId p)) as [[]|[|e]]; [|done|].
  - split; [done|]. by exists [].
  - split; [done|]. eexists. split; [done|]. by exists e.
Qed.

Lemma keypressLoop_passes_over addonReload addonId client pre keys calls :
  forallb passedOver pre = true ->
  keypressLoop addonReload addonId client (pre ++ keys) calls
  = keypressLoop addonReload addonId client keys calls.
Proof.
  induction pre as [|key pre IH]; [done|]. simpl. unfold passedOver at 1.
  intros [[Hc Hr]%andb_true_iff Hrest]%andb_true_iff.
  apply negb_true_iff in Hc, Hr. rewrite Hc, Hr. simpl. by apply IH.
Qed.

(** X20. The keypress loop of the run command awaits the reload it
    starts: when the client rejects the reload, the first [r] that is
    pressed ends the loop with that error, after one reload request and
    one notification. Whatever is pressed afterwards, a Ctrl-C included,
    Firefox is not killed and standard input is not paused. *)
Theorem failed_reload_ends_keypress_loop
    (addonId : string) (client : RemoteFirefox) (e : JsError)
    (pre post : list ReloadStrategy.Key) (key : ReloadStrategy.Key) :
  addonId <> EmptyString ->
  reloadAddon client addonId = Rejected (JsErrorValue e) ->
  forallb passedOver pre = true ->
  isReloadKey key = true ->
  keypressLoop defaultAddonReload addonId client (pre ++ key :: post) []
  = (Rejected (JsErrorValue e),
     [ReloadAddon addonId;
      DesktopNotification "web-ext run: error occurred" (message e)]).
Proof.
  intros Hid Hreload Hpre [Hc Hr]%andb_true_iff.
  apply negb_true_iff in Hc.
  rewrite keypressLoop_passes_over by done.
  cbn [keypressLoop]. rewrite Hc, Hr.
  assert (FirefoxApp.truthyString (Some addonId) = true) as ->
      by (by destruct addonId).
  cbn [andb]. async_unfold.
  rewrite defaultAddonReload_outcome, Hreload. done.
Qed.

(** X21. With a client that reloads the add-on whenever asked, the
    keypress loop of the run command asks for one reload for each [r]
    pressed before the first Ctrl-C; on that Ctrl-C it kills Firefox and
    then pauses standard input, once, and reads no further key; without
    a Ctrl-C it does neither and goes on awaiting keys. *)
Theorem keypress_loop_kills_firefox_on_ctrl_c
    (addonId : string) (client : RemoteFirefox)
    (keys : list ReloadStrategy.Key) :
  addonId <> EmptyString ->
  reloadAddon client addonId = Fulfilled tt ->
  keypressLoop defaultAddonReload addonId client keys []
  = (Fulfilled (if existsb ReloadStrategy.isCtrlC keys
                then UserExit else AwaitingKey),
     replicate (length (List.filter isReloadKey (keysUntilCtrlC keys)))
       (ReloadAddon addonId)
     ++ if existsb ReloadStrategy.isCtrlC keys
        then [FirefoxKill; StdinPause] else []).
Proof.
  intros Hid Hreload.
  assert (Htruthy : FirefoxApp.truthyString (Some addonId) = true)
    by (by destruct addonId).
  assert (Hgen : forall calls,
            keypressLoop defaultAddonReload addonId client keys calls
            = (Fulfilled (if existsb ReloadStrategy.isCtrlC keys
                          then UserExit else AwaitingKey),
               calls
               ++ replicate
                    (length (List.filter isReloadKey (keysUntilCtrlC keys)))
                    (ReloadAddon addonId)
               ++ if existsb ReloadStrategy.isCtrlC keys
                  then [FirefoxKill; StdinPause] else [])).
  { induction keys as [|key keys IH]; intros calls;
      cbn [keypressLoop existsb keysUntilCtrlC].
    - by rewrite app_nil_r.
    - destruct (ReloadStrategy.isCtrlC key) eqn:Hc.
      + unfold call. async_unfold. simpl. by rewrite <- app_assoc.
      + rewrite Htruthy, andb_true_r.
        cbn [List.filter orb]. unfold isReloadKey at 1. rewrite Hc.
        cbn [negb andb].
        destruct (bool_decide (ReloadStrategy.name key = Some "r")).
        * async_unfold. rewrite defaultAddonReload_outcome, Hreload, IH.
          simpl. by rewrite <- app_assoc.
        * apply IH. }
  apply Hgen.
Qed.

End AddonReload.

(** A source change while the client cannot reload. *)
Lemma addon_reload_notifies_and_rethrows_witness :
  RunCmdReload.onChange
    (RunCmdReload.defaultWatcherCreator (fun _ _ _ _ => true)
       (RunCmdReload.mkWatcherCreatorParams
          "minimal-example@web-ext-test-suite" brokenReload
          "/src/minimal-web-ext" "/src/minimal-web-ext/artifacts" None None))
    []
  = (Rejected reloadFailure,
     [RunCmdReload.ReloadAddon "minimal-example@web-ext-test-suite";
      RunCmdReload.DesktopNotification "web-ext run: error occurred"
        "reload failed"]).
Proof.
  destruct (addon_reload_notifies_and_rethrows (fun _ _ _ _ => true)
              (RunCmdReload.mkWatcherCreatorParams
                 "minimal-example@web-ext-test-suite" brokenReload
                 "/src/minimal-web-ext" "/src/minimal-web-ext/artifacts"
                 None None) [])
    as (H & _); [reflexivity|discriminate|].
  rewrite H. reflexivity.
Defined.

(** [z], then [r] with a client that cannot reload, then Ctrl-C. *)
Lemma failed_reload_ends_keypress_loop_witness :
  RunCmdReload.keypressLoop RunCmdReload.defaultAddonReload
    "minimal-example@web-ext-test-suite" brokenReload
    ([keyZ] ++ keyR :: [keyCtrlC]) []
  = (Rejected reloadFailure,
     [RunCmdReload.ReloadAddon "minimal-example@web-ext-test-suite";
      RunCmdReload.DesktopNotification "web-ext run: error occurred"
        "reload failed"]).
Proof.
  apply (failed_reload_ends_keypress_loop
           "minimal-example@web-ext-test-suite" brokenReload
           (mkError ErrorCls "reload failed" None) [keyZ] [keyCtrlC] keyR);
    [discriminate|reflexivity|reflexivity|reflexivity].
Defined.

(** Two reloads and a Ctrl-C. *)
Lemma keypress_loop_kills_firefox_on_ctrl_c_witness :
  RunCmdReload.keypressLoop RunCmdReload.defaultAddonReload
    "minimal-example@web-ext-test-suite" currentFirefox
    [keyR; keyZ; keyR; keyCtrlC; keyR] []
  = (Fulfilled RunCmdReload.UserExit,
     [RunCmdReload.ReloadAddon "minimal-example@web-ext-test-suite";
      RunCmdReload.ReloadAddon "minimal-example@web-ext-test-suite";
      RunCmdReload.FirefoxKill; RunCmdReload.StdinPause]).
Proof.
  apply (keypress_loop_kills_firefox_on_ctrl_c
           "minimal-example@web-ext-test-suite" currentFirefox
           [keyR; keyZ; keyR; keyCtrlC; keyR]);
    [discriminate|reflexivity].
Defined.

(** ** Copying a profile *)

Section ProfileFacts.

Import FirefoxProfiles.

Context {Profile : Type}.
Variable setPreference : string -> PrefValue -> Profile -> Profile.
Variable updatePreferences : Profile -> Profile.
Variable defaultPrefGetter : string -> JsValue + list (string * PrefValue).
Variable isDirectory : string -> Settled bool.
Variable copy : string -> Settled Profile.
Variable defaultUserProfileCopier : string -> Settled Profile.
Variable toString : JsValue -> string.

(** The step named in the hypotheses is the one that happened. *)
Ltac wrapped_case :=
  intros; simplify_eq; simpl in *; simplify_eq; try done; congruence.

(** X22. [copyProfile] fails in one way only, and says why: whichever
    step fails, the look at the directory, the copy or the
    configuration, it is rejected with the [WebExtError] 'Could not copy
    Firefox profile from <profileDirectory>: <error>' made from what that
    step was rejected with, and it is rejected only so. It copies by
    directory exactly when [isDirectory] resolves to true and by name
    exactly when it resolves to false, never another profile than the one
    asked for, and when it resolves, it is with that copy as
    configured. *)
Theorem copyProfile_wraps_every_failure
    (profileDirectory : string) (options : ProfileOptions) :
  let byName :=
    default defaultUserProfileCopier (copyFromUserProfile options) in
  let configure :=
    default (fun profile app =>
               configureProfile setPreference updatePreferences
                 defaultPrefGetter profile (mkConfigureOptions app None))
            (configureThisProfile options) in
  let copied isDir :=
    if isDir : bool then copy profileDirectory else byName profileDirectory in
  let wrapped cause :=
    JsErrorValue (newWebExtError
      ("Could not copy Firefox profile from " ++ profileDirectory ++ ": "
       ++ toString cause)%string) in
  let result :=
    copyProfile setPreference updatePreferences defaultPrefGetter isDirectory
      copy defaultUserProfileCopier toString profileDirectory options [] in
  (forall cause,
     isDirectory profileDirectory = Rejected cause ->
     fst result = Rejected (wrapped cause))
  /\ (forall isDir cause,
        isDirectory profileDirectory = Fulfilled isDir ->
        copied isDir = Rejected cause ->
        fst result = Rejected (wrapped cause))
  /\ (forall isDir profile cause,
        isDirectory profileDirectory = Fulfilled isDir ->
        copied isDir = Fulfilled profile ->
        configure profile (app options) = Rejected cause ->
        fst result = Rejected (wrapped cause))
  /\ (forall isDir profile configured,
        isDirectory profileDirectory = Fulfilled isDir ->
        copied isDir = Fulfilled profile ->
        configure profile (app options) = Fulfilled configured ->
        fst result = Fulfilled configured)
  /\ (CopyDirectory profileDirectory ∈ snd result
      <-> isDirectory profileDirectory = Fulfilled true)
  /\ (CopyByName profileDirectory ∈ snd result
      <-> isDirectory profileDirectory = Fulfilled false)
  /\ (forall other,
        other <> profileDirectory ->
        (CopyDirectory other ∉ snd result)
        /\ (CopyByName other ∉ snd result)).
Proof.
  intros byName configure copied wrapped result. subst result copied wrapped.
  unfold copyProfile, callConfigure, pcall. async_unfold.
  fold byName. fold configure.
  destruct (isDirectory profileDirectory) as [[|]|r] eqn:Hdir; simpl.
  - destruct (copy profileDirectory) as [profile|r] eqn:Hcopy; simpl;
      [destruct (configure profile (app options)) as [configured|r] eqn:Hconf;
       simpl|];
      (split; [wrapped_case|]); (split; [wrapped_case|]);
      (split; [wrapped_case|]); (split; [wrapped_case|]);
      (split; [split; [done|intros _; in_list]|]);
      (split; [split; [intros H; not_in_trace H|done]|]);
      intros other Hother;
      (split; intros H; apply list_elem_of_In in H; simpl in H;
       intuition congruence).
  - destruct (byName profileDirectory) as [profile|r] eqn:Hcopy; simpl;
      [destruct (configure profile (app options)) as [configured|r] eqn:Hconf;
       simpl|];
      (split; [wrapped_case|]); (split; [wrapped_case|]);
      (split; [wrapped_case|]); (split; [wrapped_case|]);
      (split; [split; [intros H; not_in_trace H|done]|]);
      (split; [split; [done|intros _; in_list]|]);
      intros other Hother;
      (split; intros H; apply list_elem_of_In in H; simpl in H;
       intuition congruence).
  - (split; [wrapped_case|]); (split; [wrapped_case|]);
      (split; [wrapped_case|]); (split; [wrapped_case|]);
      (split; [split; [intros H; not_in_trace H|done]|]);
      (split; [split; [intros H; not_in_trace H|done]|]);
      intros other Hother;
      (split; intros H; apply list_elem_of_In in H; simpl in H;
       intuition congruence).
Qed.

End ProfileFacts.

(** A named profile whose copy cannot be configured: the message carries
    what [getPrefs] threw. *)
Lemma copyProfile_wraps_every_failure_witness :
  fst (FirefoxProfiles.copyProfile (Profile := string)
         (fun _ _ profile => profile) (fun profile => profile)
         (fun _ => inl (JsErrorValue
                          (newWebExtError "Unsupported application")))
         (fun _ => Fulfilled false)
         (fun _ => Rejected (FirefoxApp.fsError "ENOENT"))
         (fun name => Fulfilled name) errorToString
         "dev-edition-default"
         (FirefoxProfiles.mkProfileOptions None None None) [])
  = Rejected (JsErrorValue (newWebExtError
      ("Could not copy Firefox profile from dev-edition-default: "
       ++ "Error: Unsupported application")%string)).
Proof.
  destruct (copyProfile_wraps_every_failure (Profile := string)
              (fun _ _ profile => profile) (fun profile => profile)
              (fun _ => inl (JsErrorValue
                               (newWebExtError "Unsupported application")))
              (fun _ => Fulfilled false)
              (fun _ => Rejected (FirefoxApp.fsError "ENOENT"))
              (fun name => Fulfilled name) errorToString
              "dev-edition-default"
              (FirefoxProfiles.mkProfileOptions None None None))
    as (_ & _ & H & _).
  apply (H false "dev-edition-default"
           (JsErrorValue (newWebExtError "Unsupported application")));
    reflexivity.
Defined.

(** ** What an install leaves alone *)

Section InstallKeeps.

Import FirefoxApp.

Variable pathJoin : string -> string -> string.
Variable dirname : string -> string.

Lemma keepsFiles_refl (fs : Files) : keepsFiles fs fs.
Proof. by intros path. Qed.

Lemma keepsFiles_trans (fs1 fs2 fs3 : Files) :
  keepsFiles fs1 fs2 -> keepsFiles fs2 fs3 -> keepsFiles fs1 fs3.
Proof.
  intros H12 H23 path. destruct (H12 path), (H23 path). split; auto.
Qed.

Lemma keepsFiles_new (fs : Files) path node :
  fs !! path = None -> keepsFiles fs (<[path := node]> fs).
Proof.
  intros Hnew other.
  destruct (decide (other = path)) as [->|Hneq].
  - rewrite Hnew. split; [by intros [? ?]|done].
  - by rewrite lookup_insert_ne.
Qed.

Lemma keepsFiles_file (fs : Files) path content :
  fs !! path <> Some Directory ->
  keepsFiles fs (<[path := File content]> fs).
Proof.
  intros Hfile other.
  destruct (decide (other = path)) as [->|Hneq].
  - rewrite lookup_insert_eq. split; [by eexists|done].
  - by rewrite lookup_insert_ne.
Qed.

(** A stream at work makes or overwrites a file and nothing else. *)
Lemma openAndWrite_keeps (ws : WriteStream) (fs : Files) :
  keepsFiles fs (snd (openAndWrite dirname ws fs)).
Proof.
  unfold openAndWrite.
  destruct (fs !! wsPath ws) as [[|old]|] eqn:Hdest; cbn [snd].
  - apply keepsFiles_refl.
  - apply keepsFiles_file. by rewrite Hdest.
  - destruct (parentError dirname (wsPath ws) fs); cbn [snd];
      [apply keepsFiles_refl|by apply keepsFiles_new].
Qed.

Lemma drain_keeps (streams : list WriteStream) :
  forall fs : Files, keepsFiles fs (snd (drain dirname streams fs)).
Proof.
  induction streams as [|ws streams IH]; intros fs; [apply keepsFiles_refl|].
  cbn [drain]. pose proof (openAndWrite_keeps ws fs) as Hws.
  destruct (openAndWrite dirname ws fs) as [error fs1].
  specialize (IH fs1). destruct (drain dirname streams fs1) as [errors fs2].
  by apply (keepsFiles_trans _ fs1).
Qed.

Lemma keeps_ret {A} (a : A) : keeps (ret a).
Proof. intros fs. apply keepsFiles_refl. Qed.

Lemma keeps_throw {A} reason : keeps (throw (A := A) reason).
Proof. intros fs. apply keepsFiles_refl. Qed.

Lemma keeps_await {A} (promise : Settled A) : keeps (await promise).
Proof. intros fs. apply keepsFiles_refl. Qed.

Lemma keeps_bind {A B} (m : Async FileSystem A) (k : A -> Async FileSystem B) :
  keeps m -> (forall a, keeps (k a)) -> keeps (m ≫= k).
Proof.
  intros Hm Hk fs. unfold mbind, Async_bind, bind.
  specialize (Hm fs). destruct (m fs) as [[a|r] fs1]; [|done].
  by apply (keepsFiles_trans _ (files fs1)), Hk.
Qed.

Lemma keeps_tryCatch {A} (m : Async FileSystem A) handler :
  keeps m -> (forall error, keeps (handler error)) -> keeps (tryCatch m handler).
Proof.
  intros Hm Hh fs. unfold tryCatch.
  specialize (Hm fs). destruct (m fs) as [[a|r] fs1]; [done|].
  by apply (keepsFiles_trans _ (files fs1)), Hh.
Qed.

Lemma keeps_stat path : keeps (stat dirname path).
Proof.
  intros fs. unfold stat.
  destruct (files fs !! path); apply keepsFiles_refl.
Qed.

Lemma keeps_mkdir path : keeps (mkdir dirname path).
Proof.
  intros fs. unfold mkdir.
  destruct (files fs !! path) eqn:Hpath; [apply keepsFiles_refl|].
  destruct (parentError dirname path (files fs));
    [apply keepsFiles_refl|by apply keepsFiles_new].
Qed.

Lemma keeps_detach ws : keeps (detach ws).
Proof. intros fs. apply keepsFiles_refl. Qed.

Lemma keeps_write ws chunk : keeps (write ws chunk).
Proof.
  destruct chunk as [data|]; [apply keeps_ret|].
  apply keeps_bind; [apply keeps_detach|intros _; apply keeps_throw].
Qed.

Lemma keeps_streamToPromise ws : keeps (streamToPromise dirname ws).
Proof.
  unfold streamToPromise. destruct (wsEnded ws); [apply keeps_detach|].
  intros fs. pose proof (openAndWrite_keeps ws (files fs)) as Hws.
  by destruct (openAndWrite dirname ws (files fs)) as [[error|] fs1].
Qed.

Lemma keeps_readStream path : keeps (readStream dirname path).
Proof.
  intros fs. unfold readStream.
  destruct (files fs !! path) as [[|content]|]; apply keepsFiles_refl.
Qed.

Lemma keeps_pipe path ws : keeps (pipe dirname path ws).
Proof.
  apply keeps_tryCatch.
  - apply keeps_bind; [apply keeps_readStream|intros content; apply keeps_write].
  - intros error.
    apply keeps_bind; [apply keeps_detach|intros _; apply keeps_throw].
Qed.

Lemma keeps_installExtension p : keeps (installExtension pathJoin dirname p).
Proof.
  unfold installExtension.
  apply keeps_bind.
  - apply keeps_tryCatch.
    + destruct (truthyString _); [apply keeps_stat|apply keeps_throw].
    + intros error. unfold onlyErrorsWithCode.
      destruct (isErrorWithCode _ _); [apply keeps_mkdir|apply keeps_throw].
  - intros _. apply keeps_bind; [apply keeps_await|]. intros extId.
    destruct (truthyBool _).
    + apply keeps_bind; [apply keeps_write|].
      intros ws. apply keeps_streamToPromise.
    + destruct (extensionPath p) as [xpi|]; [|apply keeps_throw].
      apply keeps_bind; [apply keeps_pipe|].
      intros ws. apply keeps_streamToPromise.
Qed.

(** X23. Whatever it is asked for and however it ends, [installExtension]
    removes nothing: every path that was there before is there
    afterwards, and every directory is still a directory, when the
    promise settles as well as when the streams it left behind have done
    their work. *)
Theorem install_removes_nothing (p : InstallParams) (fs : FileSystem) :
  keepsPaths dirname fs (snd (installExtension pathJoin dirname p fs)).
Proof.
  pose proof (keeps_installExtension p fs) as Hnow.
  split; [exact Hnow|].
  eapply keepsFiles_trans; [exact Hnow|]. apply drain_keeps.
Qed.

End InstallKeeps.
